(** * 2FA-App: the credential vault, the PIN gate and the encrypted backup

    A shallow embedding of [core/secure_storage.py], [core/app_lock.py],
    the unlock protocol of [main.py] and the backup and restore handlers
    of [ui/settings_frame.py], with the properties of the specification
    stated and settled against it.

    Conventions of the embedding.
    - A Python [str] is a [string] (its UTF-8 bytes); [bytes] is
      [list byte].
    - A JSON document is a [pyval]; the keyring holds, for the vault
      service, the document whose [json.dumps] text the code stored
      ([json.loads] of that text gives the document back, and the text
      of a document is never empty, so [if secret_json:] is the test
      for presence).
    - Code that calls the keyring, prints or raises runs in the monad
      [M]: a function of the [world] that returns a value or a raised
      exception together with the world it leaves.
    - The keyring backend may fail: the world carries a [plan] that
      tells, call after call, whether the next backend call goes through
      or raises. An empty plan is a backend that works. *)

From Stdlib Require Import String Ascii List ZArith Lia Bool.
From Stdlib.Strings Require Import Byte.
From stdpp Require Import base option strings pretty list gmap.
From Ceres Require CeresS CeresFormat CeresParser.

Local Open Scope string_scope.
Local Open Scope list_scope.

(** ** Python values *)

Module Py.

(** The values [json.loads] can return (floats apart). *)
#[warnings="-register-all"]
Inductive pyval : Type :=
| PNone
| PBool (b : bool)
| PInt (z : Z)
| PStr (s : string)
| PList (l : list pyval)
| PDict (d : list (string * pyval)).

(** Truth value of an object in a condition. *)
Definition truthy (v : pyval) : bool :=
  match v with
  | PNone => false
  | PBool b => b
  | PInt z => negb (Z.eqb z 0)
  | PStr s => negb (String.eqb s "")
  | PList l => match l with [] => false | _ => true end
  | PDict d => match d with [] => false | _ => true end
  end.

Definition str_truthy (s : string) : bool := negb (String.eqb s "").

(** [d.get(k)] on the items of a dict. *)
Fixpoint lookup_key (k : string) (d : list (string * pyval)) : option pyval :=
  match d with
  | [] => None
  | (k', v) :: d' => if String.eqb k k' then Some v else lookup_key k d'
  end.

Definition dict_get (d : list (string * pyval)) (k : string) : pyval :=
  match lookup_key k d with Some v => v | None => PNone end.

Definition dict_get_default (d : list (string * pyval)) (k : string) (dflt : pyval) : pyval :=
  match lookup_key k d with Some v => v | None => dflt end.

Definition has_key (d : list (string * pyval)) (k : string) : bool :=
  match lookup_key k d with Some _ => true | None => false end.

(** [x == s] for a string [s]: an object of another type is never equal
    to a string. *)
Definition eq_str (s : string) (v : pyval) : bool :=
  match v with PStr t => String.eqb s t | _ => false end.

(** [str.upper] and [str.replace(' ', '_')], on the ASCII letters
    (bytes above 127 are left as they are): the code upper-cases a
    string only to compare it with "TOTP" and "HOTP", and no character
    outside ASCII has an upper case written with T, O, P and H.
    [ascii_lower] is what [str.lower] does to a string of ASCII
    characters. *)
Definition upper_ascii (c : ascii) : ascii :=
  let n := nat_of_ascii c in
  if (97 <=? n)%nat && (n <=? 122)%nat then ascii_of_nat (n - 32) else c.

Definition lower_ascii (c : ascii) : ascii :=
  let n := nat_of_ascii c in
  if (65 <=? n)%nat && (n <=? 90)%nat then ascii_of_nat (n + 32) else c.

Fixpoint map_string (f : ascii -> ascii) (s : string) : string :=
  match s with
  | EmptyString => EmptyString
  | String c s' => String (f c) (map_string f s')
  end.

Definition upper : string -> string := map_string upper_ascii.
Definition ascii_lower : string -> string := map_string lower_ascii.

Definition replace_space (s : string) : string :=
  map_string (fun c => if Ascii.eqb c " " then "_"%char else c) s.

(** [needle in haystack] for two strings. *)
Fixpoint contains (haystack needle : string) : bool :=
  String.prefix needle haystack ||
  match haystack with
  | EmptyString => false
  | String _ rest => contains rest needle
  end.

(** [l.remove(x)]: the first occurrence goes. *)
Fixpoint remove_first (s : string) (l : list pyval) : list pyval :=
  match l with
  | [] => []
  | v :: l' => if eq_str s v then l' else v :: remove_first s l'
  end.

(** [len(s)]: the number of code points, that is of bytes that do not
    continue a UTF-8 sequence (10xxxxxx). *)
Definition is_continuation (c : ascii) : bool :=
  let n := nat_of_ascii c in (128 <=? n)%nat && (n <? 192)%nat.

Fixpoint len (s : string) : nat :=
  match s with
  | EmptyString => 0
  | String c s' => if is_continuation c then len s' else S (len s')
  end.

#[global] Instance byte_eq_decision : EqDecision byte := Byte.byte_eq_dec.

(** [bytes.hex()] and [bytes.fromhex(text)] *)
Definition hex_digit (n : N) : ascii :=
  match n with
  | 0 => "0" | 1 => "1" | 2 => "2" | 3 => "3" | 4 => "4" | 5 => "5" | 6 => "6"
  | 7 => "7" | 8 => "8" | 9 => "9" | 10 => "a" | 11 => "b" | 12 => "c"
  | 13 => "d" | 14 => "e" | _ => "f"
  end%N%char.

Definition hex_value (c : ascii) : option N :=
  let n := N_of_ascii c in
  if (48 <=? n)%N && (n <=? 57)%N then Some (n - 48)%N
  else if (97 <=? n)%N && (n <=? 102)%N then Some (n - 87)%N
  else if (65 <=? n)%N && (n <=? 70)%N then Some (n - 55)%N
  else None.

Fixpoint hex (b : list byte) : string :=
  match b with
  | [] => EmptyString
  | x :: b' =>
      let n := Byte.to_N x in
      String (hex_digit (n / 16)) (String (hex_digit (n mod 16)) (hex b'))
  end.

Definition is_ascii_space (c : ascii) : bool :=
  let n := nat_of_ascii c in (n =? 32)%nat || ((9 <=? n)%nat && (n <=? 13)%nat).

(** [fromhex] skips white space between the bytes; [None] is ValueError. *)
Fixpoint fromhex (s : string) : option (list byte) :=
  match s with
  | EmptyString => Some []
  | String c s' =>
      if is_ascii_space c then fromhex s'
      else
        match s' with
        | EmptyString => None
        | String d s'' =>
            match hex_value c, hex_value d with
            | Some h, Some l =>
                match Byte.of_N (16 * h + l), fromhex s'' with
                | Some x, Some rest => Some (x :: rest)
                | _, _ => None
                end
            | _, _ => None
            end
        end
  end.

End Py.
Export Py.

(** [str.lower()] follows the case tables of Unicode: it is a parameter
    of the model, and what is proved holds whatever it does. *)
Class StrLower : Type := str_lower : string -> string.

(** ** Exceptions, the world and the monad *)

Inductive exn_class : Type :=
| NoKeyringError        (* keyring.errors.NoKeyringError *)
| PasswordSetError      (* keyring.errors.PasswordSetError *)
| PasswordDeleteError   (* keyring.errors.PasswordDeleteError *)
| KeyringError          (* any other error of the backend, KeyringLocked, InitError, ... *)
| ValueError
| AttributeError
| TypeError
| JSONDecodeError
| UnicodeDecodeError
| BinasciiError
| SystemExit            (* a BaseException: [except Exception] lets it through *)
| LoopFuelExhausted.    (* the model's loop bound was reached; never caught *)

Record exn : Type := mk_exn { cls : exn_class; msg : string }.

(** What a keyring backend can raise. *)
Inductive backend_error : Type :=
| NoBackend       (* NoKeyringError: no usable backend *)
| SetFailed       (* PasswordSetError *)
| DeleteFailed    (* PasswordDeleteError *)
| BackendFailed.  (* another error: KeyringLocked, InitError, an error of the OS store *)

Record fault : Type := mk_fault { fault_error : backend_error; fault_msg : string }.

Definition fault_exn (f : fault) : exn :=
  mk_exn
    match fault_error f with
    | NoBackend => NoKeyringError
    | SetFailed => PasswordSetError
    | DeleteFailed => PasswordDeleteError
    | BackendFailed => KeyringError
    end
    (fault_msg f).

Definition is_Exception (e : exn) : bool :=
  match cls e with
  | SystemExit | LoopFuelExhausted => false
  | _ => true
  end.

Definition is_class (c : exn_class) (e : exn) : bool :=
  match c, cls e with
  | NoKeyringError, NoKeyringError
  | PasswordSetError, PasswordSetError
  | PasswordDeleteError, PasswordDeleteError
  | KeyringError, KeyringError
  | ValueError, ValueError
  | AttributeError, AttributeError
  | TypeError, TypeError
  | JSONDecodeError, JSONDecodeError
  | UnicodeDecodeError, UnicodeDecodeError
  | BinasciiError, BinasciiError
  | SystemExit, SystemExit
  | LoopFuelExhausted, LoopFuelExhausted => true
  | _, _ => false
  end.

Inductive res (A : Type) : Type :=
| Ret (a : A)
| Raise (e : exn).
Arguments Ret {A} a.
Arguments Raise {A} e.

Section World.
Context {V : Type}.

(** [passwords]: what the keyring holds, by (service, key).
    [plan]: the fate of the coming backend calls, [Some f] for a call
    that raises the error [f]. [stdout]: the lines printed so far.
    [rng], [rng_pos]: the bytes [os.urandom] hands out. *)
Record world : Type := mk_world {
  passwords : gmap (string * string) V;
  plan : list (option fault);
  stdout : list string;
  rng : nat -> byte;
  rng_pos : nat
}.

Definition M (A : Type) : Type := world -> res A * world.

Definition ret {A} (a : A) : M A := fun w => (Ret a, w).
Definition raise {A} (e : exn) : M A := fun w => (Raise e, w).

Definition bind {A B} (m : M A) (k : A -> M B) : M B :=
  fun w =>
    match m w with
    | (Ret a, w') => k a w'
    | (Raise e, w') => (Raise e, w')
    end.

(** [try: m  except ...: h e] *)
Definition try_except {A} (m : M A) (h : exn -> M A) : M A :=
  fun w =>
    match m w with
    | (Ret a, w') => (Ret a, w')
    | (Raise e, w') => h e w'
    end.

Definition get_world : M world := fun w => (Ret w, w).

Definition print (line : string) : M unit :=
  fun w => (Ret tt,
            mk_world (passwords w) (plan w) (stdout w ++ [line]) (rng w) (rng_pos w)).

Definition with_passwords (p : gmap (string * string) V) (w : world) : world :=
  mk_world p (plan w) (stdout w) (rng w) (rng_pos w).

Definition with_plan (pl : list (option fault)) (w : world) : world :=
  mk_world (passwords w) pl (stdout w) (rng w) (rng_pos w).

(** [os.urandom(n)] *)
Definition os_urandom (n : nat) : M (list byte) :=
  fun w => (Ret (map (rng w) (seq (rng_pos w) n)),
            mk_world (passwords w) (plan w) (stdout w) (rng w) (rng_pos w + n)).

(** *** The keyring library *)

(** A backend call first meets its fate in the plan. *)
Definition backend_call {A} (normal : M A) : M A :=
  fun w =>
    match plan w with
    | [] => normal w
    | None :: rest => normal (with_plan rest w)
    | Some f :: rest => (Raise (fault_exn f), with_plan rest w)
    end.

Definition get_password (service key : string) : M (option V) :=
  backend_call (fun w => (Ret (passwords w !! (service, key)), w)).

Definition set_password (service key : string) (value : V) : M unit :=
  backend_call (fun w => (Ret tt, with_passwords (<[(service, key) := value]> (passwords w)) w)).

(** Deleting a password that is not there raises PasswordDeleteError. *)
Definition delete_password (service key : string) : M unit :=
  backend_call (fun w =>
    match passwords w !! (service, key) with
    | Some _ => (Ret tt, with_passwords (delete (service, key) (passwords w)) w)
    | None => (Raise (mk_exn PasswordDeleteError "Password not found"), w)
    end).

Definition healthy (w : world) : Prop := plan w = [].

End World.
Arguments world V : clear implicits.
Arguments M V A : clear implicits.

Declare Scope py_scope.
Delimit Scope py_scope with py.
Notation "'let!' x ':=' m 'in' k" := (bind m (fun x => k))
  (at level 10, x name, m at level 100, k at level 200) : py_scope.
Notation "m ';;;' k" := (bind m (fun _ => k))
  (at level 100, k at level 200, right associativity) : py_scope.
Local Open Scope py_scope.

(** ** core/secure_storage.py *)

Module SecureStorage.

Definition SERVICE_NAME : string := "2FA App".
Definition ACCOUNTS_LIST_KEY : string := "__accounts_list__".
Definition AUTO_LOCK_SETTING_KEY : string := "__auto_lock_timeout_seconds__".
Definition DEFAULT_AUTO_LOCK_SECONDS : Z := 300.

Definition NO_BACKEND_LINE : string :=
  "Keyring backend not found. Secure storage is unavailable.".

(** [get_token_secret(identifier) -> dict | None] *)
Definition get_token_secret (identifier : string) : M pyval (option pyval) :=
  try_except
    (let! secret_json := get_password SERVICE_NAME identifier in
     match secret_json with
     | Some data =>
         match data with
         | PDict d =>
             ret (Some (PDict
               [("identifier", PStr identifier);
                ("account_name", dict_get d "account_name");
                ("issuer_name", dict_get d "issuer_name");
                ("secret_key", dict_get d "secret_key");
                ("type", dict_get_default d "type" (PStr "TOTP"));
                ("recovery_codes", dict_get_default d "recovery_codes" (PStr ""))]))
         | _ => raise (mk_exn AttributeError "object has no attribute 'get'")
         end
     | None => ret None
     end)
    (fun e =>
       if is_class NoKeyringError e then
         print NO_BACKEND_LINE;;; ret None
       else if is_Exception e then
         print ("Error retrieving secret: " ++ msg e);;; ret None
       else raise e).

(** [get_all_token_identifiers()]: what [json.loads] gives for the
    stored index, a list when the index is what the code wrote. *)
Definition get_all_token_identifiers : M pyval pyval :=
  try_except
    (let! accounts_json := get_password SERVICE_NAME ACCOUNTS_LIST_KEY in
     match accounts_json with
     | Some accounts => ret accounts
     | None => ret (PList [])
     end)
    (fun e =>
       if is_class NoKeyringError e then
         print NO_BACKEND_LINE;;; ret (PList [])
       else if is_Exception e then
         print ("Error retrieving account list: " ++ msg e);;; ret (PList [])
       else raise e).

(** [identifier in accounts] *)
Definition py_in (identifier : string) (accounts : pyval) : M pyval bool :=
  match accounts with
  | PList l => ret (existsb (eq_str identifier) l)
  | PDict d => ret (has_key d identifier)
  | PStr s => ret (contains s identifier)
  | _ => raise (mk_exn TypeError "argument is not iterable")
  end.

(** [accounts.append(identifier)] *)
Definition py_append (accounts : pyval) (identifier : string) : M pyval pyval :=
  match accounts with
  | PList l => ret (PList (l ++ [PStr identifier]))
  | _ => raise (mk_exn AttributeError "object has no attribute 'append'")
  end.

(** [accounts.remove(identifier)], called when [identifier in accounts] *)
Definition py_remove (accounts : pyval) (identifier : string) : M pyval pyval :=
  match accounts with
  | PList l => ret (PList (remove_first identifier l))
  | _ => raise (mk_exn AttributeError "object has no attribute 'remove'")
  end.

Definition pass_on_NoKeyringError (m : M pyval unit) : M pyval unit :=
  try_except m (fun e => if is_class NoKeyringError e then ret tt else raise e).

Definition _add_account_to_list (identifier : string) : M pyval unit :=
  let! accounts := get_all_token_identifiers in
  let! present := py_in identifier accounts in
  if negb present then
    let! accounts' := py_append accounts identifier in
    pass_on_NoKeyringError (set_password SERVICE_NAME ACCOUNTS_LIST_KEY accounts')
  else ret tt.

Definition _remove_account_from_list (identifier : string) : M pyval unit :=
  let! accounts := get_all_token_identifiers in
  let! present := py_in identifier accounts in
  if present then
    let! accounts' := py_remove accounts identifier in
    pass_on_NoKeyringError (set_password SERVICE_NAME ACCOUNTS_LIST_KEY accounts')
  else ret tt.

Section Lower.

Context `{StrLower}.

(** [x.upper()] and [x.lower()] exist on strings only. *)
Definition str_method (f : string -> string) (v : pyval) : M pyval string :=
  match v with
  | PStr s => ret (f s)
  | _ => raise (mk_exn AttributeError "object has no such attribute")
  end.

Definition str_of (v : pyval) : string :=
  match v with PStr s => s | _ => "" end.

(** [x in ["TOTP", "HOTP"]] *)
Definition in_strings (x : string) (l : list string) : bool :=
  existsb (String.eqb x) l.

Definition valid_type (t : string) : bool :=
  in_strings (upper t) ["TOTP"; "HOTP"].

(** The loop
    [while get_token_secret(temp_id) is not None:
        temp_id = f"{current_identifier}_{count}"; count += 1]
    run for at most [fuel] tests. *)
Fixpoint find_unused (fuel : nat) (current_identifier temp_id : string) (count : nat)
  : M pyval string :=
  match fuel with
  | O => raise (mk_exn LoopFuelExhausted "")
  | S fuel' =>
      let! found := get_token_secret temp_id in
      match found with
      | Some _ =>
          find_unused fuel' current_identifier
            (current_identifier ++ "_" ++ pretty count) (S count)
      | None => ret temp_id
      end
  end.

Definition derive_identifier (issuer_name account_name : string) : string :=
  replace_space (str_lower issuer_name) ++ "_" ++ replace_space (str_lower account_name).

Definition opt_str (o : option string) : pyval :=
  match o with Some s => PStr s | None => PNone end.

Definition opt_truthy (o : option string) : bool :=
  match o with Some s => str_truthy s | None => false end.

(** The [else] branch of [save_token_secret]: the identifier of a new
    token. The loop has one more test than the keyring has entries,
    which is enough ([find_unused_spec] and [some_candidate_unused]
    below). *)
Definition new_identifier (issuer_name account_name : pyval) : M pyval string :=
  let! issuer_lower := str_method str_lower issuer_name in
  let! account_lower := str_method str_lower account_name in
  let current_identifier :=
    (replace_space issuer_lower ++ "_" ++ replace_space account_lower)%string in
  let! w := get_world in
  find_unused (S (size (passwords w))) current_identifier current_identifier 1.

(** The [try] block of [save_token_secret]. *)
Definition store_token (current_identifier : string) (data : pyval) : M pyval string :=
  try_except
    (set_password SERVICE_NAME current_identifier data;;;
     _add_account_to_list current_identifier;;;
     ret current_identifier)
    (fun e =>
       if is_class NoKeyringError e then
         print "Keyring backend not found. Secure storage is unavailable.";;; raise e
       else if is_Exception e then
         print ("Error saving secret: " ++ msg e);;; raise e
       else raise e).

(** The dict [data] that [save_token_secret] stores. *)
Definition token_record (account_name issuer_name secret_key token_type : pyval)
    (recovery_codes : option string) : pyval :=
  PDict
    [("account_name", account_name);
     ("issuer_name", issuer_name);
     ("secret_key", secret_key);
     ("type", token_type);
     ("recovery_codes", opt_str recovery_codes)].

(** [save_token_secret(account_name, issuer_name, secret_key,
                       token_type="TOTP", identifier=None, recovery_codes=None)].
    The four first arguments are whatever the caller passes: the restore
    handler passes what it read from the backup file. *)
Definition save_token_secret (account_name issuer_name secret_key token_type : pyval)
    (identifier : option string) (recovery_codes : option string) : M pyval string :=
  if negb (truthy account_name) || negb (truthy secret_key) || negb (truthy issuer_name) then
    raise (mk_exn ValueError "Account name, issuer name, and secret key cannot be empty.")
  else
    let! type_upper := str_method upper token_type in
    if negb (in_strings type_upper ["TOTP"; "HOTP"]) then
      raise (mk_exn ValueError
               ("Unsupported token type: " ++ str_of token_type ++ ". Must be TOTP or HOTP."))
    else
      let! current_identifier :=
        (if opt_truthy identifier then ret (default "" identifier)
         else new_identifier issuer_name account_name) in
      store_token current_identifier
        (token_record account_name issuer_name secret_key token_type recovery_codes).

End Lower.

(** [delete_token_secret(identifier)] *)
Definition delete_token_secret (identifier : string) : M pyval unit :=
  try_except
    (delete_password SERVICE_NAME identifier;;;
     _remove_account_from_list identifier)
    (fun e =>
       if is_class NoKeyringError e then ret tt
       else if is_class PasswordDeleteError e then _remove_account_from_list identifier
       else if is_Exception e then print ("Error deleting secret: " ++ msg e)
       else raise e).

(** The objects a [for] loop over the index visits. *)
Definition py_iter (v : pyval) : M pyval (list pyval) :=
  match v with
  | PList l => ret l
  | PDict d => ret (map (fun kv => PStr (fst kv)) d)
  | PStr s => ret (map (fun c => PStr (String c EmptyString)) (list_ascii_of_string s))
  | _ => raise (mk_exn TypeError "object is not iterable")
  end.

(** The body of the loop of [get_all_token_data]. An entry of the index
    that is not a string is no keyring key: it is assumed that the
    keyring library refuses it before it reaches the backend, inside
    [get_token_secret], which gives None. Of the warning printed for a
    skipped token the line is modelled up to the identifier; what
    follows it, the [str] of the account and of the issuer, is not. *)
Definition token_data_of (entry : pyval) : M pyval (list pyval) :=
  match entry with
  | PStr identifier_from_list =>
      let! token_info := get_token_secret identifier_from_list in
      match token_info with
      | Some (PDict t) =>
          if truthy (dict_get t "account_name") && truthy (dict_get t "secret_key")
             && truthy (dict_get t "issuer_name")
          then ret [PDict t]
          else print ("[secure_storage] Warning: Skipping token for identifier '"
                      ++ identifier_from_list ++ "'");;; ret []
      | _ => ret []
      end
  | _ => print "Error retrieving secret: key is not a string";;; ret []
  end.

Fixpoint collect_token_data (entries : list pyval) : M pyval (list pyval) :=
  match entries with
  | [] => ret []
  | entry :: rest =>
      let! here := token_data_of entry in
      let! there := collect_token_data rest in
      ret (here ++ there)
  end.

(** [get_all_token_data() -> list[dict]] *)
Definition get_all_token_data : M pyval (list pyval) :=
  let! identifiers := get_all_token_identifiers in
  let! entries := py_iter identifiers in
  collect_token_data entries.

(** [str(n)] and [int(text)] are refused with ValueError for a number
    of more than 4300 decimal digits (the default of
    [sys.set_int_max_str_digits]). [at_most_digits k n]: [n] is written
    with at most [k] digits. *)
Definition INT_MAX_STR_DIGITS : nat := 4300.

Fixpoint at_most_digits (k : nat) (n : N) : bool :=
  match k with
  | O => false
  | S k' => (n <? 10)%N || at_most_digits k' (n / 10)%N
  end.

Definition int_str_ok (z : Z) : bool := at_most_digits INT_MAX_STR_DIGITS (Z.abs_N z).

(** The ValueError of the limit (the text of its message varies with
    the version of Python). *)
Definition int_str_limit {A} : M pyval A :=
  raise (mk_exn ValueError "Exceeds the limit (4300 digits) for integer string conversion").

(** [save_auto_lock_setting(timeout_seconds)]: the text [str(n)] of an
    integer is the JSON text of that integer. *)
Definition save_auto_lock_setting (timeout_seconds : Z) : M pyval unit :=
  try_except
    (let! text :=
       (if int_str_ok timeout_seconds then ret (PInt timeout_seconds) else int_str_limit) in
     set_password SERVICE_NAME AUTO_LOCK_SETTING_KEY text)
    (fun e =>
       if is_class NoKeyringError e then
         print "Keyring backend not found. Cannot save auto-lock setting."
       else if is_Exception e then
         print ("Error saving auto-lock setting: " ++ msg e)
       else raise e).

(** [get_auto_lock_setting() -> int] *)
Definition get_auto_lock_setting : M pyval Z :=
  try_except
    (let! timeout_str := get_password SERVICE_NAME AUTO_LOCK_SETTING_KEY in
     match timeout_str with
     | Some (PInt z) => if int_str_ok z then ret z else int_str_limit
     | Some _ => raise (mk_exn ValueError "invalid literal for int()")
     | None => ret DEFAULT_AUTO_LOCK_SECONDS
     end)
    (fun e =>
       if is_class NoKeyringError e then ret DEFAULT_AUTO_LOCK_SECONDS
       else if is_Exception e then
         print ("Error retrieving auto-lock setting: " ++ msg e ++ ". Using default.");;;
         ret DEFAULT_AUTO_LOCK_SECONDS
       else raise e).

End SecureStorage.

(** ** hashlib.pbkdf2_hmac

    PBKDF2 calls HMAC with the password as its key, and HMAC works on
    the key block: the key, hashed first when it is longer than a block
    of the hash, and filled with zero bytes up to the block (RFC 2104).
    The password enters the derived key through that block alone. *)

Module Hashlib.

Definition SHA256_BLOCK_SIZE : nat := 64.

Section Pbkdf2.

(** The digest of SHA-256. *)
Variable sha256 : list byte -> list byte.
(** The derivation proper, from the key block, the salt and the
    number of iterations. *)
Variable derive_from_block : list byte -> list byte -> N -> list byte.

Definition hmac_key_block (key : list byte) : list byte :=
  let key' := if (SHA256_BLOCK_SIZE <? length key)%nat then sha256 key else key in
  key' ++ repeat Byte.x00 (SHA256_BLOCK_SIZE - length key').

(** [hashlib.pbkdf2_hmac('sha256', password, salt, iterations)] *)
Definition pbkdf2_hmac_sha256 (password salt : list byte) (iterations : N) : list byte :=
  derive_from_block (hmac_key_block password) salt iterations.

End Pbkdf2.

End Hashlib.

(** ** core/app_lock.py *)

Module AppLock.

Definition SERVICE_NAME : string := "Python2FAApp_Lock".
Definition PIN_HASH_KEY : string := "app_pin_hash".
Definition SALT_KEY : string := "app_pin_salt".
Definition PBKDF2_ITERATIONS : N := 100000.

Section Hash.

(** [hashlib.pbkdf2_hmac('sha256', password, salt, iterations)] *)
Variable pbkdf2_hmac_sha256 : list byte -> list byte -> N -> list byte.

Definition _generate_salt : M string (list byte) := os_urandom 16.

Definition _hash_pin (pin : string) (salt : list byte) : list byte :=
  pbkdf2_hmac_sha256 (list_byte_of_string pin) salt PBKDF2_ITERATIONS.

(** [set_app_pin(pin)] *)
Definition set_app_pin (pin : string) : M string unit :=
  if (len pin <? 4)%nat then
    raise (mk_exn ValueError "PIN must be at least 4 digits long.")
  else
    try_except
      (let! salt := _generate_salt in
       let hashed_pin := _hash_pin pin salt in
       set_password SERVICE_NAME SALT_KEY (hex salt);;;
       set_password SERVICE_NAME PIN_HASH_KEY (hex hashed_pin))
      (fun e =>
         if is_class NoKeyringError e then
           print "Keyring backend not found. Cannot set application PIN.";;; raise e
         else if is_Exception e then
           print ("Error setting PIN: " ++ msg e);;; raise e
         else raise e).

Definition bytes_fromhex (text : string) : M string (list byte) :=
  match fromhex text with
  | Some b => ret b
  | None => raise (mk_exn ValueError "non-hexadecimal number found in fromhex() arg")
  end.

Definition opt_falsy (o : option string) : bool :=
  match o with Some s => negb (str_truthy s) | None => true end.

(** [verify_app_pin(pin) -> bool] *)
Definition verify_app_pin (pin : string) : M string bool :=
  try_except
    (let! salt_hex := get_password SERVICE_NAME SALT_KEY in
     let! stored_hash_hex := get_password SERVICE_NAME PIN_HASH_KEY in
     if opt_falsy salt_hex || opt_falsy stored_hash_hex then ret false
     else
       let! salt := bytes_fromhex (default "" salt_hex) in
       let! stored_hash := bytes_fromhex (default "" stored_hash_hex) in
       let hashed_attempt := _hash_pin pin salt in
       ret (bool_decide (hashed_attempt = stored_hash)))
    (fun e =>
       if is_class NoKeyringError e then
         print "Keyring backend not found. Cannot verify PIN.";;; ret false
       else if is_Exception e then
         print ("Error verifying PIN: " ++ msg e);;; ret false
       else raise e).

(** [is_pin_set() -> bool] *)
Definition is_pin_set : M string bool :=
  try_except
    (let! salt := get_password SERVICE_NAME SALT_KEY in
     let! pin_hash := get_password SERVICE_NAME PIN_HASH_KEY in
     ret (bool_decide (is_Some salt) && bool_decide (is_Some pin_hash)))
    (fun e =>
       if is_class NoKeyringError e then ret false
       else if is_Exception e then
         print ("Error checking if PIN is set: " ++ msg e);;; ret false
       else raise e).

End Hash.

End AppLock.

(** ** main.py: the unlock protocol *)

Module Main.

Definition MAX_PIN_ATTEMPTS : nat := 3.

(** What the user sees. *)
Inductive ui_event : Type :=
| PinDialog (prompt : string) (show_cancel : bool)
| ShowError (title message : string)
| Destroy.

(** The fields of [TwoFactorApp] the protocol uses; [dialogs] counts the
    PIN dialogs shown, [ui] records what was shown and [verified] the
    PINs handed to [verify_app_pin], in order. *)
Record session : Type := mk_session {
  app_unlocked : bool;
  pin_attempts : nat;
  dialogs : nat;
  ui : list ui_event;
  verified : list string
}.

Definition show (ev : list ui_event) (s : session) : session :=
  mk_session (app_unlocked s) (pin_attempts s) (dialogs s) (ui s ++ ev) (verified s).

(** [quit_application_if_pin_cancelled]: the error box, the window
    destroyed, [sys.exit(1)]. *)
Definition quit_application_if_pin_cancelled {A} (s : session) (w : world string)
  : res A * session * world string :=
  (Raise (mk_exn SystemExit "1"),
   show [ShowError "PIN Required" "Application access denied. Exiting."; Destroy] s,
   w).

Section Unlock.

Variable pbkdf2_hmac_sha256 : list byte -> list byte -> N -> list byte.

(** The answers of the PIN dialogs: [entries k] is what the dialog
    number [k] returns, [None] when it is cancelled or closed. *)
Variable entries : nat -> option string.

Definition prompt_text (is_startup_check : bool) (attempts : nat) : string :=
  let prompt_message :=
    if is_startup_check then "Enter PIN to unlock"
    else "Enter PIN to unlock application" in
  let left := pretty (MAX_PIN_ATTEMPTS - attempts)%nat in
  if (0 <? attempts)%nat
  then "Invalid PIN. " ++ prompt_message ++ " (" ++ left ++ " attempts left):"
  else prompt_message ++ " (" ++ left ++ " attempts left):".

(** The loop [while self.pin_attempts < MAX_PIN_ATTEMPTS], by recursion
    on the attempts that remain, [MAX_PIN_ATTEMPTS - self.pin_attempts]. *)
Fixpoint unlock_loop (remaining : nat) (is_startup_check : bool)
    (s : session) (w : world string) : res bool * session * world string :=
  match remaining with
  | O =>
      quit_application_if_pin_cancelled
        (show [ShowError "Access Denied" "Maximum PIN attempts reached. Exiting."] s) w
  | S remaining' =>
      let pin := entries (dialogs s) in
      let s1 :=
        mk_session (app_unlocked s) (pin_attempts s) (S (dialogs s))
          (ui s ++ [PinDialog (prompt_text is_startup_check (pin_attempts s))
                              (negb is_startup_check)])
          (verified s) in
      match pin with
      | None => quit_application_if_pin_cancelled s1 w
      | Some p =>
          let next (s2 : session) (w2 : world string) :=
            unlock_loop remaining' is_startup_check
              (mk_session (app_unlocked s2) (S (pin_attempts s2)) (dialogs s2)
                          (ui s2) (verified s2)) w2 in
          if str_truthy p then
            let s2 :=
              mk_session (app_unlocked s1) (pin_attempts s1) (dialogs s1) (ui s1)
                         (verified s1 ++ [p]) in
            match AppLock.verify_app_pin pbkdf2_hmac_sha256 p w with
            | (Ret true, w2) =>
                (Ret true,
                 mk_session true (pin_attempts s2) (dialogs s2) (ui s2) (verified s2),
                 w2)
            | (Ret false, w2) => next s2 w2
            | (Raise e, w2) => (Raise e, s2, w2)
            end
          else next s1 w
      end
  end.

(** [_prompt_for_pin_and_unlock(is_startup_check) -> bool] *)
Definition _prompt_for_pin_and_unlock (is_startup_check : bool)
    (s : session) (w : world string) : res bool * session * world string :=
  let s0 := mk_session (app_unlocked s) 0 (dialogs s) (ui s) (verified s) in
  unlock_loop (MAX_PIN_ATTEMPTS - pin_attempts s0) is_startup_check s0 w.

End Unlock.

Section Lower.

Context `{StrLower}.

(** The keyring reads of [load_and_display_tokens] (the widgets it
    builds are not modelled). *)
Definition display_token (entry : pyval) : M pyval unit :=
  let! token_data :=
    match entry with
    | PStr identifier => SecureStorage.get_token_secret identifier
    | _ => print "Error retrieving secret: key is not a string";;; ret None
    end in
  match token_data with
  | Some (PDict t) =>
      let! issuer_name :=
        SecureStorage.str_method str_lower (dict_get_default t "issuer_name" (PStr "N/A")) in
      let! account_name :=
        SecureStorage.str_method str_lower (dict_get_default t "account_name" (PStr "N/A")) in
      ret tt
  | _ => print "Warning: Token data for identifier not found or invalid."
  end.

Fixpoint display_tokens (entries : list pyval) : M pyval unit :=
  match entries with
  | [] => ret tt
  | entry :: rest => display_token entry;;; display_tokens rest
  end.

Definition load_and_display_tokens : M pyval unit :=
  try_except
    (let! token_identifiers := SecureStorage.get_all_token_identifiers in
     if negb (truthy token_identifiers) then ret tt
     else
       let! entries := SecureStorage.py_iter token_identifiers in
       display_tokens entries)
    (fun e => if is_Exception e then ret tt else raise e).

End Lower.

Definition update_auto_lock_and_reset_timer : M pyval unit :=
  let! new_timeout := SecureStorage.get_auto_lock_setting in ret tt.

End Main.

(** ** ui/settings_frame.py: encrypted backup and restore *)

Module Settings.

Import SecureStorage.

Definition PBKDF2_ITERATIONS : N := 390000.
Definition SALT_SIZE_BYTES : nat := 16.
Definition AES_KEY_SIZE_BYTES : nat := 32.
Definition AES_NONCE_SIZE_BYTES : nat := 12.

(** What the handler of "Backup Tokens..." ends with. *)
Inductive backup_outcome : Type :=
| BackupNoFile                      (* no file chosen *)
| BackupNoTokens                    (* "No tokens found to backup." *)
| BackupCancelled                   (* no password given *)
| BackupWritten (content : pyval)   (* the JSON document written to the file *)
| BackupError (e : exn).            (* "An error occurred during encrypted backup" *)

(** What the handler of "Restore Tokens..." ends with. *)
Inductive restore_outcome : Type :=
| RestoreNoFile                     (* no file chosen *)
| RestoreInvalidFormat              (* "Invalid or unsupported backup file format." *)
| RestoreCancelled                  (* no password given *)
| DecryptionFailed                  (* "Invalid password or corrupted backup file." *)
| DecryptionNoData                  (* "Decryption resulted in no data." *)
| RestoreNotTokenList               (* "Decrypted data is not in the expected format" *)
| RestoreNoTokens                   (* "No tokens found in the (decrypted) backup file." *)
| RestoreNotConfirmed               (* the user answered no *)
| RestoreSummary (restored_count failed_count : nat)
| RestoreInvalidJSON                (* the handler of json.JSONDecodeError *)
| RestoreError (e : exn).           (* the handler of Exception *)

(** The outcomes the specification calls DecryptionFailed and
    FormatInvalid. *)
Definition import_failed (o : restore_outcome) : bool :=
  match o with
  | RestoreInvalidFormat | DecryptionFailed | DecryptionNoData
  | RestoreNotTokenList | RestoreInvalidJSON | RestoreError _ => true
  | _ => false
  end.

Section Codec.

Context `{StrLower}.

(** The libraries the handlers call. *)

(** [PBKDF2HMAC(SHA256, length, salt, iterations).derive(password)] *)
Variable pbkdf2_derive : nat -> list byte -> N -> list byte -> list byte.
(** [AESGCM(key).encrypt(nonce, data, None)] *)
Variable aesgcm_encrypt : list byte -> list byte -> list byte -> list byte.
(** [AESGCM(key).decrypt(nonce, data, None)], [None] when it raises *)
Variable aesgcm_decrypt : list byte -> list byte -> list byte -> option (list byte).
(** [base64.b64encode(b).decode('utf-8')] *)
Variable b64encode : list byte -> string.
(** [base64.b64decode(text)], [None] when it raises *)
Variable b64decode : string -> option (list byte).
(** [json.dumps(v, indent=4)] *)
Variable json_dumps : pyval -> string.
(** [json.loads(text)], [None] when it raises JSONDecodeError *)
Variable json_loads : string -> option pyval.
(** [b.decode('utf-8')], [None] when it raises UnicodeDecodeError *)
Variable utf8_decode : list byte -> option string.

Definition utf8_encode (s : string) : list byte := list_byte_of_string s.

Definition derive_key (password : string) (salt : list byte) : list byte :=
  pbkdf2_derive AES_KEY_SIZE_BYTES salt PBKDF2_ITERATIONS (utf8_encode password).

(** The body of the [try] of [_handle_backup_tokens]. *)
Definition backup_body (password : option string) : M pyval backup_outcome :=
  let! all_tokens := get_all_token_data in
  match all_tokens with
  | [] => ret BackupNoTokens
  | _ =>
      if negb (opt_truthy password) then ret BackupCancelled
      else
        let backup_password := default "" password in
        let tokens_json_string := json_dumps (PList all_tokens) in
        let tokens_data_bytes := utf8_encode tokens_json_string in
        let! salt := os_urandom SALT_SIZE_BYTES in
        let! nonce := os_urandom AES_NONCE_SIZE_BYTES in
        let aes_key := derive_key backup_password salt in
        let encrypted_data_bytes := aesgcm_encrypt aes_key nonce tokens_data_bytes in
        ret (BackupWritten (PDict
          [("version", PStr "1.0_encrypted");
           ("salt", PStr (b64encode salt));
           ("nonce", PStr (b64encode nonce));
           ("ciphertext", PStr (b64encode encrypted_data_bytes))]))
  end.

(** [_handle_backup_tokens]: [backup_file_path] is the answer of the
    file dialog ("" when it is dismissed), [password] the answer of
    the password dialog. *)
Definition _handle_backup_tokens (backup_file_path : string) (password : option string)
  : M pyval backup_outcome :=
  if negb (str_truthy backup_file_path) then ret BackupNoFile
  else
    try_except (backup_body password)
      (fun e => if is_Exception e then ret (BackupError e) else raise e).

(** [base64.b64decode(backup_content[key])] *)
Definition b64decode_field (d : list (string * pyval)) (key : string) : M pyval (list byte) :=
  match dict_get d key with
  | PStr text =>
      match b64decode text with
      | Some b => ret b
      | None => raise (mk_exn BinasciiError "Incorrect padding")
      end
  | _ => raise (mk_exn TypeError "argument should be a bytes-like object or ASCII string")
  end.

Definition is_dict (v : pyval) : bool :=
  match v with PDict _ => true | _ => false end.

(** One turn of the loop [for token_data in tokens_to_restore]. *)
Definition restore_token (token_data : pyval) : M pyval bool :=
  match token_data with
  | PDict d =>
      let account_name := dict_get d "account_name" in
      let issuer_name := dict_get d "issuer_name" in
      let secret_key := dict_get d "secret_key" in
      let token_type := dict_get_default d "type" (PStr "TOTP") in
      if truthy account_name && truthy issuer_name && truthy secret_key then
        try_except
          (save_token_secret account_name issuer_name secret_key token_type None None;;;
           ret true)
          (fun e =>
             if is_Exception e then
               print ("Failed to restore a token: " ++ msg e);;; ret false
             else raise e)
      else
        print "Skipping token due to missing critical data.";;; ret false
  | _ => raise (mk_exn AttributeError "object has no attribute 'get'")
  end.

Fixpoint restore_loop (tokens_to_restore : list pyval) (restored_count failed_count : nat)
  : M pyval (nat * nat) :=
  match tokens_to_restore with
  | [] => ret (restored_count, failed_count)
  | token_data :: rest =>
      let! ok := restore_token token_data in
      if ok then restore_loop rest (S restored_count) failed_count
      else restore_loop rest restored_count (S failed_count)
  end.

(** The body of the [try] of [_handle_restore_tokens]: [file] is what
    [json.load] gives for the chosen file, [None] when it raises
    JSONDecodeError. *)
Definition restore_body (file : option pyval) (password : option string) (confirm : bool)
  : M pyval restore_outcome :=
  match file with
  | None => raise (mk_exn JSONDecodeError "Expecting value")
  | Some backup_content =>
      match backup_content with
      | PDict d =>
          if negb (forallb (has_key d) ["version"; "salt"; "nonce"; "ciphertext"])
          then ret RestoreInvalidFormat
          else if negb (opt_truthy password) then ret RestoreCancelled
          else
            let backup_password := default "" password in
            let! salt := b64decode_field d "salt" in
            let! nonce := b64decode_field d "nonce" in
            let! ciphertext := b64decode_field d "ciphertext" in
            let aes_key := derive_key backup_password salt in
            match aesgcm_decrypt aes_key nonce ciphertext with
            | None => ret DecryptionFailed
            | Some tokens_data_bytes =>
                match tokens_data_bytes with
                | [] => ret DecryptionNoData
                | _ =>
                    match utf8_decode tokens_data_bytes with
                    | None => raise (mk_exn UnicodeDecodeError "invalid start byte")
                    | Some text =>
                        match json_loads text with
                        | None => raise (mk_exn JSONDecodeError "Expecting value")
                        | Some (PList tokens_to_restore) =>
                            if negb (forallb is_dict tokens_to_restore)
                            then ret RestoreNotTokenList
                            else
                              match tokens_to_restore with
                              | [] => ret RestoreNoTokens
                              | _ =>
                                  if negb confirm then ret RestoreNotConfirmed
                                  else
                                    let! counts := restore_loop tokens_to_restore 0 0 in
                                    Main.load_and_display_tokens;;;
                                    Main.update_auto_lock_and_reset_timer;;;
                                    ret (RestoreSummary (fst counts) (snd counts))
                              end
                        | Some _ => ret RestoreNotTokenList
                        end
                    end
                end
            end
      | _ => ret RestoreInvalidFormat
      end
  end.

(** [_handle_restore_tokens]: [restore_file_path] is the answer of the
    file dialog, [password] the answer of the password dialog,
    [confirm] the answer to "Do you want to proceed with the
    restore?". *)
Definition _handle_restore_tokens (restore_file_path : string) (file : option pyval)
    (password : option string) (confirm : bool) : M pyval restore_outcome :=
  if negb (str_truthy restore_file_path) then ret RestoreNoFile
  else
    try_except (restore_body file password confirm)
      (fun e =>
         if is_class JSONDecodeError e then ret RestoreInvalidJSON
         else if is_Exception e then ret (RestoreError e)
         else raise e).

End Codec.

End Settings.

(** ** The vocabulary of the statements *)

Module Vault.

Import SecureStorage.

Section Lower.

Context `{StrLower}.

Definition lookup_doc (w : world pyval) (key : string) : option pyval :=
  passwords w !! (SERVICE_NAME, key).

Definition token_view (identifier : string) (d : list (string * pyval)) : pyval :=
  PDict
    [("identifier", PStr identifier);
     ("account_name", dict_get d "account_name");
     ("issuer_name", dict_get d "issuer_name");
     ("secret_key", dict_get d "secret_key");
     ("type", dict_get_default d "type" (PStr "TOTP"));
     ("recovery_codes", dict_get_default d "recovery_codes" (PStr ""))].

Definition usedb (w : world pyval) (identifier : string) : bool :=
  match lookup_doc w identifier with Some (PDict _) => true | _ => false end.

Definition stored_index (w : world pyval) : pyval :=
  default (PList []) (lookup_doc w ACCOUNTS_LIST_KEY).

Definition candidate (base : string) (k : nat) : string :=
  match k with O => base | S _ => base ++ "_" ++ pretty k end.

Definition same_store (w w' : world pyval) : Prop :=
  passwords w' = passwords w /\ (healthy w -> healthy w').

(** What a successful save leaves in the keyring: the record under its
    identifier, and the identifier in the index [l]. *)
Definition store_after (m : gmap (string * string) pyval) (identifier : string) (data : pyval)
    (l : list pyval) : gmap (string * string) pyval :=
  let m1 := <[(SERVICE_NAME, identifier) := data]> m in
  if existsb (eq_str identifier) l then m1
  else <[(SERVICE_NAME, ACCOUNTS_LIST_KEY) := PList (l ++ [PStr identifier])]> m1.

Fixpoint last_ascii (s : string) : option ascii :=
  match s with
  | EmptyString => None
  | String c EmptyString => Some c
  | String _ s' => last_ascii s'
  end.

(** The index after a save: the identifier is appended when it is new. *)
Definition index_after (identifier : string) (l : list pyval) : list pyval :=
  if existsb (eq_str identifier) l then l else l ++ [PStr identifier].

(** [identifier in index] for the stored index, and the number of times
    the index lists an identifier. *)
Definition in_index (identifier : string) (w : world pyval) : bool :=
  match stored_index w with
  | PList l => existsb (eq_str identifier) l
  | _ => false
  end.

Definition occurrences (identifier : string) (l : list pyval) : nat :=
  length (filter (fun v => eq_str identifier v = true) l).

(** The index after a delete. *)
Definition store_without (m : gmap (string * string) pyval) (identifier : string)
    (l : list pyval) : gmap (string * string) pyval :=
  if existsb (eq_str identifier) l
  then <[(SERVICE_NAME, ACCOUNTS_LIST_KEY) := PList (remove_first identifier l)]> m
  else m.

(** *** Sequences of saves and deletes *)

Inductive vault_op : Type :=
| Save (account_name issuer_name secret_key token_type : pyval)
       (identifier recovery_codes : option string)
| Delete (identifier : string).

(** One operation, as the application runs it: an Exception raised by a
    save is caught by the caller, which shows an error box. *)
Definition run_op (op : vault_op) : M pyval unit :=
  match op with
  | Save account_name issuer_name secret_key token_type identifier recovery_codes =>
      try_except
        (save_token_secret account_name issuer_name secret_key token_type identifier
           recovery_codes;;; ret tt)
        (fun e => if is_Exception e then ret tt else raise e)
  | Delete identifier => delete_token_secret identifier
  end.

Fixpoint run_ops (ops : list vault_op) : M pyval unit :=
  match ops with
  | [] => ret tt
  | op :: ops' => run_op op;;; run_ops ops'
  end.

(** The save does not aim at the key of the index: neither with the
    identifier it is given, nor with the one it derives. *)
Definition save_avoids_index_key (account_name issuer_name : pyval)
    (identifier : option string) : Prop :=
  if opt_truthy identifier then identifier <> Some ACCOUNTS_LIST_KEY
  else
    match issuer_name, account_name with
    | PStr issuer, PStr account => derive_identifier issuer account <> ACCOUNTS_LIST_KEY
    | _, _ => True
    end.

Definition avoids_index_key (op : vault_op) : Prop :=
  match op with
  | Save account_name issuer_name _ _ identifier _ =>
      save_avoids_index_key account_name issuer_name identifier
  | Delete identifier => identifier <> ACCOUNTS_LIST_KEY
  end.

(** The invariant of the data model: the index is a list that holds,
    once each, the identifiers under which a record is stored. *)
Definition index_consistent (w : world pyval) : Prop :=
  exists l,
    stored_index w = PList l /\
    (forall identifier, existsb (eq_str identifier) l = usedb w identifier) /\
    (forall identifier, occurrences identifier l <= 1) /\
    Forall (fun v => exists identifier, v = PStr identifier) l.

(** The number of identifiers in the stored index. *)
Definition index_length (w : world pyval) : nat :=
  match stored_index w with PList l => length l | _ => 0 end.

(** A token of a backup file whose restore does not aim at the key of
    the index. *)
Definition token_avoids_index_key (token : pyval) : Prop :=
  match token with
  | PDict d =>
      save_avoids_index_key (dict_get d "account_name") (dict_get d "issuer_name") None
  | _ => False
  end.

(** A token of a backup file that [save_token_secret] accepts: account
    and issuer are non-empty strings, the secret is not empty and the
    type is TOTP or HOTP in some case. *)
Definition restorable (token : pyval) : bool :=
  match token with
  | PDict d =>
      match dict_get d "account_name", dict_get d "issuer_name",
            dict_get_default d "type" (PStr "TOTP") with
      | PStr account, PStr issuer, PStr t =>
          str_truthy account && str_truthy issuer && truthy (dict_get d "secret_key")
          && valid_type t
      | _, _, _ => false
      end
  | _ => false
  end.

(** The record the restore stores for a token of a backup file. *)
Definition restored_record (token : pyval) : pyval :=
  match token with
  | PDict d =>
      token_record (dict_get d "account_name") (dict_get d "issuer_name")
        (dict_get d "secret_key") (dict_get_default d "type" (PStr "TOTP")) None
  | _ => PNone
  end.

(** The world after [line] was printed. *)
Definition printed (line : string) (w : world pyval) : world pyval :=
  mk_world (passwords w) (plan w) (stdout w ++ [line]) (rng w) (rng_pos w).

End Lower.

End Vault.

(** ** Worlds to run the code on *)

Definition empty_world {V : Type} : world V :=
  mk_world ∅ [] [] (fun _ => Byte.x00) 0.

(** A world with the given plan on an empty keyring. *)
Definition world_of {V : Type} (p : gmap (string * string) V) (pl : list (option fault))
  : world V :=
  mk_world p pl [] (fun _ => Byte.x00) 0.

(** A vault with one token, alice at Acme, saved with recovery codes. *)
Definition alice_record : pyval :=
  PDict [("account_name", PStr "alice"); ("issuer_name", PStr "Acme");
         ("secret_key", PStr "JBSWY3DPEHPK3PXP"); ("type", PStr "TOTP");
         ("recovery_codes", PStr "R1-R2-R3")].

Definition alice_vault : gmap (string * string) pyval :=
  {[ (SecureStorage.SERVICE_NAME, SecureStorage.ACCOUNTS_LIST_KEY) := PList [PStr "acme_alice"];
     (SecureStorage.SERVICE_NAME, "acme_alice") := alice_record ]}.

(** ** Claims that do not hold as they are written *)

Module AsStated.

Import SecureStorage Vault.

(** Delete, as the specification words it: whatever the backing delete
    does, the identifier is out of the index when the operation
    returns. *)
Definition delete_cleans_index_unconditionally : Prop :=
  forall (w w' : world pyval) l identifier r,
    stored_index w = PList l -> occurrences identifier l <= 1 ->
    delete_token_secret identifier w = (r, w') ->
    in_index identifier w' = false.

(** Failure semantics, as the specification words it: what a read
    returns when the backend is unavailable differs from what it returns
    when the backend works and the identifier has no record. *)
Definition unavailable_is_told_from_not_found : Prop :=
  forall (w_down w_up : world pyval) identifier message rest,
    plan w_down = Some (mk_fault NoBackend message) :: rest ->
    healthy w_up -> lookup_doc w_up identifier = None ->
    fst (get_token_secret identifier w_down) <> fst (get_token_secret identifier w_up).

(** The PIN round trip, as the specification words it, for some SHA-256
    and some derivation from the key block: after [set_app_pin pin],
    [verify_app_pin pin] is true and [verify_app_pin other] is false
    for every other PIN; before any [set_app_pin], [verify_app_pin] is
    false. *)
Definition pin_round_trip : Prop :=
  exists (sha256 : list byte -> list byte)
         (derive_from_block : list byte -> list byte -> N -> list byte),
    let pbkdf2 := Hashlib.pbkdf2_hmac_sha256 sha256 derive_from_block in
    (forall (w : world string) (pin other : string),
       healthy w -> 4 <= len pin -> other <> pin ->
       exists w1,
         AppLock.set_app_pin pbkdf2 pin w = (Ret tt, w1) /\
         fst (AppLock.verify_app_pin pbkdf2 pin w1) = Ret true /\
         fst (AppLock.verify_app_pin pbkdf2 other w1) = Ret false) /\
    (forall (w0 : world string) (attempt : string),
       passwords w0 !! (AppLock.SERVICE_NAME, AppLock.SALT_KEY) = None ->
       passwords w0 !! (AppLock.SERVICE_NAME, AppLock.PIN_HASH_KEY) = None ->
       fst (AppLock.verify_app_pin pbkdf2 attempt w0) = Ret false).

End AsStated.

(** ** Stand-ins for the cryptographic and text libraries

    The handlers are stated over any key derivation, cipher and codec,
    and over any [str.lower]. To run them on an input one needs some:
    these are small ones that have the properties the statements
    assume. The examples are written in ASCII, where [str.lower] is
    [ascii_lower]. *)

#[global] Instance ascii_str_lower : StrLower := ascii_lower.

Module Toy.

(** A key derivation that keeps its whole input. *)
Definition pbkdf2_hmac_sha256 (password salt : list byte) (iterations : N) : list byte :=
  password ++ salt.

Definition pbkdf2_derive (length : nat) (salt : list byte) (iterations : N)
    (password : list byte) : list byte :=
  password ++ salt.

(** A sealed box: the key and the nonce in front of the data; opening
    it with another key or nonce fails. *)
Definition aesgcm_encrypt (key nonce data : list byte) : list byte :=
  key ++ nonce ++ data.

Definition aesgcm_decrypt (key nonce data : list byte) : option (list byte) :=
  let seal := key ++ nonce in
  if bool_decide (take (length seal) data = seal)
  then Some (drop (length seal) data)
  else None.

(** Hexadecimal text, for base64. *)
Definition b64encode (b : list byte) : string := hex b.
Definition b64decode (text : string) : option (list byte) := fromhex text.

Definition utf8_decode (b : list byte) : option string := Some (string_of_list_byte b).

(** S-expressions, for JSON. *)
Fixpoint to_sexp (v : pyval) : CeresS.sexp_ CeresS.atom :=
  match v with
  | PNone => CeresS.Atom_ (CeresS.Raw "null")
  | PBool b => CeresS.Atom_ (CeresS.Raw (if b then "true" else "false"))
  | PInt z => CeresS.Atom_ (CeresS.Num z)
  | PStr s => CeresS.Atom_ (CeresS.Str s)
  | PList l => CeresS.List (CeresS.Atom_ (CeresS.Raw "list") :: map to_sexp l)
  | PDict d =>
      CeresS.List
        (CeresS.Atom_ (CeresS.Raw "dict")
         :: map (fun kv =>
                   match kv with
                   | (k, v') => CeresS.List [CeresS.Atom_ (CeresS.Str k); to_sexp v']
                   end) d)
  end.

Fixpoint of_sexp (e : CeresS.sexp_ CeresS.atom) : option pyval :=
  match e with
  | CeresS.Atom_ (CeresS.Num z) => Some (PInt z)
  | CeresS.Atom_ (CeresS.Str s) => Some (PStr s)
  | CeresS.Atom_ (CeresS.Raw r) =>
      if String.eqb r "null" then Some PNone
      else if String.eqb r "true" then Some (PBool true)
      else if String.eqb r "false" then Some (PBool false)
      else None
  | CeresS.List (CeresS.Atom_ (CeresS.Raw tag) :: es) =>
      if String.eqb tag "list" then
        option_map PList
          ((fix items (es : list (CeresS.sexp_ CeresS.atom)) : option (list pyval) :=
              match es with
              | [] => Some []
              | e' :: es' =>
                  match of_sexp e', items es' with
                  | Some v, Some vs => Some (v :: vs)
                  | _, _ => None
                  end
              end) es)
      else if String.eqb tag "dict" then
        option_map PDict
          ((fix items (es : list (CeresS.sexp_ CeresS.atom)) : option (list (string * pyval)) :=
              match es with
              | [] => Some []
              | CeresS.List [CeresS.Atom_ (CeresS.Str k); e'] :: es' =>
                  match of_sexp e', items es' with
                  | Some v, Some vs => Some ((k, v) :: vs)
                  | _, _ => None
                  end
              | _ => None
              end) es)
      else None
  | _ => None
  end.

Definition json_dumps (v : pyval) : string := CeresFormat.string_of_sexp (to_sexp v).

Definition json_loads (text : string) : option pyval :=
  match CeresParser.parse_sexp text with
  | inr e => of_sexp e
  | inl _ => None
  end.

(** The two handlers with these libraries. *)
Definition backup : string -> option string -> M pyval Settings.backup_outcome :=
  Settings._handle_backup_tokens pbkdf2_derive aesgcm_encrypt b64encode json_dumps.

Definition restore
  : string -> option pyval -> option string -> bool -> M pyval Settings.restore_outcome :=
  Settings._handle_restore_tokens pbkdf2_derive aesgcm_decrypt b64decode json_loads utf8_decode.

End Toy.

(** ** The vocabulary of the unlock protocol *)

Module Unlock.

Import Main.

Section Runs.

Variable pbkdf2_hmac_sha256 : list byte -> list byte -> N -> list byte.

(** [rejects pins w]: the world after [verify_app_pin] has said no to
    each of the (non-empty) [pins] in turn, [None] when one of them is
    empty or is not answered by no. *)
Fixpoint rejects (pins : list string) (w : world string) : option (world string) :=
  match pins with
  | [] => Some w
  | p :: pins' =>
      if str_truthy p then
        match AppLock.verify_app_pin pbkdf2_hmac_sha256 p w with
        | (Ret false, w1) => rejects pins' w1
        | _ => None
        end
      else None
  end.

End Runs.

(** The dialogs answer the [pins], in order, from the dialog number [d] on. *)
Definition answers (entries : nat -> option string) (d : nat) (pins : list string) : Prop :=
  forall i p, pins !! i = Some p -> entries (d + i) = Some p.

(** The PIN dialogs of [n] attempts in a row, the first made with
    [attempts] failures behind it. *)
Fixpoint prompts (is_startup_check : bool) (attempts n : nat) : list ui_event :=
  match n with
  | O => []
  | S n' =>
      PinDialog (prompt_text is_startup_check attempts) (negb is_startup_check)
      :: prompts is_startup_check (S attempts) n'
  end.

(** The session after [fails] were entered and rejected. *)
Definition after_rejected (is_startup_check : bool) (fails : list string) (s : session) : session :=
  mk_session (app_unlocked s) (pin_attempts s + length fails) (dialogs s + length fails)
    (ui s ++ prompts is_startup_check (pin_attempts s) (length fails))
    (verified s ++ fails).

Definition access_denied : list ui_event :=
  [ShowError "Access Denied" "Maximum PIN attempts reached. Exiting.";
   ShowError "PIN Required" "Application access denied. Exiting.";
   Destroy].

End Unlock.

(** A keyring in which the PIN "2468" was set, a session that has shown
    nothing yet, a user who always types "0000" and one who types "2468"
    at the second dialog. *)
Definition pin_2468_world : world string :=
  snd (AppLock.set_app_pin Toy.pbkdf2_hmac_sha256 "2468" empty_world).

Definition fresh_session : Main.session := Main.mk_session false 0 0 [] [].

Definition always_0000 (k : nat) : option string := Some "0000".

Definition second_time_right (k : nat) : option string :=
  if (k =? 1)%nat then Some "2468" else Some "0000".

(** ** The vocabulary of the restore *)

Module Import_.

Import Settings.

Section Parsing.

Variable pbkdf2_derive : nat -> list byte -> N -> list byte -> list byte.
Variable aesgcm_decrypt : list byte -> list byte -> list byte -> option (list byte).
Variable b64decode : string -> option (list byte).
Variable json_loads : string -> option pyval.
Variable utf8_decode : list byte -> option string.

Definition field_bytes (d : list (string * pyval)) (key : string) : option (list byte) :=
  match dict_get d key with
  | PStr text => b64decode text
  | _ => None
  end.

(** The tokens of a backup file, when the file has the four fields, the
    password opens it and what it holds is a list of dicts. *)
Definition tokens_of (file : option pyval) (password : option string) : option (list pyval) :=
  match file with
  | Some (PDict d) =>
      if forallb (has_key d) ["version"; "salt"; "nonce"; "ciphertext"]
         && SecureStorage.opt_truthy password
      then
        match field_bytes d "salt", field_bytes d "nonce", field_bytes d "ciphertext" with
        | Some salt, Some nonce, Some ciphertext =>
            match aesgcm_decrypt (derive_key pbkdf2_derive (default "" password) salt)
                    nonce ciphertext with
            | Some (x :: bytes) =>
                match utf8_decode (x :: bytes) with
                | Some text =>
                    match json_loads text with
                    | Some (PList tokens) =>
                        if forallb is_dict tokens then Some tokens else None
                    | _ => None
                    end
                | None => None
                end
            | _ => None
            end
        | _, _, _ => None
        end
      else None
  | _ => None
  end.

End Parsing.

(** The text and the bytes of a list of tokens go through the codec:
    what [json.loads] and [decode] are assumed to do with what
    [json.dumps] and [encode] gave. *)
Definition payload_round_trips (json_dumps : pyval -> string)
    (json_loads : string -> option pyval) (utf8_decode : list byte -> option string)
    (tokens : list pyval) : Prop :=
  utf8_encode (json_dumps (PList tokens)) <> [] /\
  utf8_decode (utf8_encode (json_dumps (PList tokens))) = Some (json_dumps (PList tokens)) /\
  json_loads (json_dumps (PList tokens)) = Some (PList tokens).

End Import_.

(** ** Vaults to run the handlers on *)

Definition alice_world : world pyval := world_of alice_vault [].

(** The file a backup of alice's vault writes, under the password
    "correct horse". *)
Definition alice_backup : pyval :=
  match fst (Toy.backup "backup.json" (Some "correct horse") alice_world) with
  | Ret (Settings.BackupWritten content) => content
  | _ => PNone
  end.

(** A vault whose one token was saved as x at y and then edited, under
    its identifier "y_x", to the account "accounts_list__" at the issuer
    "_". *)
Definition edited_world : world pyval :=
  snd (SecureStorage.save_token_secret (PStr "accounts_list__") (PStr "_")
         (PStr "GEZDGNBVGY3TQOJQ") (PStr "TOTP") (Some "y_x") (Some "")
         (snd (SecureStorage.save_token_secret (PStr "x") (PStr "y")
                 (PStr "GEZDGNBVGY3TQOJQ") (PStr "TOTP") None (Some "") empty_world))).

Definition edited_backup : pyval :=
  match fst (Toy.backup "backup.json" (Some "correct horse") edited_world) with
  | Ret (Settings.BackupWritten content) => content
  | _ => PNone
  end.

(** The number of tokens [get_all_token_data] lists. *)
Definition entry_count (w : world pyval) : option nat :=
  match fst (SecureStorage.get_all_token_data w) with
  | Ret tokens => Some (length tokens)
  | Raise _ => None
  end.

(** * More of the code: vocabulary *)

Module Views.

Import SecureStorage Vault.

(** What the listing shows for one entry of the index: the view of the
    record stored under it, when that is a dict whose account, secret
    and issuer are not empty. *)
Definition listed (w : world pyval) (entry : pyval) : list pyval :=
  match entry with
  | PStr identifier =>
      match lookup_doc w identifier with
      | Some (PDict d) =>
          if truthy (dict_get d "account_name") && truthy (dict_get d "secret_key")
             && truthy (dict_get d "issuer_name")
          then [token_view identifier d]
          else []
      | _ => []
      end
  | _ => []
  end.

(** The vault holds, besides the index and the auto-lock setting, only
    token records. *)
Definition holds_only_records (w : world pyval) : Prop :=
  forall key v,
    lookup_doc w key = Some v ->
    key = ACCOUNTS_LIST_KEY \/ key = AUTO_LOCK_SETTING_KEY \/ exists d, v = PDict d.

End Views.

(** A vault with two records in the index, the first of which has lost
    its secret. *)
Definition bob_record : pyval :=
  PDict [("account_name", PStr "bob"); ("issuer_name", PStr "Initech");
         ("secret_key", PStr ""); ("type", PStr "TOTP"); ("recovery_codes", PNone)].

Definition two_vault : gmap (string * string) pyval :=
  <[(SecureStorage.SERVICE_NAME, "initech_bob") := bob_record]>
    (<[(SecureStorage.SERVICE_NAME, "acme_alice") := alice_record]>
       (<[(SecureStorage.SERVICE_NAME, SecureStorage.ACCOUNTS_LIST_KEY) :=
            PList [PStr "initech_bob"; PStr "ghost"; PStr "acme_alice"]]> ∅)).

(** ** ui/add_token_dialog.py *)

Module AddTokenDialog.

(** The dict the dialog returns. *)
Record user_input : Type := mk_user_input {
  issuer_name : string;
  account_name : string;
  secret_key : string;
  recovery_codes : string
}.

(** What a press on OK ends with: the text of the error label, the
    dialog staying open, or the input, the dialog closing. *)
Inductive ok_result : Type :=
| Rejected (error_label_text : string)
| Accepted (_user_input : user_input).

Definition allowed_chars : string := "ABCDEFGHIJKLMNOPQRSTUVWXYZ234567=".

(** [s.replace(" ", "")] *)
Fixpoint remove_spaces (s : string) : string :=
  match s with
  | EmptyString => EmptyString
  | String c s' => if Ascii.eqb c " " then remove_spaces s' else String c (remove_spaces s')
  end.

(** [c in allowed] for a character, [all(c in allowed for c in s)]: a
    character that is not ASCII has no byte in [allowed_chars]. *)
Definition char_in (allowed : string) (c : ascii) : bool :=
  existsb (Ascii.eqb c) (list_ascii_of_string allowed).

Definition all_in (allowed s : string) : bool :=
  forallb (char_in allowed) (list_ascii_of_string s).

Section Str.

(** [str.strip()] and [str.upper()], whose results follow the tables
    of Unicode. *)
Variable strip : string -> string.
Variable str_upper : string -> string.

(** [_ok_event], on the texts of the four entries. *)
Definition _ok_event (issuer_entry account_entry secret_entry recovery_codes_entry : string)
  : ok_result :=
  let issuer := strip issuer_entry in
  let account := strip account_entry in
  let secret := strip secret_entry in
  let recovery_codes := strip recovery_codes_entry in
  if negb (str_truthy issuer) then Rejected "Issuer Name cannot be empty."
  else if negb (str_truthy account) then Rejected "Account Name cannot be empty."
  else if negb (str_truthy secret) then Rejected "Secret Key cannot be empty."
  else
    let temp_secret := str_upper (remove_spaces secret) in
    let is_valid_base32_chars := all_in allowed_chars temp_secret in
    if negb (is_valid_base32_chars && (16 <=? len temp_secret)%nat
             && ((len temp_secret mod 8 =? 0)%nat
                 || ((len temp_secret mod 4 =? 0)%nat && (16 <? len temp_secret)%nat)))
    then Rejected
           "Invalid Secret Key (must be valid Base32, typically 16+ chars, e.g. JBSWY3DPEHPK3PXP)."
    else Accepted (mk_user_input issuer account temp_secret recovery_codes).

End Str.

(** [str.strip()] on the white space of ASCII, for the examples. *)
Definition is_space (c : ascii) : bool :=
  let n := nat_of_ascii c in
  ((9 <=? n)%nat && (n <=? 13)%nat) || ((28 <=? n)%nat && (n <=? 32)%nat).

Fixpoint lstrip (s : string) : string :=
  match s with
  | EmptyString => EmptyString
  | String c s' => if is_space c then lstrip s' else s
  end.

Fixpoint rstrip (s : string) : string :=
  match s with
  | EmptyString => EmptyString
  | String c s' =>
      match rstrip s' with
      | EmptyString => if is_space c then EmptyString else String c EmptyString
      | t => String c t
      end
  end.

Definition ascii_strip (s : string) : string := rstrip (lstrip s).

End AddTokenDialog.

(** ** main.py: adding, editing and deleting a token *)

Module App.

Import SecureStorage.

Section Lower.

Context `{StrLower}.

(** The message boxes. *)
Inductive box : Type :=
| InfoBox (title message : string)
| ErrorBox (title message : string)
| YesNoBox (title message : string).

(** The [except ValueError as ve] and [except Exception as e] of the
    two branches of [open_add_token_dialog], after the boxes [shown]. *)
Definition save_failed (shown : list box) (title on_value_error on_exception : string)
    (e : exn) : M pyval (list box) :=
  if is_class ValueError e then ret (shown ++ [ErrorBox title (on_value_error ++ msg e)])
  else if is_Exception e then ret (shown ++ [ErrorBox title (on_exception ++ msg e)])
  else raise e.

(** [try: save(...); showinfo(...); self.load_and_display_tokens()
     except ValueError ...  except Exception ...] *)
Definition save_and_refresh (save : M pyval string) (info : box)
    (title on_value_error on_exception : string) : M pyval (list box) :=
  fun w =>
    match save w with
    | (Ret _, w1) =>
        match Main.load_and_display_tokens w1 with
        | (Ret _, w2) => (Ret [info], w2)
        | (Raise e, w2) => save_failed [info] title on_value_error on_exception e w2
        end
    | (Raise e, w1) => save_failed [] title on_value_error on_exception e w1
    end.

(** [open_add_token_dialog(token_identifier_to_edit=None)]:
    [get_input] is what the dialog returns, [None] when it is
    cancelled; the result is the boxes shown. *)
Definition open_add_token_dialog (token_identifier_to_edit : option string)
    (get_input : option AddTokenDialog.user_input) : M pyval (list box) :=
  if opt_truthy token_identifier_to_edit then
    let identifier := default "" token_identifier_to_edit in
    let! token_to_edit := get_token_secret identifier in
    if negb (match token_to_edit with Some t => truthy t | None => false end) then
      ret [ErrorBox "Edit Error"
             ("Could not find token data for '" ++ identifier ++ "' to edit.")]
    else
      match get_input with
      | Some new_data =>
          save_and_refresh
            (save_token_secret
               (PStr (AddTokenDialog.account_name new_data))
               (PStr (AddTokenDialog.issuer_name new_data))
               (PStr (AddTokenDialog.secret_key new_data))
               (PStr "TOTP")
               (Some identifier)
               (Some (AddTokenDialog.recovery_codes new_data)))
            (InfoBox "Token Updated"
               ("Token for " ++ AddTokenDialog.issuer_name new_data ++ " ("
                ++ AddTokenDialog.account_name new_data ++ ") updated successfully."))
            "Update Error" "Could not update token: "
            "An unexpected error occurred while updating the token: "
      | None => ret []
      end
  else
    match get_input with
    | Some token_data =>
        save_and_refresh
          (save_token_secret
             (PStr (AddTokenDialog.account_name token_data))
             (PStr (AddTokenDialog.issuer_name token_data))
             (PStr (AddTokenDialog.secret_key token_data))
             (PStr "TOTP")
             None
             (Some (AddTokenDialog.recovery_codes token_data)))
          (InfoBox "Token Added"
             ("Token for " ++ AddTokenDialog.issuer_name token_data ++ " ("
              ++ AddTokenDialog.account_name token_data ++ ") added successfully."))
          "Save Error" "Could not save token: "
          "An unexpected error occurred while saving the token: "
    | None => ret []
    end.

(** [handle_delete_token(token_identifier, display_name)]: [confirm] is
    the answer to the question. *)
Definition handle_delete_token (token_identifier display_name : string) (confirm : bool)
  : M pyval (list box) :=
  let question :=
    YesNoBox "Confirm Delete"
      ("Are you sure you want to delete the token for" ++ String "010" "'" ++ display_name ++ "'?")
  in
  if confirm then
    fun w =>
      let deleted := InfoBox "Token Deleted" ("Token for '" ++ display_name ++ "' has been deleted.") in
      let failed (shown : list box) (e : exn) : M pyval (list box) :=
        if is_Exception e
        then ret (shown ++ [ErrorBox "Delete Error" ("Could not delete token: " ++ msg e)])
        else raise e in
      match delete_token_secret token_identifier w with
      | (Ret _, w1) =>
          match Main.load_and_display_tokens w1 with
          | (Ret _, w2) => (Ret [question; deleted], w2)
          | (Raise e, w2) => failed [question; deleted] e w2
          end
      | (Raise e, w1) => failed [question] e w1
      end
  else ret [question].

(** *** The inactivity timer *)

(** The timer fields of [TwoFactorApp] and the callbacks Tk holds:
    [scheduled] lists the pending [after] calls, with their delay in
    milliseconds. *)
Record clock : Type := mk_clock {
  auto_lock_after_seconds : Z;
  inactivity_timer_id : option nat;
  scheduled : list (nat * Z);
  next_after : nat
}.

(** [self.after(ms, self.lock_application)] *)
Definition after (ms : Z) (c : clock) : nat * clock :=
  (next_after c,
   mk_clock (auto_lock_after_seconds c) (inactivity_timer_id c)
     (scheduled c ++ [(next_after c, ms)]) (S (next_after c))).

(** [self.after_cancel(id)] *)
Definition after_cancel (id : nat) (c : clock) : clock :=
  mk_clock (auto_lock_after_seconds c) (inactivity_timer_id c)
    (filter (fun t => fst t <> id) (scheduled c)) (next_after c).

Definition set_timer_id (id : option nat) (c : clock) : clock :=
  mk_clock (auto_lock_after_seconds c) id (scheduled c) (next_after c).

Definition set_timeout (seconds : Z) (c : clock) : clock :=
  mk_clock seconds (inactivity_timer_id c) (scheduled c) (next_after c).

(** [if self.inactivity_timer_id: self.after_cancel(...); ... = None] *)
Definition cancel_inactivity_timer (c : clock) : clock :=
  match inactivity_timer_id c with
  | Some id => set_timer_id None (after_cancel id c)
  | None => c
  end.

(** [reset_inactivity_timer(event=None)] *)
Definition reset_inactivity_timer (app_unlocked : bool) (c : clock) : clock :=
  let c1 := cancel_inactivity_timer c in
  if app_unlocked && (0 <? auto_lock_after_seconds c1)%Z then
    let '(id, c2) := after (auto_lock_after_seconds c1 * 1000) c1 in
    set_timer_id (Some id) c2
  else c1.

(** Tk holds no lock timer but, at most, the one the application
    remembers. *)
Definition one_timer_at_most (c : clock) : Prop :=
  match scheduled c with
  | [] => True
  | [t] => inactivity_timer_id c = Some (fst t)
  | _ => False
  end.

(** Tk runs the callback of a timer and forgets it. *)
Definition expire (id : nat) (c : clock) : clock := after_cancel id c.

(** [update_auto_lock_and_reset_timer()], with the timer. *)
Definition update_auto_lock_and_reset_timer (app_unlocked : bool) (c : clock)
    (w : world pyval) : res unit * clock * world pyval :=
  match get_auto_lock_setting w with
  | (Ret new_timeout, w1) =>
      (Ret tt, reset_inactivity_timer app_unlocked (set_timeout new_timeout c), w1)
  | (Raise e, w1) => (Raise e, c, w1)
  end.

Section Lock.

Variable pbkdf2_hmac_sha256 : list byte -> list byte -> N -> list byte.
Variable entries : nat -> option string.

(** [lock_application()]: [w] is the keyring of the PIN, [v] the one
    of the vault, which [show_home_frame] reads (the window calls are
    not modelled). *)
Definition lock_application (s : Main.session) (c : clock) (w : world string)
    (v : world pyval) : res unit * Main.session * clock * world string * world pyval :=
  let c1 := cancel_inactivity_timer c in
  let s1 :=
    Main.mk_session false (Main.pin_attempts s) (Main.dialogs s) (Main.ui s) (Main.verified s) in
  match Main._prompt_for_pin_and_unlock pbkdf2_hmac_sha256 entries false s1 w with
  | (Ret true, s2, w2) =>
      match Main.load_and_display_tokens v with
      | (Ret _, v2) => (Ret tt, s2, reset_inactivity_timer (Main.app_unlocked s2) c1, w2, v2)
      | (Raise e, v2) => (Raise e, s2, c1, w2, v2)
      end
  | (Ret false, s2, w2) => (Ret tt, s2, c1, w2, v)
  | (Raise e, s2, w2) => (Raise e, s2, c1, w2, v)
  end.

(** The two [except] clauses of [_handle_initial_pin_check]. *)
Definition startup_failed (s : Main.session) (w : world string) (e : exn)
  : res bool * Main.session * world string :=
  if is_class NoKeyringError e then
    (Raise (mk_exn SystemExit "1"),
     Main.show
       [Main.ShowError "Keyring Error"
          "A keyring backend is required for PIN storage. Please ensure one is installed and configured for your system. See README for details.";
        Main.Destroy] s,
     w)
  else if is_Exception e then
    (Raise (mk_exn SystemExit "1"),
     Main.show
       [Main.ShowError "Startup Error"
          ("An unexpected error occurred during PIN check: " ++ msg e ++ ". Exiting.");
        Main.Destroy] s,
     w)
  else (Raise e, s, w).

(** [_handle_initial_pin_check() -> bool] (the information boxes are
    not recorded). *)
Definition _handle_initial_pin_check (s : Main.session) (w : world string)
  : res bool * Main.session * world string :=
  let body : res bool * Main.session * world string :=
    match AppLock.is_pin_set w with
    | (Raise e, w1) => (Raise e, s, w1)
    | (Ret false, w1) =>
        let pin := entries (Main.dialogs s) in
        let s1 :=
          Main.mk_session (Main.app_unlocked s) (Main.pin_attempts s) (S (Main.dialogs s))
            (Main.ui s
             ++ [Main.PinDialog
                   "Welcome! Please set a PIN for application access (min. 4 characters)."
                   false])
            (Main.verified s) in
        if opt_truthy pin then
          match AppLock.set_app_pin pbkdf2_hmac_sha256 (default "" pin) w1 with
          | (Ret _, w2) =>
              (Ret true,
               Main.mk_session true (Main.pin_attempts s1) (Main.dialogs s1) (Main.ui s1)
                 (Main.verified s1),
               w2)
          | (Raise e, w2) =>
              if is_class ValueError e then
                Main.quit_application_if_pin_cancelled
                  (Main.show [Main.ShowError "PIN Error" (msg e)] s1) w2
              else if is_Exception e then
                Main.quit_application_if_pin_cancelled
                  (Main.show [Main.ShowError "PIN Error" ("Could not set PIN: " ++ msg e)] s1) w2
              else (Raise e, s1, w2)
          end
        else Main.quit_application_if_pin_cancelled s1 w1
    | (Ret true, w1) =>
        Main._prompt_for_pin_and_unlock pbkdf2_hmac_sha256 entries true s w1
    end in
  match body with
  | (Raise e, s', w') => startup_failed s' w' e
  | returned => returned
  end.

End Lock.

End Lower.

End App.

(** ** ui/settings_frame.py: the auto-lock menu and the PIN button *)

Module SettingsFrame.

Import SecureStorage.

Definition auto_lock_options : list (string * Z) :=
  [("Disabled", 0); ("1 Minute", 60); ("5 Minutes", 300); ("15 Minutes", 900);
   ("30 Minutes", 1800); ("1 Hour", 3600)]%Z.

(** [self.auto_lock_options.get(key, default)] *)
Fixpoint options_get (options : list (string * Z)) (key : string) (default : Z) : Z :=
  match options with
  | [] => default
  | (text, seconds) :: rest =>
      if String.eqb key text then seconds else options_get rest key default
  end.

(** The loop of [_load_and_set_auto_lock_display]. *)
Fixpoint display_for (options : list (string * Z)) (current_timeout_seconds : Z)
    (display_value : string) : string :=
  match options with
  | [] => display_value
  | (text, seconds) :: rest =>
      if (seconds =? current_timeout_seconds)%Z then text
      else display_for rest current_timeout_seconds display_value
  end.

(** [_load_and_set_auto_lock_display()]: the text the menu is set to. *)
Definition _load_and_set_auto_lock_display : M pyval string :=
  let! current_timeout_seconds := get_auto_lock_setting in
  ret (display_for auto_lock_options current_timeout_seconds "5 Minutes").

(** [_on_auto_lock_change(selected_display_value)] *)
Definition _on_auto_lock_change (selected_display_value : string) (app_unlocked : bool)
    (c : App.clock) (w : world pyval) : res (list App.box) * App.clock * world pyval :=
  let timeout_seconds :=
    options_get auto_lock_options selected_display_value DEFAULT_AUTO_LOCK_SECONDS in
  match save_auto_lock_setting timeout_seconds w with
  | (Ret _, w1) =>
      let shown :=
        [App.InfoBox "Auto-Lock Updated"
           ("Auto-lock timeout set to " ++ selected_display_value ++ ".")] in
      match App.update_auto_lock_and_reset_timer app_unlocked c w1 with
      | (Ret _, c2, w2) => (Ret shown, c2, w2)
      | (Raise e, c2, w2) => (Raise e, c2, w2)
      end
  | (Raise e, w1) => (Raise e, c, w1)
  end.

Section Pin.

Variable pbkdf2_hmac_sha256 : list byte -> list byte -> N -> list byte.

(** [update_pin_button_states()]: the text of the button. *)
Definition update_pin_button_states : M string string :=
  let! set := AppLock.is_pin_set in
  ret (if set then "Change PIN" else "Set PIN").

(** [_set_initial_pin(...)]: [new_pin] is the answer of the dialog;
    the result is the boxes shown and the text of the button. *)
Definition _set_initial_pin (new_pin : option string) : M string (list App.box * string) :=
  if opt_truthy new_pin then
    fun w =>
      let finally (shown : list App.box) : M string (list App.box * string) :=
        let! text := update_pin_button_states in ret (shown, text) in
      match AppLock.set_app_pin pbkdf2_hmac_sha256 (default "" new_pin) w with
      | (Ret _, w1) =>
          finally [App.InfoBox "PIN Updated" "Application PIN has been successfully set/updated."]
            w1
      | (Raise e, w1) =>
          if is_class ValueError e then finally [App.ErrorBox "PIN Error" (msg e)] w1
          else if is_Exception e then
            finally [App.ErrorBox "PIN Error" ("Could not set new PIN: " ++ msg e)] w1
          else (update_pin_button_states;;; raise e) w1
      end
  else
    let! text := update_pin_button_states in ret ([], text).

(** [_handle_change_pin()]: [current_pin] and [new_pin] are the answers
    of the two dialogs; the text of the button is [None] when the
    handler leaves before it sets it. *)
Definition _handle_change_pin (current_pin new_pin : option string)
  : M string (list App.box * option string) :=
  let set_pin : M string (list App.box * option string) :=
    let! done := _set_initial_pin new_pin in ret (fst done, Some (snd done)) in
  let! set := AppLock.is_pin_set in
  if negb set then set_pin
  else if negb (opt_truthy current_pin) then ret ([], None)
  else
    let! verified := AppLock.verify_app_pin pbkdf2_hmac_sha256 (default "" current_pin) in
    if negb verified then
      ret ([App.ErrorBox "PIN Verification Failed" "The current PIN you entered is incorrect."],
           None)
    else set_pin.

End Pin.

End SettingsFrame.

(** A keyring of the vault that fails its next call, whatever it is. *)
Definition failing_once {V : Type} (p : gmap (string * string) V) : world V :=
  world_of p [Some (mk_fault BackendFailed "timeout")].

(** A user who types "9753" in every dialog. *)
Definition always_9753 (k : nat) : option string := Some "9753".

(** The timer of an application that was just shown, with auto-lock
    after five minutes. *)
Definition running_clock : App.clock :=
  App.reset_inactivity_timer true (App.mk_clock 300 None [] 0).

(** A vault whose one token is an HOTP token. *)
Definition hotp_record : pyval :=
  PDict [("account_name", PStr "carol"); ("issuer_name", PStr "Globex");
         ("secret_key", PStr "GEZDGNBVGY3TQOJQ"); ("type", PStr "HOTP");
         ("recovery_codes", PStr "")].

Definition hotp_vault : gmap (string * string) pyval :=
  {[ (SecureStorage.SERVICE_NAME, SecureStorage.ACCOUNTS_LIST_KEY) := PList [PStr "globex_carol"];
     (SecureStorage.SERVICE_NAME, "globex_carol") := hotp_record ]}.

(** The keyring of the PIN "2468" on a backend that fails its next
    call. *)
Definition pin_2468_failing_once : world string :=
  with_plan [Some (mk_fault BackendFailed "timeout")] pin_2468_world.

(** A stand-in for SHA-256 (the examples have no key longer than a
    block, so it is never called). *)
Definition first_32_bytes (b : list byte) : list byte := firstn 32 b.

(** The PIN "2468" followed by the character U+0000. *)
Definition pin_2468_nul : string := "2468" ++ String "000" "".

(** * Facts *)

(** ** The monad and the keyring *)

Section KeyringFacts.
Context {V : Type}.
Implicit Types w : world V.

Lemma backend_call_healthy {A} (normal : M V A) w :
  healthy w -> backend_call normal w = normal w.
Proof. unfold healthy, backend_call. intros ->. reflexivity. Qed.

Lemma get_password_healthy service key w :
  healthy w -> get_password service key w = (Ret (passwords w !! (service, key)), w).
Proof. intros H. unfold get_password. by rewrite backend_call_healthy. Qed.

Lemma set_password_healthy service key (value : V) w :
  healthy w ->
  set_password service key value w
  = (Ret tt, with_passwords (<[(service, key) := value]> (passwords w)) w).
Proof. intros H. unfold set_password. by rewrite backend_call_healthy. Qed.

Lemma bind_ret {A B} (m : M V A) (k : A -> M V B) w a w' :
  m w = (Ret a, w') -> bind m k w = k a w'.
Proof. unfold bind. by intros ->. Qed.

Lemma try_ret {A} (m : M V A) h w a w' :
  m w = (Ret a, w') -> try_except m h w = (Ret a, w').
Proof. unfold try_except. by intros ->. Qed.

(** A backend call that raises raises an error of the backend. *)
Lemma fault_is_Exception f : is_Exception (fault_exn f) = true.
Proof. destruct f as [[] m]; reflexivity. Qed.

End KeyringFacts.

Import SecureStorage Vault.

Lemma same_store_refl w : same_store w w.
Proof. by split. Qed.

Lemma same_store_trans w1 w2 w3 : same_store w1 w2 -> same_store w2 w3 -> same_store w1 w3.
Proof. intros [H1 H2] [H3 H4]. split; [congruence | auto]. Qed.

Lemma same_store_usedb w w' identifier : same_store w w' -> usedb w' identifier = usedb w identifier.
Proof. intros [H _]. unfold usedb, lookup_doc. by rewrite H. Qed.

Lemma same_store_lookup w w' key : same_store w w' -> lookup_doc w' key = lookup_doc w key.
Proof. intros [H _]. unfold lookup_doc. by rewrite H. Qed.

Lemma same_store_index w w' : same_store w w' -> stored_index w' = stored_index w.
Proof. intros H. unfold stored_index. by rewrite (same_store_lookup _ _ _ H). Qed.

Lemma get_token_secret_spec identifier w :
  exists r w', get_token_secret identifier w = (Ret r, w') /\ same_store w w' /\
    (forall t, r = Some t -> exists d, lookup_doc w identifier = Some (PDict d)
                                       /\ t = token_view identifier d) /\
    (healthy w -> r = None -> usedb w identifier = false).
Proof.
  unfold get_token_secret, try_except, bind, get_password, backend_call, usedb, lookup_doc,
    same_store, healthy.
  destruct (plan w) as [|[f|] rest] eqn:Hp; simpl.
  - destruct (passwords w !! _) as [[| | | | |d]|] eqn:E; simpl;
      eexists _, _; (split; [reflexivity|]); simpl; repeat split; try done;
      intros t [= <-]; eauto.
  - destruct f as [[] m]; simpl; eexists _, _; (split; [reflexivity|]); simpl;
      repeat split; try done.
  - destruct (passwords w !! _) as [[| | | | |d]|] eqn:E; simpl;
      eexists _, _; (split; [reflexivity|]); simpl; repeat split; try done;
      intros t [= <-]; eauto.
Qed.

Lemma get_token_secret_healthy_dict identifier w d :
  healthy w -> lookup_doc w identifier = Some (PDict d) ->
  get_token_secret identifier w = (Ret (Some (token_view identifier d)), w).
Proof.
  unfold healthy, lookup_doc. intros Hp Hd.
  unfold get_token_secret, try_except, bind. rewrite get_password_healthy by done.
  by rewrite Hd.
Qed.

Lemma get_token_secret_healthy_absent identifier w :
  healthy w -> lookup_doc w identifier = None ->
  get_token_secret identifier w = (Ret None, w).
Proof.
  unfold healthy, lookup_doc. intros Hp Hd.
  unfold get_token_secret, try_except, bind. rewrite get_password_healthy by done.
  by rewrite Hd.
Qed.

Lemma get_all_token_identifiers_healthy w :
  healthy w -> get_all_token_identifiers w = (Ret (stored_index w), w).
Proof.
  intros Hp. unfold get_all_token_identifiers, try_except, bind, stored_index, lookup_doc.
  rewrite get_password_healthy by done. by destruct (passwords w !! _).
Qed.

Lemma string_app_assoc (s1 s2 s3 : string) : (s1 +:+ s2) +:+ s3 = s1 +:+ (s2 +:+ s3).
Proof.
  induction s1 as [|c s1 IH]; [done|].
  change (String c ((s1 +:+ s2) +:+ s3) = String c (s1 +:+ (s2 +:+ s3))). by f_equal.
Qed.

Lemma string_length_app (s1 s2 : string) :
  String.length (s1 +:+ s2) = String.length s1 + String.length s2.
Proof.
  induction s1 as [|c s1 IH]; [done|].
  change (S (String.length (s1 +:+ s2)) = S (String.length s1 + String.length s2)).
  by f_equal.
Qed.

(** The candidates of the collision loop are pairwise distinct. *)
Lemma candidate_inj base j k : candidate base j = candidate base k -> j = k.
Proof.
  destruct j as [|j], k as [|k]; simpl; try done.
  - intros H. apply (f_equal String.length) in H.
    rewrite !string_length_app in H. simpl in H. lia.
  - intros H. apply (f_equal String.length) in H.
    rewrite !string_length_app in H. simpl in H. lia.
  - intros H. apply String.app_inj in H. injection H as H.
    by apply pretty_nat_inj in H.
Qed.

(** A keyring with [n] entries cannot hold all of [n + 1] candidates. *)
Lemma some_candidate_unused (w : world pyval) base :
  exists j, j <= size (passwords w) /\ usedb w (candidate base j) = false.
Proof.
  set (n := size (passwords w)).
  set (keys := (fun j => (SERVICE_NAME, candidate base j)) <$> seq 0 (S n)).
  destruct (decide (Forall (fun j => usedb w (candidate base j) = true) (seq 0 (S n))))
    as [Hall|Hex].
  - exfalso.
    assert (Hnd : NoDup keys).
    { apply NoDup_fmap_2; [|apply NoDup_seq].
      intros j k [= H]. by apply candidate_inj in H. }
    assert (Hsub : (list_to_set keys : gset (string * string)) ⊆ dom (passwords w)).
    { intros key. rewrite elem_of_list_to_set. unfold keys. rewrite list_elem_of_fmap.
      intros (j & -> & Hj). rewrite Forall_forall in Hall. specialize (Hall j Hj).
      apply elem_of_dom. unfold usedb, lookup_doc in Hall.
      destruct (passwords w !! _); [eauto | done]. }
    apply subseteq_size in Hsub. rewrite size_dom, size_list_to_set in Hsub by done.
    unfold keys in Hsub. rewrite length_fmap, length_seq in Hsub. unfold n in Hsub. lia.
  - apply (not_Forall_Exists _) in Hex.
    apply Exists_exists in Hex as (j & Hj & Hu). simpl in Hu.
    apply elem_of_seq in Hj. exists j. split; [unfold n in *; lia|].
    by destruct (usedb w (candidate base j)).
Qed.

(** The loop, started at the candidate number [k]: when one of the next
    [fuel] candidates is unused it returns a candidate, and on a backend
    that works the first unused one. *)
Lemma find_unused_spec fuel : forall base k temp_id w,
  temp_id = candidate base k ->
  (exists j, j < fuel /\ usedb w (candidate base (k + j)) = false) ->
  exists j w',
    find_unused fuel base temp_id (S k) w = (Ret (candidate base (k + j)), w') /\
    same_store w w' /\
    (healthy w ->
     usedb w (candidate base (k + j)) = false /\
     forall i, i < j -> usedb w (candidate base (k + i)) = true).
Proof.
  induction fuel as [|fuel IH]; intros base k temp_id w -> (j & Hj & Hfree); [lia|].
  simpl. destruct (get_token_secret_spec (candidate base k) w) as (r & w1 & Hrun & Hsame & Hsome & Hnone).
  rewrite (bind_ret _ _ _ _ _ Hrun). destruct r as [t|].
  - destruct (Hsome t eq_refl) as (d & Hd & _).
    assert (Hused : usedb w (candidate base k) = true) by (unfold usedb; by rewrite Hd).
    destruct j as [|j]; [rewrite Nat.add_0_r in Hfree; congruence|].
    destruct (IH base (S k) (base +:+ "_" +:+ pretty (S k)) w1 eq_refl) as (j' & w' & Hrun' & Hsame' & Hfirst).
    { exists j. split; [lia|]. rewrite (same_store_usedb _ _ _ Hsame).
      by replace (S k + j) with (k + S j) by lia. }
    exists (S j'), w'. replace (k + S j') with (S k + j') by lia.
    split; [exact Hrun'|]. split; [by eapply same_store_trans|].
    intros Hh. destruct (Hfirst (proj2 Hsame Hh)) as [Hf Hb].
    rewrite (same_store_usedb _ _ _ Hsame) in Hf. split; [done|].
    intros [|i] Hi; [by rewrite Nat.add_0_r|].
    replace (k + S i) with (S k + i) by lia.
    rewrite <- (same_store_usedb _ _ _ Hsame). apply Hb. lia.
  - exists 0, w1. rewrite Nat.add_0_r. split; [done|]. split; [done|].
    intros Hh. split; [by apply Hnone|]. intros i Hi. lia.
Qed.

Lemma new_identifier_spec `{SL : StrLower} issuer_name account_name w :
  exists j w',
    new_identifier (PStr issuer_name) (PStr account_name) w
    = (Ret (candidate (derive_identifier issuer_name account_name) j), w') /\
    same_store w w' /\
    (healthy w ->
     usedb w (candidate (derive_identifier issuer_name account_name) j) = false /\
     forall i, i < j -> usedb w (candidate (derive_identifier issuer_name account_name) i) = true).
Proof.
  unfold new_identifier, str_method, get_world. simpl.
  unfold bind at 1. unfold ret at 1. unfold bind at 1. unfold ret at 1. unfold bind at 1.
  fold (derive_identifier issuer_name account_name).
  destruct (some_candidate_unused w (derive_identifier issuer_name account_name)) as (j & Hj & Hfree).
  destruct (find_unused_spec (S (size (passwords w))) (derive_identifier issuer_name account_name)
              0 (derive_identifier issuer_name account_name) w eq_refl) as (j' & w' & Hrun & Hsame & Hfirst).
  { exists j. split; [lia | done]. }
  exists j', w'. simpl in Hrun. split; [exact Hrun|]. split; [done|]. exact Hfirst.
Qed.

Lemma add_account_healthy identifier w l :
  healthy w -> stored_index w = PList l ->
  _add_account_to_list identifier w
  = (Ret tt,
     if existsb (eq_str identifier) l then w
     else with_passwords
            (<[(SERVICE_NAME, ACCOUNTS_LIST_KEY) := PList (l ++ [PStr identifier])]> (passwords w)) w).
Proof.
  intros Hh Hl. unfold _add_account_to_list.
  rewrite (bind_ret _ _ _ _ _ (get_all_token_identifiers_healthy w Hh)). rewrite Hl. simpl.
  unfold bind at 1. unfold ret at 1.
  destruct (existsb (eq_str identifier) l); simpl; [done|].
  unfold bind, ret, pass_on_NoKeyringError, try_except.
  by rewrite set_password_healthy.
Qed.

Lemma stored_index_insert_ne w identifier data :
  identifier <> ACCOUNTS_LIST_KEY ->
  stored_index (with_passwords (<[(SERVICE_NAME, identifier) := data]> (passwords w)) w)
  = stored_index w.
Proof.
  intros Hne. unfold stored_index, lookup_doc. simpl.
  rewrite lookup_insert_ne; [done | congruence].
Qed.

Lemma store_token_healthy identifier data w l :
  healthy w -> identifier <> ACCOUNTS_LIST_KEY -> stored_index w = PList l ->
  store_token identifier data w
  = (Ret identifier, with_passwords (store_after (passwords w) identifier data l) w).
Proof.
  intros Hh Hne Hl. unfold store_token.
  erewrite try_ret; [reflexivity|].
  erewrite bind_ret; [|by apply set_password_healthy].
  erewrite bind_ret; [|apply add_account_healthy with (l := l); [done|]].
  2:{ rewrite stored_index_insert_ne by done. done. }
  unfold ret, store_after. by destruct (existsb (eq_str identifier) l).
Qed.

(** *** The index key is no candidate with a suffix *)

Lemma last_ascii_cons a s : s <> "" -> last_ascii (String a s) = last_ascii s.
Proof. by destruct s. Qed.

Lemma last_ascii_app_nonempty s t : t <> "" -> last_ascii (s +:+ t) = last_ascii t.
Proof.
  intros Ht. induction s as [|a s IH]; [done|].
  change (String a s +:+ t) with (String a (s +:+ t)).
  rewrite last_ascii_cons; [done|]. destruct s; [done | discriminate].
Qed.

Lemma last_ascii_app s c : last_ascii (s +:+ String c EmptyString) = Some c.
Proof. by rewrite last_ascii_app_nonempty. Qed.

Lemma pretty_N_go_suffix x : forall s, exists p, pretty_N_go x s = p +:+ s.
Proof.
  induction (N.lt_wf_0 x) as [x _ IH]; intros s.
  destruct (decide (x = 0)%N) as [->|Hx].
  - exists "". by rewrite pretty_N_go_0.
  - rewrite pretty_N_go_step by lia.
    destruct (IH (x `div` 10)%N) with (s := String (pretty_N_char (x `mod` 10)) s) as [p Hp].
    { apply N.div_lt; lia. }
    exists (p +:+ String (pretty_N_char (x `mod` 10)) ""). rewrite Hp.
    by rewrite string_app_assoc.
Qed.

Lemma pretty_nat_last (n : nat) : exists d, last_ascii (pretty n) = Some (pretty_N_char d).
Proof.
  unfold pretty, pretty_nat, pretty, pretty_N.
  destruct (decide (N.of_nat n = 0)%N) as [_|Hn]; [by exists 0%N|].
  rewrite pretty_N_go_step by lia.
  destruct (pretty_N_go_suffix (N.of_nat n `div` 10)%N
              (String (pretty_N_char (N.of_nat n `mod` 10)) "")) as [p ->].
  exists (N.of_nat n `mod` 10)%N. apply last_ascii_app.
Qed.

Lemma candidate_suffix_not_index base k : candidate base (S k) <> ACCOUNTS_LIST_KEY.
Proof.
  unfold candidate. intros H. apply (f_equal last_ascii) in H.
  destruct (pretty_nat_last (S k)) as [d Hd].
  assert (Hne : pretty (S k) <> "") by (intros E; by rewrite E in Hd).
  rewrite last_ascii_app_nonempty in H by done.
  change ("_" +:+ pretty (S k)) with (String "_" (pretty (S k))) in H.
  rewrite last_ascii_cons, Hd in H by done.
  vm_compute in H. injection H as H.
  unfold pretty_N_char in *. repeat case_match; discriminate.
Qed.

Lemma candidate_suffix_not_setting base k : candidate base (S k) <> AUTO_LOCK_SETTING_KEY.
Proof.
  unfold candidate. intros H. apply (f_equal last_ascii) in H.
  destruct (pretty_nat_last (S k)) as [d Hd].
  assert (Hne : pretty (S k) <> "") by (intros E; by rewrite E in Hd).
  rewrite last_ascii_app_nonempty in H by done.
  change ("_" +:+ pretty (S k)) with (String "_" (pretty (S k))) in H.
  rewrite last_ascii_cons, Hd in H by done.
  vm_compute in H. injection H as H.
  unfold pretty_N_char in *. repeat case_match; discriminate.
Qed.

(** *** [save_token_secret] and [delete_token_secret] on a backend that works *)

Lemma lookup_store_after_ne m identifier data l key :
  key <> identifier -> key <> ACCOUNTS_LIST_KEY ->
  store_after m identifier data l !! (SERVICE_NAME, key) = m !! (SERVICE_NAME, key).
Proof.
  intros H1 H2. unfold store_after. destruct (existsb _ l).
  - rewrite lookup_insert_ne; [done | congruence].
  - rewrite !lookup_insert_ne; [done | congruence..].
Qed.

Lemma lookup_store_after_eq m identifier data l :
  identifier <> ACCOUNTS_LIST_KEY ->
  store_after m identifier data l !! (SERVICE_NAME, identifier) = Some data.
Proof.
  intros H. unfold store_after. destruct (existsb _ l).
  - by rewrite lookup_insert_eq.
  - rewrite lookup_insert_ne by congruence. by rewrite lookup_insert_eq.
Qed.

Lemma stored_index_store_after w identifier data l :
  identifier <> ACCOUNTS_LIST_KEY -> stored_index w = PList l ->
  stored_index (with_passwords (store_after (passwords w) identifier data l) w)
  = PList (index_after identifier l).
Proof.
  intros Hne Hl. unfold stored_index, lookup_doc, store_after, index_after in *. simpl.
  destruct (existsb _ l).
  - rewrite lookup_insert_ne; [done | congruence].
  - by rewrite lookup_insert_eq.
Qed.

Lemma index_is_not_record w l : stored_index w = PList l -> usedb w ACCOUNTS_LIST_KEY = false.
Proof.
  unfold stored_index, usedb. destruct (lookup_doc w ACCOUNTS_LIST_KEY) as [v|]; [|done].
  simpl. by intros ->.
Qed.

Lemma usedb_store_after w identifier d l key :
  identifier <> ACCOUNTS_LIST_KEY -> stored_index w = PList l ->
  usedb (with_passwords (store_after (passwords w) identifier (PDict d) l) w) key
  = if decide (key = identifier) then true else usedb w key.
Proof.
  intros Hne Hl. case_decide as Hk.
  - subst. unfold usedb, lookup_doc. simpl. by rewrite lookup_store_after_eq.
  - destruct (decide (key = ACCOUNTS_LIST_KEY)) as [->|Hk'].
    + rewrite (index_is_not_record w l Hl).
      eapply index_is_not_record. by apply stored_index_store_after.
    + unfold usedb, lookup_doc. simpl. by rewrite lookup_store_after_ne.
Qed.

Lemma save_explicit_healthy `{SL : StrLower} account_name issuer_name secret_key t identifier recovery_codes w l :
  healthy w -> stored_index w = PList l ->
  truthy account_name = true -> truthy issuer_name = true -> truthy secret_key = true ->
  valid_type t = true ->
  identifier <> "" -> identifier <> ACCOUNTS_LIST_KEY ->
  save_token_secret account_name issuer_name secret_key (PStr t) (Some identifier) recovery_codes w
  = (Ret identifier,
     with_passwords
       (store_after (passwords w) identifier
          (token_record account_name issuer_name secret_key (PStr t) recovery_codes) l) w).
Proof.
  intros Hh Hl Ha Hi Hs Ht Hne Hres. unfold save_token_secret.
  rewrite Ha, Hi, Hs. cbn [negb orb]. unfold str_method. unfold bind at 1. unfold ret at 1.
  unfold valid_type in Ht. rewrite Ht. cbn [negb opt_truthy].
  assert (Htr : str_truthy identifier = true).
  { unfold str_truthy. by destruct (String.eqb_spec identifier ""). }
  rewrite Htr. unfold bind, ret at 1. by apply store_token_healthy.
Qed.

Lemma save_new_healthy `{SL : StrLower} account_name issuer_name secret_key t recovery_codes w l :
  healthy w -> stored_index w = PList l ->
  account_name <> "" -> issuer_name <> "" -> truthy secret_key = true ->
  valid_type t = true ->
  derive_identifier issuer_name account_name <> ACCOUNTS_LIST_KEY ->
  exists j w1,
    same_store w w1 /\
    usedb w (candidate (derive_identifier issuer_name account_name) j) = false /\
    (forall i, i < j -> usedb w (candidate (derive_identifier issuer_name account_name) i) = true) /\
    candidate (derive_identifier issuer_name account_name) j <> ACCOUNTS_LIST_KEY /\
    save_token_secret (PStr account_name) (PStr issuer_name) secret_key (PStr t) None recovery_codes w
    = (Ret (candidate (derive_identifier issuer_name account_name) j),
       with_passwords
         (store_after (passwords w) (candidate (derive_identifier issuer_name account_name) j)
            (token_record (PStr account_name) (PStr issuer_name) secret_key (PStr t) recovery_codes) l)
         w1).
Proof.
  intros Hh Hl Ha Hi Hs Ht Hres.
  destruct (new_identifier_spec issuer_name account_name w) as (j & w1 & Hrun & Hsame & Hfirst).
  destruct (Hfirst Hh) as [Hfree Hbelow].
  assert (Hcand : candidate (derive_identifier issuer_name account_name) j <> ACCOUNTS_LIST_KEY).
  { destruct j; [done | apply candidate_suffix_not_index]. }
  exists j, w1. do 4 (split; [done|]).
  unfold save_token_secret. cbn [truthy].
  assert (Hta : negb (account_name =? "")%string = true)
    by (by destruct (String.eqb_spec account_name "")).
  assert (Hti : negb (issuer_name =? "")%string = true)
    by (by destruct (String.eqb_spec issuer_name "")).
  rewrite Hta, Hti, Hs. cbn [negb orb]. unfold str_method. unfold bind at 1. unfold ret at 1.
  unfold valid_type in Ht. rewrite Ht. cbn [negb opt_truthy].
  rewrite (bind_ret _ _ _ _ _ Hrun).
  destruct Hsame as [Hpw Hh1].
  rewrite (store_token_healthy _ _ w1 l); [by rewrite Hpw | by auto | done |].
  unfold stored_index, lookup_doc in *. by rewrite Hpw.
Qed.

Lemma remove_account_healthy identifier w l :
  healthy w -> stored_index w = PList l ->
  _remove_account_from_list identifier w
  = (Ret tt, with_passwords (store_without (passwords w) identifier l) w).
Proof.
  intros Hh Hl. unfold _remove_account_from_list, store_without.
  rewrite (bind_ret _ _ _ _ _ (get_all_token_identifiers_healthy w Hh)). rewrite Hl. simpl.
  unfold bind at 1. unfold ret at 1.
  destruct (existsb (eq_str identifier) l); simpl.
  - unfold bind, ret, pass_on_NoKeyringError, try_except.
    by rewrite set_password_healthy.
  - by destruct w.
Qed.

Lemma existsb_remove_first identifier l :
  occurrences identifier l <= 1 -> existsb (eq_str identifier) (remove_first identifier l) = false.
Proof.
  unfold occurrences. induction l as [|v l IH]; [done|]. simpl.
  rewrite filter_cons. destruct (eq_str identifier v) eqn:E.
  - rewrite decide_True by (cbv beta; congruence). simpl. intros Hle.
    destruct (existsb (eq_str identifier) l) eqn:Hex; [|done].
    apply existsb_exists in Hex as (x & Hx & Hxe).
    assert (Hin : x ∈ filter (fun v => eq_str identifier v = true) l).
    { apply list_elem_of_filter. split; [done | by apply list_elem_of_In]. }
    destruct (filter _ l); [by apply not_elem_of_nil in Hin | simpl in Hle; lia].
  - rewrite decide_False by (cbv beta; congruence). simpl. rewrite E. simpl. exact IH.
Qed.

Lemma in_index_store_without w w0 identifier l :
  passwords w0 = passwords w -> stored_index w = PList l -> occurrences identifier l <= 1 ->
  in_index identifier (with_passwords (store_without (passwords w) identifier l) w0) = false.
Proof.
  intros Hpw Hl Hocc. unfold in_index, store_without.
  destruct (existsb (eq_str identifier) l) eqn:Hex.
  - unfold stored_index, lookup_doc. simpl. rewrite lookup_insert_eq. simpl.
    by apply existsb_remove_first.
  - unfold stored_index, lookup_doc in *. simpl. by rewrite Hl.
Qed.

Lemma delete_password_healthy {V} service key (w : world V) :
  healthy w ->
  delete_password service key w
  = match passwords w !! (service, key) with
    | Some _ => (Ret tt, with_passwords (delete (service, key) (passwords w)) w)
    | None => (Raise (mk_exn PasswordDeleteError "Password not found"), w)
    end.
Proof. intros H. unfold delete_password. by rewrite backend_call_healthy. Qed.

Lemma backend_call_fault {V A} (normal : M V A) (w : world V) f rest :
  plan w = Some f :: rest -> backend_call normal w = (Raise (fault_exn f), with_plan rest w).
Proof. unfold backend_call. by intros ->. Qed.

Lemma stored_index_delete w identifier l :
  stored_index w = PList l ->
  exists l', stored_index (with_passwords (delete (SERVICE_NAME, identifier) (passwords w)) w)
             = PList l' /\ occurrences identifier l' <= occurrences identifier l.
Proof.
  intros Hl. unfold stored_index, lookup_doc in *. simpl.
  destruct (decide (identifier = ACCOUNTS_LIST_KEY)) as [->|Hne].
  - rewrite lookup_delete_eq. exists []. split; [done|]. unfold occurrences. simpl. lia.
  - rewrite lookup_delete_ne by congruence. by exists l.
Qed.

(** ** Bytes and their hexadecimal text *)

Lemma hex_byte_fromhex (x : byte) :
  let n := Byte.to_N x in
  is_ascii_space (hex_digit (n / 16)) = false /\
  hex_value (hex_digit (n / 16)) = Some (n / 16)%N /\
  hex_value (hex_digit (n mod 16)) = Some (n mod 16)%N /\
  Byte.of_N (16 * (n / 16) + n mod 16) = Some x.
Proof. destruct x; vm_compute; done. Qed.

Lemma fromhex_hex (b : list byte) : fromhex (hex b) = Some b.
Proof.
  induction b as [|x b IH]; [done|].
  destruct (hex_byte_fromhex x) as (Hsp & Hh & Hl & Hx).
  cbn [hex fromhex]. cbv zeta in *. by rewrite Hsp, Hh, Hl, Hx, IH.
Qed.

Lemma hex_truthy (b : list byte) : b <> [] -> str_truthy (hex b) = true.
Proof. by destruct b. Qed.

(** ** What can be raised *)

(** The readers catch every error of the backend: they always return. *)
Lemma get_all_token_identifiers_returns w :
  exists v w', get_all_token_identifiers w = (Ret v, w') /\ same_store w w'.
Proof.
  unfold get_all_token_identifiers, try_except, bind, get_password, backend_call, same_store,
    healthy.
  destruct (plan w) as [|[f|] rest] eqn:Hp; simpl.
  - destruct (passwords w !! _); eexists _, _; (split; [reflexivity|]); by rewrite ?Hp.
  - destruct f as [[] m]; simpl; eexists _, _; (split; [reflexivity|]); simpl;
      split; try done; by rewrite Hp.
  - destruct (passwords w !! _); eexists _, _; (split; [reflexivity|]); simpl;
      split; try done; by rewrite Hp.
Qed.

Lemma get_auto_lock_setting_returns w :
  exists z w', get_auto_lock_setting w = (Ret z, w').
Proof.
  unfold get_auto_lock_setting, try_except, bind, get_password, backend_call.
  destruct (plan w) as [|[f|] rest]; simpl.
  - destruct (passwords w !! _) as [[| |z| | |]|]; simpl; try destruct (int_str_ok z); simpl; eauto.
  - destruct f as [[] m]; simpl; eauto.
  - destruct (passwords w !! _) as [[| |z| | |]|]; simpl; try destruct (int_str_ok z); simpl; eauto.
Qed.

Lemma backend_call_raises {V A} (normal : M V A) (w : world V) e w' :
  (forall w0 e0 w1, normal w0 = (Raise e0, w1) -> is_Exception e0 = true) ->
  backend_call normal w = (Raise e, w') -> is_Exception e = true.
Proof.
  intros Hn. unfold backend_call. destruct (plan w) as [|[f|] rest].
  - apply Hn.
  - intros [= <- <-]. apply fault_is_Exception.
  - apply Hn.
Qed.

Lemma set_password_raises {V} service key (value : V) (w : world V) e w' :
  set_password service key value w = (Raise e, w') -> is_Exception e = true.
Proof. apply backend_call_raises. intros w0 e0 w1 [=]. Qed.

Lemma update_index_raises accounts' w e w' :
  pass_on_NoKeyringError (set_password SERVICE_NAME ACCOUNTS_LIST_KEY accounts') w = (Raise e, w') ->
  is_Exception e = true.
Proof.
  unfold pass_on_NoKeyringError, try_except.
  destruct (set_password _ _ _ w) as [[[]|e0] w0] eqn:Hset; [done|].
  apply set_password_raises in Hset.
  destruct (is_class NoKeyringError e0); [done|]. by intros [= <- <-].
Qed.

Lemma add_account_raises identifier w e w' :
  _add_account_to_list identifier w = (Raise e, w') -> is_Exception e = true.
Proof.
  unfold _add_account_to_list.
  destruct (get_all_token_identifiers_returns w) as (v & w1 & Hget & _).
  rewrite (bind_ret _ _ _ _ _ Hget).
  destruct v as [| | |s|l|d]; simpl; unfold bind at 1; simpl;
    try (intros [= <- <-]; reflexivity).
  - destruct (negb (contains s identifier)); [|done]. simpl.
    intros [= <- <-]. reflexivity.
  - destruct (negb (existsb (eq_str identifier) l)); [|done]. simpl.
    unfold bind at 1. simpl. apply update_index_raises.
  - destruct (negb (has_key d identifier)); [|done]. simpl.
    intros [= <- <-]. reflexivity.
Qed.

Lemma store_token_raises identifier data w e w' :
  store_token identifier data w = (Raise e, w') -> is_Exception e = true.
Proof.
  unfold store_token, try_except.
  destruct (bind _ _ w) as [[a|e0] w0] eqn:Hbody; [done|].
  assert (He0 : is_Exception e0 = true).
  { unfold bind at 1 in Hbody.
    destruct (set_password _ _ _ w) as [[[]|e1] w1] eqn:Hset.
    - unfold bind at 1 in Hbody.
      destruct (_add_account_to_list identifier w1) as [[[]|e2] w2] eqn:Hadd; [done|].
      injection Hbody as <- <-. by apply add_account_raises in Hadd.
    - injection Hbody as <- <-. by apply set_password_raises in Hset. }
  rewrite He0. destruct (is_class NoKeyringError e0); by intros [= <- <-].
Qed.

Lemma new_identifier_raises `{SL : StrLower} issuer_name account_name w e w' :
  new_identifier issuer_name account_name w = (Raise e, w') -> is_Exception e = true.
Proof.
  destruct issuer_name as [| | |i| |]; try (by intros [= <- <-]).
  destruct account_name as [| | |a| |]; try (by intros [= <- <-]).
  destruct (new_identifier_spec i a w) as (j & w1 & Hrun & _). by rewrite Hrun.
Qed.

(** Whatever it is given, [save_token_secret] returns or raises an
    Exception: the bounded loop of the model does not run out. *)
Lemma save_token_secret_raises `{SL : StrLower} account_name issuer_name secret_key token_type identifier
    recovery_codes w e w' :
  save_token_secret account_name issuer_name secret_key token_type identifier recovery_codes w
  = (Raise e, w') ->
  is_Exception e = true.
Proof.
  unfold save_token_secret.
  destruct (negb (truthy account_name) || negb (truthy secret_key) || negb (truthy issuer_name));
    [by intros [= <- <-]|].
  destruct token_type as [| | |t| |]; try (by intros [= <- <-]).
  unfold str_method. unfold bind at 1. unfold ret at 1.
  destruct (negb (in_strings (upper t) ["TOTP"; "HOTP"])); [by intros [= <- <-]|].
  unfold bind.
  destruct (opt_truthy identifier).
  - unfold ret at 1. apply store_token_raises.
  - destruct (new_identifier issuer_name account_name w) as [[current|e0] w0] eqn:Hnew.
    + apply store_token_raises.
    + intros [= <- <-]. by apply new_identifier_raises in Hnew.
Qed.

Lemma display_token_raises `{SL : StrLower} entry w e w' :
  Main.display_token entry w = (Raise e, w') -> is_Exception e = true.
Proof.
  unfold Main.display_token.
  assert (Hget : exists r w1,
    match entry with
    | PStr identifier => get_token_secret identifier
    | _ => bind (print "Error retrieving secret: key is not a string") (fun _ => ret None)
    end w = (Ret r, w1)).
  { destruct entry as [| | |identifier| |]; try (eexists _, _; reflexivity).
    destruct (get_token_secret_spec identifier w) as (r & w1 & Hrun & _). eauto. }
  destruct Hget as (r & w1 & Hget). rewrite (bind_ret _ _ _ _ _ Hget).
  destruct r as [[| | | | |t]|]; try done.
  unfold str_method, bind.
  destruct (dict_get_default t "issuer_name" _); try (by intros [= <- <-]).
  unfold ret at 1.
  destruct (dict_get_default t "account_name" _); by intros [= <- <-].
Qed.

Lemma display_tokens_raises `{SL : StrLower} entries : forall w e w',
  Main.display_tokens entries w = (Raise e, w') -> is_Exception e = true.
Proof.
  induction entries as [|entry entries IH]; intros w e w'; [done|].
  simpl. unfold bind.
  destruct (Main.display_token entry w) as [[[]|e0] w0] eqn:Hd.
  - apply IH.
  - intros [= <- <-]. by apply display_token_raises in Hd.
Qed.

Lemma load_and_display_tokens_returns `{SL : StrLower} w :
  exists w', Main.load_and_display_tokens w = (Ret tt, w').
Proof.
  unfold Main.load_and_display_tokens, try_except.
  destruct (bind _ _ w) as [[[]|e] w0] eqn:Hbody; [eauto|].
  assert (He : is_Exception e = true).
  { destruct (get_all_token_identifiers_returns w) as (v & w1 & Hget & _).
    rewrite (bind_ret _ _ _ _ _ Hget) in Hbody.
    destruct (negb (truthy v)); [done|].
    unfold bind in Hbody.
    destruct (py_iter v w1) as [[entries|e1] w2] eqn:Hiter.
    - by apply display_tokens_raises in Hbody.
    - injection Hbody as <- <-. destruct v; inversion Hiter; reflexivity. }
  rewrite He. eauto.
Qed.

Lemma update_auto_lock_and_reset_timer_returns w :
  exists w', Main.update_auto_lock_and_reset_timer w = (Ret tt, w').
Proof.
  unfold Main.update_auto_lock_and_reset_timer.
  destruct (get_auto_lock_setting_returns w) as (z & w' & Hget).
  rewrite (bind_ret _ _ _ _ _ Hget). eauto.
Qed.

Lemma restore_token_returns `{SL : StrLower} d w :
  exists ok w', Settings.restore_token (PDict d) w = (Ret ok, w').
Proof.
  unfold Settings.restore_token.
  destruct (truthy _ && truthy _ && truthy _); [|eexists _, _; reflexivity].
  unfold try_except, bind.
  destruct (save_token_secret _ _ _ _ None None w) as [[identifier|e] w1] eqn:Hsave.
  - eexists _, _. reflexivity.
  - apply save_token_secret_raises in Hsave. rewrite Hsave. eexists _, _. reflexivity.
Qed.

Lemma restore_loop_returns `{SL : StrLower} tokens :
  forallb Settings.is_dict tokens = true ->
  forall restored failed w,
    exists counts w', Settings.restore_loop tokens restored failed w = (Ret counts, w').
Proof.
  induction tokens as [|token tokens IH]; intros Hd restored failed w.
  - eexists _, _. reflexivity.
  - simpl in Hd. apply andb_true_iff in Hd as [Ht Hd].
    destruct token as [| | | | |d]; try done.
    destruct (restore_token_returns d w) as (ok & w1 & Hrun).
    cbn [Settings.restore_loop]. rewrite (bind_ret _ _ _ _ _ Hrun).
    destruct ok; by apply IH.
Qed.

(** ** The two ways a save ends on a backend that works *)

Lemma save_healthy_cases `{SL : StrLower} account_name issuer_name secret_key token_type identifier
    recovery_codes w l r w' :
  healthy w -> stored_index w = PList l ->
  save_avoids_index_key account_name issuer_name identifier ->
  save_token_secret account_name issuer_name secret_key token_type identifier recovery_codes w
  = (r, w') ->
  (w' = w /\ exists e, r = Raise e /\ is_Exception e = true) \/
  (exists target wa,
     same_store w wa /\ target <> ACCOUNTS_LIST_KEY /\
     (opt_truthy identifier = true -> identifier = Some target) /\
     (opt_truthy identifier = false -> usedb w target = false) /\
     r = Ret target /\
     w' = with_passwords
            (store_after (passwords w) target
               (token_record account_name issuer_name secret_key token_type recovery_codes) l)
            wa).
Proof.
  intros Hh Hl Hav. unfold save_token_secret.
  destruct (negb (truthy account_name) || negb (truthy secret_key) || negb (truthy issuer_name));
    [intros [= <- <-]; left; split; [done | by eexists]|].
  destruct token_type as [| | |t| |]; try (intros [= <- <-]; left; split; [done | by eexists]).
  unfold str_method at 1. unfold bind at 1. unfold ret at 1.
  destruct (negb (in_strings (upper t) ["TOTP"; "HOTP"]));
    [intros [= <- <-]; left; split; [done | by eexists]|].
  unfold save_avoids_index_key in Hav. unfold bind.
  destruct (opt_truthy identifier) eqn:Hid.
  - destruct identifier as [target|]; [|done]. unfold ret at 1. cbn [default from_option id].
    rewrite (store_token_healthy target _ w l); [| done | congruence | done].
    intros [= <- <-]. right. exists target, w. split; [apply same_store_refl|].
    split; [congruence|]. by repeat split.
  - destruct issuer_name as [| | |issuer| |];
      try (intros [= <- <-]; left; split; [done | by eexists]).
    destruct account_name as [| | |account| |];
      try (intros [= <- <-]; left; split; [done | by eexists]).
    destruct (new_identifier_spec issuer account w) as (j & w1 & Hrun & Hsame & Hfirst).
    rewrite Hrun. destruct (Hfirst Hh) as [Hfree _].
    assert (Hcand : candidate (derive_identifier issuer account) j <> ACCOUNTS_LIST_KEY).
    { destruct j; [done | apply candidate_suffix_not_index]. }
    destruct Hsame as [Hpw Hh1].
    rewrite (store_token_healthy _ _ w1 l); [| by auto | done |].
    2:{ unfold stored_index, lookup_doc in *. by rewrite Hpw. }
    intros [= <- <-]. right. eexists _, w1. split; [by split|]. split; [done|].
    split; [done|]. split; [done|]. split; [done|]. by rewrite Hpw.
Qed.

(** A delete on a backend that works. *)
Lemma delete_healthy identifier w l :
  healthy w -> stored_index w = PList l -> identifier <> ACCOUNTS_LIST_KEY ->
  delete_token_secret identifier w
  = (Ret tt,
     with_passwords
       (store_without (delete (SERVICE_NAME, identifier) (passwords w)) identifier l) w).
Proof.
  intros Hh Hl Hne. unfold delete_token_secret, try_except, bind.
  rewrite delete_password_healthy by done.
  destruct (passwords w !! (SERVICE_NAME, identifier)) as [v|] eqn:Hv.
  - rewrite (remove_account_healthy _ _ l); [done | done |].
    unfold stored_index, lookup_doc in *. simpl. rewrite lookup_delete_ne; [done | congruence].
  - cbn [is_class cls]. rewrite (remove_account_healthy _ _ l) by done.
    by rewrite delete_id.
Qed.

(** ** The index invariant *)

Lemma eq_str_PStr key identifier : eq_str key (PStr identifier) = bool_decide (key = identifier).
Proof.
  simpl. destruct (String.eqb_spec key identifier).
  - by rewrite bool_decide_eq_true_2.
  - by rewrite bool_decide_eq_false_2.
Qed.

Lemma existsb_index_after key identifier l :
  existsb (eq_str key) (index_after identifier l)
  = if decide (key = identifier) then true else existsb (eq_str key) l.
Proof.
  unfold index_after. destruct (existsb (eq_str identifier) l) eqn:Hex.
  - case_decide; [by subst | done].
  - rewrite existsb_app. cbn [existsb]. rewrite eq_str_PStr, orb_false_r.
    case_decide.
    + rewrite bool_decide_eq_true_2 by done. apply orb_true_r.
    + rewrite bool_decide_eq_false_2 by done. apply orb_false_r.
Qed.

Lemma occurrences_absent identifier l :
  existsb (eq_str identifier) l = false -> occurrences identifier l = 0.
Proof.
  unfold occurrences. induction l as [|v l IH]; [done|]. simpl.
  intros H. apply orb_false_iff in H as [Hv Hl].
  rewrite filter_cons, decide_False by (cbv beta; congruence). by apply IH.
Qed.

Lemma occurrences_app key l1 l2 :
  occurrences key (l1 ++ l2) = occurrences key l1 + occurrences key l2.
Proof. unfold occurrences. by rewrite filter_app, length_app. Qed.

Lemma occurrences_index_after key identifier l :
  occurrences key l <= 1 -> occurrences key (index_after identifier l) <= 1.
Proof.
  intros Hocc. unfold index_after. destruct (existsb (eq_str identifier) l) eqn:Hex; [done|].
  rewrite occurrences_app. unfold occurrences at 2. rewrite filter_cons, filter_nil.
  rewrite eq_str_PStr. case_decide as Hk; simpl; [|lia].
  apply bool_decide_eq_true_1 in Hk as ->. rewrite (occurrences_absent _ _ Hex). lia.
Qed.

Lemma index_consistent_store_after w wa target d l :
  stored_index w = PList l ->
  (forall identifier, existsb (eq_str identifier) l = usedb w identifier) ->
  (forall identifier, occurrences identifier l <= 1) ->
  Forall (fun v => exists identifier, v = PStr identifier) l ->
  target <> ACCOUNTS_LIST_KEY -> passwords wa = passwords w ->
  index_consistent (with_passwords (store_after (passwords w) target (PDict d) l) wa).
Proof.
  intros Hl Hmem Hocc Hstr Hne Hpw. exists (index_after target l).
  assert (Hla : stored_index wa = PList l)
    by (unfold stored_index, lookup_doc in *; by rewrite Hpw).
  rewrite <- Hpw. split; [by apply stored_index_store_after|]. split; [|split].
  - intros key. rewrite existsb_index_after, usedb_store_after by done.
    case_decide; [done|]. rewrite Hmem. unfold usedb, lookup_doc. by rewrite Hpw.
  - intros key. by apply occurrences_index_after.
  - unfold index_after. destruct (existsb _ l); [done|].
    apply Forall_app. split; [done|]. apply Forall_singleton. eauto.
Qed.

Lemma remove_first_absent identifier l :
  existsb (eq_str identifier) l = false -> remove_first identifier l = l.
Proof.
  induction l as [|v l IH]; [done|]. simpl. intros H.
  apply orb_false_iff in H as [-> Hl]. by rewrite IH.
Qed.

Lemma existsb_remove_first_ne key identifier l :
  key <> identifier ->
  Forall (fun v => exists i, v = PStr i) l ->
  existsb (eq_str key) (remove_first identifier l) = existsb (eq_str key) l.
Proof.
  intros Hne. induction 1 as [|v l [i ->] _ IH]; [done|].
  cbn [remove_first existsb]. rewrite !eq_str_PStr.
  case_bool_decide as Hi.
  - subst i. by rewrite bool_decide_eq_false_2.
  - cbn [existsb]. by rewrite eq_str_PStr, IH.
Qed.

Lemma occurrences_remove_first key identifier l :
  occurrences key (remove_first identifier l) <= occurrences key l.
Proof.
  unfold occurrences. induction l as [|v l IH]; [done|]. cbn [remove_first].
  destruct (eq_str identifier v).
  - rewrite filter_cons. case_decide; simpl; lia.
  - rewrite !filter_cons. case_decide; simpl; lia.
Qed.

Lemma Forall_remove_first (P : pyval -> Prop) identifier l :
  Forall P l -> Forall P (remove_first identifier l).
Proof.
  induction 1 as [|v l Hv Hl IH]; [done|]. cbn [remove_first].
  destruct (eq_str identifier v); [done | by constructor].
Qed.

Lemma index_consistent_store_without w identifier l :
  stored_index w = PList l ->
  (forall key, existsb (eq_str key) l = usedb w key) ->
  (forall key, occurrences key l <= 1) ->
  Forall (fun v => exists i, v = PStr i) l ->
  identifier <> ACCOUNTS_LIST_KEY ->
  index_consistent
    (with_passwords
       (store_without (delete (SERVICE_NAME, identifier) (passwords w)) identifier l) w).
Proof.
  intros Hl Hmem Hocc Hstr Hne. exists (remove_first identifier l).
  assert (Hix : usedb w ACCOUNTS_LIST_KEY = false) by (by eapply index_is_not_record).
  split; [|split; [|split]].
  - unfold stored_index, lookup_doc, store_without in *. simpl.
    destruct (existsb (eq_str identifier) l) eqn:Hex.
    + by rewrite lookup_insert_eq.
    + rewrite lookup_delete_ne by congruence. by rewrite remove_first_absent.
  - intros key. destruct (decide (key = identifier)) as [->|Hk].
    + rewrite existsb_remove_first by done.
      unfold usedb, lookup_doc, store_without. simpl.
      destruct (existsb (eq_str identifier) l).
      * rewrite lookup_insert_ne by congruence. by rewrite lookup_delete_eq.
      * by rewrite lookup_delete_eq.
    + rewrite existsb_remove_first_ne, Hmem by done.
      unfold usedb, lookup_doc, store_without in *. simpl.
      destruct (existsb (eq_str identifier) l).
      * destruct (decide (key = ACCOUNTS_LIST_KEY)) as [->|Hk'].
        -- rewrite lookup_insert_eq. by rewrite Hix.
        -- rewrite lookup_insert_ne by congruence. rewrite lookup_delete_ne by congruence. done.
      * rewrite lookup_delete_ne by congruence. done.
  - intros key. etrans; [apply occurrences_remove_first | apply Hocc].
  - by apply Forall_remove_first.
Qed.

(** Index consistency: on a backend that works, a save or a delete that
    does not aim at the key of the index keeps the index and the records
    in step. *)
Lemma run_op_index_consistent `{SL : StrLower} op w :
  healthy w -> index_consistent w -> avoids_index_key op ->
  exists w', run_op op w = (Ret tt, w') /\ healthy w' /\ index_consistent w'.
Proof.
  intros Hh (l & Hl & Hmem & Hocc & Hstr) Hav. destruct op as [a i s t identifier r|identifier].
  - cbn [run_op]. unfold try_except, bind.
    destruct (save_token_secret a i s t identifier r w) as [res w1] eqn:Hrun.
    destruct (save_healthy_cases _ _ _ _ _ _ _ _ _ _ Hh Hl Hav Hrun)
      as [[-> (e & -> & He)] | (target & wa & Hsame & Hne & _ & _ & -> & ->)].
    + rewrite He. exists w. split; [done|]. split; [done|]. by exists l.
    + eexists. split; [reflexivity|]. split; [apply Hsame, Hh|].
      unfold token_record. by apply index_consistent_store_after; [..|apply Hsame].
  - cbn [run_op]. rewrite (delete_healthy _ _ l) by done.
    eexists. split; [reflexivity|]. split; [done|].
    by apply index_consistent_store_without.
Qed.

Lemma run_ops_index_consistent `{SL : StrLower} ops : forall w,
  healthy w -> index_consistent w -> Forall avoids_index_key ops ->
  exists w', run_ops ops w = (Ret tt, w') /\ healthy w' /\ index_consistent w'.
Proof.
  induction ops as [|op ops IH]; intros w Hh Hinv Hav.
  - exists w. by split.
  - apply Forall_cons in Hav as [Hop Hav].
    destruct (run_op_index_consistent op w Hh Hinv Hop) as (w1 & Hrun & Hh1 & Hinv1).
    destruct (IH w1 Hh1 Hinv1 Hav) as (w' & Hrun' & Hh' & Hinv').
    exists w'. split; [|by split]. cbn [run_ops]. by rewrite (bind_ret _ _ _ _ _ Hrun).
Qed.

Lemma index_consistent_empty : index_consistent (empty_world : world pyval).
Proof.
  exists []. split; [done|]. split; [|split].
  - intros identifier. unfold usedb, lookup_doc. simpl. by rewrite lookup_empty.
  - intros identifier. unfold occurrences. simpl. lia.
  - constructor.
Qed.

(** What the invariant says of the two readers: on a backend that works
    [get_all_token_identifiers] lists an identifier exactly when
    [get_token_secret] returns a record for it. *)
Lemma index_consistent_readers w :
  healthy w -> index_consistent w ->
  exists l,
    get_all_token_identifiers w = (Ret (PList l), w) /\
    forall identifier,
      existsb (eq_str identifier) l = true <->
      exists view w', get_token_secret identifier w = (Ret (Some view), w').
Proof.
  intros Hh (l & Hl & Hmem & _ & _). exists l.
  split; [by rewrite get_all_token_identifiers_healthy, Hl|].
  intros identifier. rewrite Hmem. unfold usedb. split.
  - destruct (lookup_doc w identifier) as [[| | | | |d]|] eqn:Hd; try done.
    intros _. eexists _, _. by apply get_token_secret_healthy_dict.
  - intros (view & w' & Hrun).
    destruct (get_token_secret_spec identifier w) as (r & w1 & Hrun' & _ & Hsome & _).
    rewrite Hrun in Hrun'. injection Hrun' as <- <-.
    destruct (Hsome view eq_refl) as (d & -> & _). done.
Qed.

(** ** Restore is additive, the key of the index apart *)

Lemma index_consistent_ext w w' :
  passwords w' = passwords w -> index_consistent w -> index_consistent w'.
Proof.
  intros Hpw (l & Hl & Hmem & Hocc & Hstr). exists l.
  unfold stored_index, usedb, lookup_doc in *. rewrite Hpw. by repeat split.
Qed.

Lemma index_length_ext w w' : passwords w' = passwords w -> index_length w' = index_length w.
Proof. intros Hpw. unfold index_length, stored_index, lookup_doc. by rewrite Hpw. Qed.

(** One token of the backup: it is saved under an identifier that held
    no record, or it is not saved and the keyring stays as it is. *)
Lemma restore_token_additive `{SL : StrLower} d w :
  healthy w -> index_consistent w -> token_avoids_index_key (PDict d) ->
  exists ok w',
    Settings.restore_token (PDict d) w = (Ret ok, w') /\
    healthy w' /\ index_consistent w' /\
    index_length w' = index_length w + (if ok then 1 else 0) /\
    (forall identifier, usedb w identifier = true ->
       lookup_doc w' identifier = lookup_doc w identifier) /\
    (ok = true ->
     exists identifier,
       usedb w identifier = false /\
       lookup_doc w' identifier = Some (restored_record (PDict d))) /\
    (restorable (PDict d) = true -> ok = true).
Proof.
  intros Hh Hinv Hav. unfold Settings.restore_token.
  pose proof Hinv as (l & Hl & Hmem & Hocc & Hstr).
  assert (Hsaved : restorable (PDict d) = true ->
    truthy (dict_get d "account_name") && truthy (dict_get d "issuer_name")
      && truthy (dict_get d "secret_key") = true /\
    exists target w1,
      save_token_secret (dict_get d "account_name") (dict_get d "issuer_name")
        (dict_get d "secret_key") (dict_get_default d "type" (PStr "TOTP")) None None w
      = (Ret target, w1)).
  { unfold restorable. unfold token_avoids_index_key, save_avoids_index_key in Hav.
    cbn [opt_truthy] in Hav.
    destruct (dict_get d "account_name") as [| | |account| |]; try done.
    destruct (dict_get d "issuer_name") as [| | |issuer| |]; try done.
    destruct (dict_get_default d "type" (PStr "TOTP")) as [| | |t| |]; try done.
    intros Hr. apply andb_true_iff in Hr as [Hr Ht]. apply andb_true_iff in Hr as [Hr Hs].
    apply andb_true_iff in Hr as [Ha Hi]. split.
    - cbn [truthy]. unfold str_truthy in Ha, Hi. by rewrite Ha, Hi, Hs.
    - destruct (save_new_healthy account issuer (dict_get d "secret_key") t None w l)
        as (j & wa & _ & _ & _ & _ & Hrun); try done.
      + intros ->. done.
      + intros ->. done.
      + eauto. }
  destruct (truthy _ && truthy _ && truthy _) eqn:Htruthy.
  2:{ eexists false, _. split; [reflexivity|]. split; [done|].
      split; [by apply (index_consistent_ext w)|].
      split; [rewrite (index_length_ext w) by done; lia|]. split; [done|].
      split; [done|]. intros Hr. by destruct (Hsaved Hr). }
  unfold try_except, bind.
  destruct (save_token_secret _ _ _ _ None None w) as [res w1] eqn:Hrun.
  destruct (save_healthy_cases _ _ _ _ _ _ _ _ _ _ Hh Hl Hav Hrun)
    as [[-> (e & -> & He)] | (target & wa & Hsame & Hne & _ & Hfresh & -> & ->)].
  - rewrite He. eexists false, _. split; [reflexivity|]. split; [done|].
    split; [by apply (index_consistent_ext w)|].
    split; [rewrite (index_length_ext w) by done; lia|]. split; [done|].
    split; [done|]. intros Hr. by destruct (Hsaved Hr) as (_ & target & w1 & [=]).
  - specialize (Hfresh eq_refl).
    eexists true, _. split; [reflexivity|]. split; [apply Hsame, Hh|].
    split; [unfold token_record; by apply index_consistent_store_after; [..|apply Hsame]|].
    split; [|split].
    + unfold index_length.
      assert (Hwa : stored_index wa = PList l) by (by rewrite (same_store_index _ _ Hsame)).
      rewrite <- (proj1 Hsame).
      rewrite stored_index_store_after by done. rewrite Hl.
      unfold index_after. rewrite Hmem, Hfresh, length_app. simpl. lia.
    + intros identifier Hused. unfold lookup_doc. simpl.
      apply lookup_store_after_ne.
      * intros ->. congruence.
      * intros ->. rewrite (index_is_not_record w l Hl) in Hused. done.
    + split; [|done]. intros _. exists target. split; [done|]. unfold lookup_doc. simpl.
      by apply lookup_store_after_eq.
Qed.

Lemma restore_loop_additive `{SL : StrLower} tokens : forall w restored failed,
  healthy w -> index_consistent w -> Forall token_avoids_index_key tokens ->
  exists restored' failed' w',
    Settings.restore_loop tokens restored failed w
    = (Ret (restored + restored', failed + failed'), w') /\
    healthy w' /\ index_consistent w' /\
    restored' + failed' = length tokens /\
    index_length w' = index_length w + restored' /\
    (forall identifier, usedb w identifier = true ->
       lookup_doc w' identifier = lookup_doc w identifier) /\
    Forall (fun token =>
              restorable token = true ->
              exists identifier,
                usedb w identifier = false /\
                lookup_doc w' identifier = Some (restored_record token)) tokens.
Proof.
  induction tokens as [|token tokens IH]; intros w restored failed Hh Hinv Hav.
  - exists 0, 0, w. rewrite !Nat.add_0_r. by repeat split.
  - apply Forall_cons in Hav as [Htok Hav]. destruct token as [| | | | |d]; try done.
    destruct (restore_token_additive d w Hh Hinv Htok)
      as (ok & w1 & Hrun & Hh1 & Hinv1 & Hlen1 & Hkeep1 & Hnew & Hok).
    cbn [Settings.restore_loop]. rewrite (bind_ret _ _ _ _ _ Hrun).
    assert (Hused : forall identifier, usedb w identifier = true -> usedb w1 identifier = true).
    { intros identifier Hu. unfold usedb in *. by rewrite Hkeep1. }
    assert (Hfree : forall identifier, usedb w1 identifier = false -> usedb w identifier = false).
    { intros identifier Hu. destruct (usedb w identifier) eqn:E; [|done].
      apply Hused in E. congruence. }
    assert (Hrest : forall w',
      (forall identifier, usedb w1 identifier = true ->
         lookup_doc w' identifier = lookup_doc w1 identifier) ->
      Forall (fun token =>
                restorable token = true ->
                exists identifier,
                  usedb w1 identifier = false /\
                  lookup_doc w' identifier = Some (restored_record token)) tokens ->
      Forall (fun token =>
                restorable token = true ->
                exists identifier,
                  usedb w identifier = false /\
                  lookup_doc w' identifier = Some (restored_record token)) (PDict d :: tokens)).
    { intros w' Hkeep Hall. constructor.
      - intros Hr. destruct (Hnew (Hok Hr)) as (identifier & Hid & Hdoc).
        exists identifier. split; [done|]. rewrite Hkeep; [done|].
        unfold usedb. by rewrite Hdoc.
      - eapply Forall_impl; [exact Hall|]. intros token H Hr.
        destruct (H Hr) as (identifier & Hid & Hdoc). eauto. }
    destruct ok.
    + destruct (IH w1 (S restored) failed Hh1 Hinv1 Hav)
        as (r' & f' & w' & Hloop & Hh' & Hinv' & Hsum & Hlen & Hkeep & Hall).
      exists (S r'), f', w'. rewrite Hloop. split; [do 3 f_equal; lia|].
      split; [done|]. split; [done|]. split; [simpl; lia|]. split; [lia|].
      split; [|by apply Hrest].
      intros identifier Hu. rewrite Hkeep by auto. auto.
    + destruct (IH w1 restored (S failed) Hh1 Hinv1 Hav)
        as (r' & f' & w' & Hloop & Hh' & Hinv' & Hsum & Hlen & Hkeep & Hall).
      exists r', (S f'), w'. rewrite Hloop. split; [do 3 f_equal; lia|].
      split; [done|]. split; [done|]. split; [simpl; lia|]. split; [lia|].
      split; [|by apply Hrest].
      intros identifier Hu. rewrite Hkeep by auto. auto.
Qed.

(** *** The reads that follow the restore loop write nothing *)

Lemma display_token_same `{SL : StrLower} entry w r w' :
  Main.display_token entry w = (r, w') -> same_store w w'.
Proof.
  unfold Main.display_token.
  assert (Hget : exists o w1,
    match entry with
    | PStr identifier => get_token_secret identifier
    | _ => bind (print "Error retrieving secret: key is not a string") (fun _ => ret None)
    end w = (Ret o, w1) /\ same_store w w1).
  { destruct entry as [| | |identifier| |]; try (eexists _, _; split; [reflexivity | by split]).
    destruct (get_token_secret_spec identifier w) as (o & w1 & Hrun & Hsame & _). eauto. }
  destruct Hget as (o & w1 & Hget & Hsame). rewrite (bind_ret _ _ _ _ _ Hget).
  destruct o as [[| | | | |t]|]; try (intros [= <- <-]; by destruct Hsame).
  unfold str_method, bind.
  destruct (dict_get_default t "issuer_name" _); try (by intros [= <- <-]).
  unfold ret at 1.
  destruct (dict_get_default t "account_name" _); by intros [= <- <-].
Qed.

Lemma display_tokens_same `{SL : StrLower} entries : forall w r w',
  Main.display_tokens entries w = (r, w') -> same_store w w'.
Proof.
  induction entries as [|entry entries IH]; intros w r w'.
  - intros [= <- <-]. apply same_store_refl.
  - simpl. unfold bind.
    destruct (Main.display_token entry w) as [[[]|e0] w0] eqn:Hd;
      apply display_token_same in Hd.
    + intros H. apply IH in H. by eapply same_store_trans.
    + by intros [= <- <-].
Qed.

Lemma load_and_display_tokens_same `{SL : StrLower} w r w' :
  Main.load_and_display_tokens w = (r, w') -> same_store w w'.
Proof.
  unfold Main.load_and_display_tokens, try_except.
  destruct (bind _ _ w) as [r0 w0] eqn:Hbody.
  assert (Hsame : same_store w w0).
  { destruct (get_all_token_identifiers_returns w) as (v & w1 & Hget & Hs1).
    rewrite (bind_ret _ _ _ _ _ Hget) in Hbody.
    destruct (negb (truthy v)); [by injection Hbody as <- <-|].
    unfold bind in Hbody.
    destruct (py_iter v w1) as [[entries|e1] w2] eqn:Hiter.
    - assert (w2 = w1) as -> by (destruct v; by inversion Hiter).
      apply display_tokens_same in Hbody. by eapply same_store_trans.
    - injection Hbody as <- <-.
      assert (w2 = w1) as -> by (destruct v; by inversion Hiter). done. }
  destruct r0 as [[]|e]; [by intros [= <- <-]|].
  destruct (is_Exception e); by intros [= <- <-].
Qed.

Lemma get_auto_lock_setting_same w r w' :
  get_auto_lock_setting w = (r, w') -> same_store w w'.
Proof.
  unfold get_auto_lock_setting, try_except, bind, get_password, backend_call, same_store, healthy.
  destruct (plan w) as [|[f|] rest] eqn:Hp; simpl.
  - destruct (passwords w !! _) as [[| |z| | |]|]; simpl; try destruct (int_str_ok z); simpl;
      intros [= <- <-]; by split.
  - destruct f as [[] m]; simpl; intros [= <- <-]; by split.
  - destruct (passwords w !! _) as [[| |z| | |]|]; simpl; try destruct (int_str_ok z); simpl;
      intros [= <- <-]; by split.
Qed.

Lemma update_auto_lock_and_reset_timer_same w r w' :
  Main.update_auto_lock_and_reset_timer w = (r, w') -> same_store w w'.
Proof.
  unfold Main.update_auto_lock_and_reset_timer, bind.
  destruct (get_auto_lock_setting w) as [[z|e] w1] eqn:Hget;
    apply get_auto_lock_setting_same in Hget; by intros [= <- <-].
Qed.

(** ** What a backup holds *)

Lemma token_data_of_dicts entry w tokens w' :
  token_data_of entry w = (Ret tokens, w') -> forallb Settings.is_dict tokens = true.
Proof.
  unfold token_data_of. destruct entry as [| | |identifier| |]; try (by intros [= <- <-]).
  unfold bind. destruct (get_token_secret identifier w) as [[[[| | | | |t]|]|e] w1];
    try (by intros [= <- <-]).
  destruct (truthy _ && truthy _ && truthy _); by intros [= <- <-].
Qed.

Lemma collect_token_data_dicts entries : forall w tokens w',
  collect_token_data entries w = (Ret tokens, w') -> forallb Settings.is_dict tokens = true.
Proof.
  induction entries as [|entry entries IH]; intros w tokens w'.
  - by intros [= <- <-].
  - simpl. unfold bind at 1.
    destruct (token_data_of entry w) as [[here|e] w1] eqn:Hhere; [|done].
    unfold bind at 1.
    destruct (collect_token_data entries w1) as [[there|e] w2] eqn:Hthere; [|done].
    intros [= <- <-]. rewrite forallb_app.
    by rewrite (token_data_of_dicts _ _ _ _ Hhere), (IH _ _ _ Hthere).
Qed.

Lemma get_all_token_data_dicts w tokens w' :
  get_all_token_data w = (Ret tokens, w') -> forallb Settings.is_dict tokens = true.
Proof.
  unfold get_all_token_data, bind.
  destruct (get_all_token_identifiers w) as [[v|e] w1]; [|done].
  destruct (py_iter v w1) as [[entries|e] w2]; [|done].
  apply collect_token_data_dicts.
Qed.

(** The stand-ins have the properties assumed of the libraries. *)
Lemma toy_b64_round_trip b : Toy.b64decode (Toy.b64encode b) = Some b.
Proof. apply fromhex_hex. Qed.

Lemma toy_aesgcm_round_trip key nonce data :
  Toy.aesgcm_decrypt key nonce (Toy.aesgcm_encrypt key nonce data) = Some data.
Proof.
  unfold Toy.aesgcm_decrypt, Toy.aesgcm_encrypt. rewrite (app_assoc key nonce data).
  rewrite take_app_length, drop_app_length. by rewrite bool_decide_eq_true_2.
Qed.

(** * The properties of the specification *)

Import SecureStorage Vault.

(** ** Identifiers *)








(** ** The token type *)

Lemma saved_type_read_back w0 w identifier account_name issuer_name secret_key token_type
    recovery_codes l :
  healthy w -> passwords w = passwords w0 -> identifier <> ACCOUNTS_LIST_KEY ->
  let w' := with_passwords
              (store_after (passwords w0) identifier
                 (token_record account_name issuer_name secret_key token_type recovery_codes) l)
              w in
  exists view, get_token_secret identifier w' = (Ret (Some (PDict view)), w') /\
               dict_get view "type" = token_type.
Proof.
  intros Hh Hpw Hne w'. eexists. split.
  - apply get_token_secret_healthy_dict; [exact Hh|].
    unfold lookup_doc, w'. simpl. by apply lookup_store_after_eq.
  - reflexivity.
Qed.

(** C10: the type is checked through [upper] ("totp" and "Hotp" pass,
    anything else is refused with ValueError and nothing is stored), it
    is stored as it was given, so that reading the token back gives the
    very string that was saved; and a read puts "TOTP" only where the
    stored record has no "type" field at all. *)
Theorem C10_type_checked_case_insensitively_and_kept_verbatim `{SL : StrLower}
    (w : world pyval) (l : list pyval) (account issuer : string) (secret : pyval)
    (t : string) (r : option string) :
  healthy w -> stored_index w = PList l ->
  account <> "" -> issuer <> "" -> truthy secret = true ->
  derive_identifier issuer account <> ACCOUNTS_LIST_KEY ->
  (valid_type "totp" = true /\ valid_type "Hotp" = true) /\
  (valid_type t = true ->
     (exists identifier w' view,
        save_token_secret (PStr account) (PStr issuer) secret (PStr t) None r w
        = (Ret identifier, w') /\
        get_token_secret identifier w' = (Ret (Some (PDict view)), w') /\
        dict_get view "type" = PStr t) /\
     (forall identifier, identifier <> "" -> identifier <> ACCOUNTS_LIST_KEY ->
        exists w' view,
          save_token_secret (PStr account) (PStr issuer) secret (PStr t) (Some identifier) r w
          = (Ret identifier, w') /\
          get_token_secret identifier w' = (Ret (Some (PDict view)), w') /\
          dict_get view "type" = PStr t)) /\
  (valid_type t = false ->
     exists e, cls e = ValueError /\
       forall identifier,
         save_token_secret (PStr account) (PStr issuer) secret (PStr t) identifier r w
         = (Raise e, w)) /\
  (forall identifier d,
     lookup_doc w identifier = Some (PDict d) ->
     exists view,
       get_token_secret identifier w = (Ret (Some (PDict view)), w) /\
       dict_get view "type"
       = match lookup_key "type" d with Some v => v | None => PStr "TOTP" end).
Proof.
  intros Hh Hl Ha Hi Hs Hres.
  assert (Hta : truthy (PStr account) = true)
    by (simpl; by destruct (String.eqb_spec account "")).
  assert (Hti : truthy (PStr issuer) = true)
    by (simpl; by destruct (String.eqb_spec issuer "")).
  split; [by split|]. split; [|split].
  - intros Ht. split.
    + destruct (save_new_healthy account issuer secret t r w l) as
        (j & wa & Hsame & _ & _ & Hcand & Hrun); try done.
      destruct (saved_type_read_back w wa _ (PStr account) (PStr issuer) secret (PStr t) r l
                  (proj2 Hsame Hh) (proj1 Hsame) Hcand) as (view & Hget & Htype).
      eexists _, _, view. split; [exact Hrun|]. by split.
    + intros identifier Hne Hnres.
      destruct (saved_type_read_back w w identifier (PStr account) (PStr issuer) secret
                  (PStr t) r l Hh eq_refl Hnres) as (view & Hget & Htype).
      eexists _, view. split; [|by split].
      by apply save_explicit_healthy.
  - intros Ht. eexists (mk_exn ValueError _). split; [reflexivity|].
    intros identifier. unfold save_token_secret. rewrite Hta, Hti, Hs. cbn [negb orb].
    unfold str_method. unfold bind at 1. unfold ret at 1.
    unfold valid_type in Ht. rewrite Ht. reflexivity.
  - intros identifier d Hd. eexists. split.
    + by apply get_token_secret_healthy_dict.
    + reflexivity.
Qed.

(** C10, witness: "Hotp" saved for alice at Acme in an empty vault. *)
Lemma C10_type_checked_case_insensitively_and_kept_verbatim_witness :
  exists identifier w' view,
    save_token_secret (PStr "alice") (PStr "Acme") (PStr "JBSWY3DP") (PStr "Hotp") None None
      empty_world = (Ret identifier, w') /\
    get_token_secret identifier w' = (Ret (Some (PDict view)), w') /\
    dict_get view "type" = PStr "Hotp".
Proof.
  destruct (C10_type_checked_case_insensitively_and_kept_verbatim empty_world [] "alice" "Acme"
              (PStr "JBSWY3DP") "Hotp" None) as (_ & Hsave & _);
    try reflexivity; try discriminate.
  apply Hsave. reflexivity.
Defined.

(** ** Delete and the index *)

(** C3, counterexample: the backend refuses the delete for another
    reason than a missing password (the keyring is locked); the handler
    prints the error and the index still lists the identifier. *)
Lemma C3_locked_keyring_leaves_identifier_in_index :
  ~ AsStated.delete_cleans_index_unconditionally.
Proof.
  intros H.
  set (w := world_of alice_vault [Some (mk_fault BackendFailed "The keyring is locked")]).
  specialize (H w (snd (delete_token_secret "acme_alice" w)) [PStr "acme_alice"] "acme_alice"
                (fst (delete_token_secret "acme_alice" w)) eq_refl).
  assert (Habs : in_index "acme_alice" (snd (delete_token_secret "acme_alice" w)) = false).
  { apply H; [vm_compute; lia | by destruct (delete_token_secret "acme_alice" w)]. }
  vm_compute in Habs. discriminate Habs.
Qed.

(** C3 (amended): with an index that lists the identifier at most once,
    delete takes the identifier out of the index when the backend
    deletes the record or reports PasswordDeleteError (the record is not
    there, or the delete failed) and the calls on the index go through;
    when the delete call raises NoKeyringError or any other error the
    keyring, and with it the index, is left as it was. *)
Theorem C3_delete_cleans_index_unless_backend_errs
    (w : world pyval) (l : list pyval) (identifier : string) :
  stored_index w = PList l -> occurrences identifier l <= 1 ->
  ((healthy w \/ exists message, plan w = [Some (mk_fault DeleteFailed message)]) ->
     exists w', delete_token_secret identifier w = (Ret tt, w') /\
                in_index identifier w' = false) /\
  (forall f rest, plan w = Some f :: rest -> fault_error f <> DeleteFailed ->
     exists w', delete_token_secret identifier w = (Ret tt, w') /\
                passwords w' = passwords w /\
                in_index identifier w' = in_index identifier w).
Proof.
  intros Hl Hocc. split.
  - intros [Hh | [message Hp]].
    + unfold delete_token_secret, try_except, bind.
      rewrite delete_password_healthy by done.
      destruct (passwords w !! (SERVICE_NAME, identifier)) as [v|] eqn:Hv.
      * destruct (stored_index_delete w identifier l Hl) as (l' & Hl' & Hle).
        rewrite (remove_account_healthy _ _ l') by done.
        eexists. split; [reflexivity|].
        apply in_index_store_without; [done | done | lia].
      * cbn [is_class cls]. rewrite (remove_account_healthy _ _ l) by done.
        eexists. split; [reflexivity|]. by apply in_index_store_without.
    + unfold delete_token_secret, try_except, bind, delete_password.
      rewrite (backend_call_fault _ _ _ _ Hp). cbn [is_class cls fault_exn fault_error].
      rewrite (remove_account_healthy _ _ l); [| done | done].
      eexists. split; [reflexivity|]. by apply in_index_store_without.
  - intros f rest Hp Hf.
    unfold delete_token_secret, try_except, bind, delete_password.
    rewrite (backend_call_fault _ _ _ _ Hp).
    destruct f as [[] message]; try done; cbn; eexists; (split; [reflexivity|]); by split.
Qed.

(** C3, witness: alice's token deleted on a backend that works, and on
    one that has no keyring. *)
Lemma C3_delete_cleans_index_unless_backend_errs_witness :
  (exists w', delete_token_secret "acme_alice" (world_of alice_vault []) = (Ret tt, w') /\
              in_index "acme_alice" w' = false) /\
  (exists w', delete_token_secret "acme_alice"
                (world_of alice_vault [Some (mk_fault NoBackend "No keyring")]) = (Ret tt, w') /\
              passwords w' = alice_vault /\ in_index "acme_alice" w' = true).
Proof.
  split.
  - destruct (C3_delete_cleans_index_unless_backend_errs (world_of alice_vault [])
                [PStr "acme_alice"] "acme_alice") as [Hclean _];
      [reflexivity | vm_compute; lia |].
    apply Hclean. left. reflexivity.
  - destruct (C3_delete_cleans_index_unless_backend_errs
                (world_of alice_vault [Some (mk_fault NoBackend "No keyring")])
                [PStr "acme_alice"] "acme_alice") as [_ Hkept];
      [reflexivity | vm_compute; lia |].
    destruct (Hkept (mk_fault NoBackend "No keyring") [] eq_refl) as (w' & Hrun & Hpw & Hin);
      [discriminate|].
    exists w'. split; [exact Hrun|]. split; [exact Hpw|]. rewrite Hin. reflexivity.
Defined.

(** ** Reads on a backend that is not there *)

(** C4, counterexample: with no keyring backend [get_token_secret]
    returns None, which is also what it returns for an identifier that
    has no record. *)
Lemma C4_unavailable_reads_as_not_found : ~ AsStated.unavailable_is_told_from_not_found.
Proof.
  intros H.
  apply (H (world_of ∅ [Some (mk_fault NoBackend "No recommended backend was available")])
           (world_of ∅ []) "acme_alice" "No recommended backend was available" []);
    reflexivity.
Qed.

(** C4 (amended): a read on a backend that is unavailable returns what
    it returns when nothing is stored, None for [get_token_secret] and
    the empty list for [get_all_token_identifiers]; the one difference
    is the line it prints. *)
Theorem C4_unavailable_backend_reads_as_empty
    (w_down w_up : world pyval) (identifier message : string) (rest : list (option fault)) :
  plan w_down = Some (mk_fault NoBackend message) :: rest ->
  healthy w_up ->
  lookup_doc w_up identifier = None ->
  lookup_doc w_up ACCOUNTS_LIST_KEY = None ->
  get_token_secret identifier w_down = (Ret None, printed NO_BACKEND_LINE (with_plan rest w_down)) /\
  get_token_secret identifier w_up = (Ret None, w_up) /\
  get_all_token_identifiers w_down
  = (Ret (PList []), printed NO_BACKEND_LINE (with_plan rest w_down)) /\
  get_all_token_identifiers w_up = (Ret (PList []), w_up).
Proof.
  intros Hp Hh Hid Hix. repeat split.
  - unfold get_token_secret, try_except, bind, get_password.
    by rewrite (backend_call_fault _ _ _ _ Hp).
  - by apply get_token_secret_healthy_absent.
  - unfold get_all_token_identifiers, try_except, bind, get_password.
    by rewrite (backend_call_fault _ _ _ _ Hp).
  - rewrite get_all_token_identifiers_healthy by done. unfold stored_index. by rewrite Hix.
Qed.

(** C4, witness: an empty keyring, with and without a backend. *)
Lemma C4_unavailable_backend_reads_as_empty_witness :
  fst (get_token_secret "acme_alice"
         (world_of ∅ [Some (mk_fault NoBackend "No recommended backend was available")]))
  = fst (get_token_secret "acme_alice" (world_of ∅ [])) /\
  fst (get_all_token_identifiers
         (world_of ∅ [Some (mk_fault NoBackend "No recommended backend was available")]))
  = fst (get_all_token_identifiers (world_of ∅ [])).
Proof.
  destruct (C4_unavailable_backend_reads_as_empty
              (world_of ∅ [Some (mk_fault NoBackend "No recommended backend was available")])
              (world_of ∅ []) "acme_alice" "No recommended backend was available" [])
    as (H1 & H2 & H3 & H4); try reflexivity.
  rewrite H1, H2, H3, H4. split; reflexivity.
Defined.

(** ** The PIN *)

Section PinGate.

Variable pbkdf2_hmac_sha256 : list byte -> list byte -> N -> list byte.

Abbreviation set_app_pin := (AppLock.set_app_pin pbkdf2_hmac_sha256).
Abbreviation verify_app_pin := (AppLock.verify_app_pin pbkdf2_hmac_sha256).
Abbreviation _hash_pin := (AppLock._hash_pin pbkdf2_hmac_sha256).

(** The keyring once [set_app_pin] has stored the salt and the hash. *)
Lemma set_app_pin_healthy (w : world string) (pin : string) :
  healthy w -> 4 <= len pin ->
  let salt := map (rng w) (seq (rng_pos w) 16) in
  exists w1,
    set_app_pin pin w = (Ret tt, w1) /\ healthy w1 /\
    passwords w1 !! (AppLock.SERVICE_NAME, AppLock.SALT_KEY) = Some (hex salt) /\
    passwords w1 !! (AppLock.SERVICE_NAME, AppLock.PIN_HASH_KEY) = Some (hex (_hash_pin pin salt)).
Proof.
  intros Hh Hlen salt. unfold AppLock.set_app_pin.
  destruct (Nat.ltb_spec (len pin) 4) as [?|_]; [lia|].
  unfold try_except, bind, AppLock._generate_salt, os_urandom.
  rewrite set_password_healthy by done. rewrite set_password_healthy by done.
  eexists. split; [reflexivity|]. split; [done|]. simpl. split.
  - rewrite lookup_insert_ne by done. by rewrite lookup_insert_eq.
  - by rewrite lookup_insert_eq.
Qed.

(** What [verify_app_pin] answers on a backend that works and holds a
    salt and a non-empty hash. *)
Lemma verify_app_pin_healthy (w : world string) (attempt : string) (salt stored : list byte) :
  healthy w -> salt <> [] -> stored <> [] ->
  passwords w !! (AppLock.SERVICE_NAME, AppLock.SALT_KEY) = Some (hex salt) ->
  passwords w !! (AppLock.SERVICE_NAME, AppLock.PIN_HASH_KEY) = Some (hex stored) ->
  verify_app_pin attempt w = (Ret (bool_decide (_hash_pin attempt salt = stored)), w).
Proof.
  intros Hh Hs Hst Hsalt Hhash. unfold AppLock.verify_app_pin, try_except, bind.
  rewrite !get_password_healthy by done. rewrite Hsalt, Hhash.
  cbn [AppLock.opt_falsy default]. rewrite !hex_truthy by done. cbn [negb orb].
  unfold AppLock.bytes_fromhex, id. by rewrite !fromhex_hex.
Qed.

(** With no credential in the keyring the answer is no, whatever the
    backend does. *)
Lemma verify_app_pin_unset (w : world string) (attempt : string) :
  passwords w !! (AppLock.SERVICE_NAME, AppLock.SALT_KEY) = None ->
  passwords w !! (AppLock.SERVICE_NAME, AppLock.PIN_HASH_KEY) = None ->
  exists w', verify_app_pin attempt w = (Ret false, w').
Proof.
  intros Hsalt Hhash.
  unfold AppLock.verify_app_pin, try_except, bind, get_password, backend_call.
  destruct (plan w) as [|[f1|] [|[f2|] rest]] eqn:Hp; simpl; rewrite ?Hp, ?Hsalt, ?Hhash; simpl;
    try (destruct f1 as [[] m1]); try (destruct f2 as [[] m2]); simpl; eauto.
Qed.

(** Two pins with the same digest under every salt get the same answer. *)
Lemma verify_app_pin_same_digest (w : world string) (pin other : string) :
  (forall salt, _hash_pin other salt = _hash_pin pin salt) ->
  verify_app_pin other w = verify_app_pin pin w.
Proof.
  intros Hsame. unfold AppLock.verify_app_pin, try_except, bind.
  destruct (get_password _ _ w) as [[salt_hex|e1] wa]; [|reflexivity].
  destruct (get_password _ _ wa) as [[stored_hash_hex|e2] wb]; [|reflexivity].
  destruct (_ || _); [reflexivity|].
  destruct (AppLock.bytes_fromhex _ wb) as [[salt|e3] wc]; [|reflexivity].
  destruct (AppLock.bytes_fromhex _ wc) as [[stored_hash|e4] wd]; [|reflexivity].
  by rewrite Hsame.
Qed.

End PinGate.

(** C6, counterexample: PBKDF2-HMAC reads the password through the key
    block of HMAC only, and that block is the password padded with zero
    bytes; so after the pin "2468" is set, "2468" followed by the
    character U+0000, another pin, is verified as well, whatever SHA-256
    and the derivation from the block are. *)
Lemma C6_pin_followed_by_nul_verifies : ~ AsStated.pin_round_trip.
Proof.
  intros (sha256 & derive_from_block & Hround & _). cbv zeta in Hround.
  destruct (Hround empty_world "2468" pin_2468_nul) as (w1 & _ & Hpin & Hother);
    [reflexivity | vm_compute; lia | discriminate |].
  rewrite (verify_app_pin_same_digest _ w1 "2468" pin_2468_nul) in Hother
    by (intros salt; reflexivity).
  congruence.
Qed.

Section PinKeyBlock.

Variable sha256 : list byte -> list byte.
Variable derive_from_block : list byte -> list byte -> N -> list byte.

Abbreviation pbkdf2 := (Hashlib.pbkdf2_hmac_sha256 sha256 derive_from_block).
Abbreviation key_block := (Hashlib.hmac_key_block sha256).

(** C6, as it holds: on a backend that works, with a digest that is not
    empty: after [set_app_pin pin], for a pin of four characters or
    more, [verify_app_pin pin] is true; [verify_app_pin other] is true
    as well for every other pin with the HMAC key block of [pin] (the
    pin followed by zero characters, up to 64 bytes), and it is false
    for every pin whose digest under the stored salt is not the digest
    of [pin]; with no credential stored, [verify_app_pin] is false. *)
Theorem C6_pin_round_trip_up_to_the_key_block (w : world string) (pin : string) :
  healthy w -> 4 <= len pin ->
  let salt := map (rng w) (seq (rng_pos w) 16) in
  AppLock._hash_pin pbkdf2 pin salt <> [] ->
  (exists w1,
     AppLock.set_app_pin pbkdf2 pin w = (Ret tt, w1) /\
     AppLock.verify_app_pin pbkdf2 pin w1 = (Ret true, w1) /\
     (forall other,
        key_block (list_byte_of_string other) = key_block (list_byte_of_string pin) ->
        AppLock.verify_app_pin pbkdf2 other w1 = (Ret true, w1)) /\
     (forall other,
        AppLock._hash_pin pbkdf2 other salt <> AppLock._hash_pin pbkdf2 pin salt ->
        AppLock.verify_app_pin pbkdf2 other w1 = (Ret false, w1))) /\
  (forall (w0 : world string) attempt,
     passwords w0 !! (AppLock.SERVICE_NAME, AppLock.SALT_KEY) = None ->
     passwords w0 !! (AppLock.SERVICE_NAME, AppLock.PIN_HASH_KEY) = None ->
     exists w', AppLock.verify_app_pin pbkdf2 attempt w0 = (Ret false, w')).
Proof.
  intros Hh Hlen salt Hdigest. split; [|by apply verify_app_pin_unset].
  destruct (set_app_pin_healthy pbkdf2 w pin Hh Hlen) as (w1 & Hset & Hh1 & Hsalt & Hhash).
  fold salt in Hsalt, Hhash.
  assert (Hsalt_ne : salt <> []).
  { unfold salt. intros E. apply (f_equal length) in E. by rewrite length_map, length_seq in E. }
  assert (Hpin : AppLock.verify_app_pin pbkdf2 pin w1 = (Ret true, w1)).
  { rewrite (verify_app_pin_healthy pbkdf2 w1 pin salt (AppLock._hash_pin pbkdf2 pin salt))
      by done.
    by rewrite bool_decide_eq_true_2. }
  exists w1. split; [exact Hset|]. split; [exact Hpin|]. split.
  - intros other Hblock. rewrite <- Hpin. apply verify_app_pin_same_digest.
    intros salt'. unfold AppLock._hash_pin, Hashlib.pbkdf2_hmac_sha256. by rewrite Hblock.
  - intros other Hother.
    rewrite (verify_app_pin_healthy pbkdf2 w1 other salt (AppLock._hash_pin pbkdf2 pin salt))
      by done.
    by rewrite bool_decide_eq_false_2.
Qed.

End PinKeyBlock.

(** C6, witness: the pin "2468" set in an empty keyring; "2468" followed
    by U+0000 and "1357" tried. *)
Lemma C6_pin_round_trip_up_to_the_key_block_witness :
  exists w1,
    AppLock.set_app_pin (Hashlib.pbkdf2_hmac_sha256 first_32_bytes Toy.pbkdf2_hmac_sha256)
      "2468" empty_world = (Ret tt, w1) /\
    AppLock.verify_app_pin (Hashlib.pbkdf2_hmac_sha256 first_32_bytes Toy.pbkdf2_hmac_sha256)
      "2468" w1 = (Ret true, w1) /\
    AppLock.verify_app_pin (Hashlib.pbkdf2_hmac_sha256 first_32_bytes Toy.pbkdf2_hmac_sha256)
      pin_2468_nul w1 = (Ret true, w1) /\
    AppLock.verify_app_pin (Hashlib.pbkdf2_hmac_sha256 first_32_bytes Toy.pbkdf2_hmac_sha256)
      "1357" w1 = (Ret false, w1).
Proof.
  destruct (C6_pin_round_trip_up_to_the_key_block first_32_bytes Toy.pbkdf2_hmac_sha256
              empty_world "2468") as [(w1 & Hset & Hok & Hblock & Hno) _];
    [reflexivity | vm_compute; lia | discriminate |].
  exists w1. split; [exact Hset|]. split; [exact Hok|]. split.
  - apply Hblock. reflexivity.
  - apply Hno. discriminate.
Defined.

(** ** The unlock protocol *)

Section UnlockProtocol.

Import Main Unlock.

Variable pbkdf2_hmac_sha256 : list byte -> list byte -> N -> list byte.
Variable entries : nat -> option string.

Abbreviation verify_app_pin := (AppLock.verify_app_pin pbkdf2_hmac_sha256).
Abbreviation unlock_loop := (Main.unlock_loop pbkdf2_hmac_sha256 entries).
Abbreviation _prompt_for_pin_and_unlock :=
  (Main._prompt_for_pin_and_unlock pbkdf2_hmac_sha256 entries).

Lemma answers_cons d p pins :
  answers entries d (p :: pins) -> entries d = Some p /\ answers entries (S d) pins.
Proof.
  intros H. split.
  - rewrite <- (Nat.add_0_r d). by apply H.
  - intros i q Hq. replace (S d + i) with (d + S i) by lia. by apply H.
Qed.

(** Rejected attempts only move the loop forward. *)
Lemma unlock_loop_rejected is_startup_check (fails : list string) :
  forall remaining s w w',
    answers entries (dialogs s) fails ->
    rejects pbkdf2_hmac_sha256 fails w = Some w' ->
    unlock_loop (length fails + remaining) is_startup_check s w
    = unlock_loop remaining is_startup_check (after_rejected is_startup_check fails s) w'.
Proof.
  induction fails as [|p fails IH]; intros remaining s w w' Hans Hrej.
  - simpl in Hrej. injection Hrej as <-. unfold after_rejected. simpl.
    rewrite !Nat.add_0_r, !app_nil_r. by destruct s.
  - apply answers_cons in Hans as [Hp Hans]. simpl in Hrej.
    destruct (str_truthy p) eqn:Htr; [|done].
    destruct (verify_app_pin p w) as [[[|]|e] w1] eqn:Hv; try done.
    cbn [length Nat.add Main.unlock_loop]. rewrite Hp, Htr, Hv.
    rewrite (IH remaining _ w1 w'); [|exact Hans|exact Hrej].
    f_equal. unfold after_rejected. cbn [app_unlocked pin_attempts dialogs ui verified length prompts].
    f_equal; try lia.
    + by rewrite <- app_assoc.
    + by rewrite <- app_assoc.
Qed.

(** The loop asks for a PIN, and verifies one, at most as many times as
    attempts remain. *)
Lemma unlock_loop_bounded is_startup_check remaining :
  forall s w r s' w',
    unlock_loop remaining is_startup_check s w = (r, s', w') ->
    length (verified s') <= length (verified s) + remaining /\
    dialogs s' <= dialogs s + remaining.
Proof.
  induction remaining as [|remaining IH]; intros s w r s' w'.
  - simpl. unfold quit_application_if_pin_cancelled. intros [= <- <- <-]. simpl. lia.
  - cbn [Main.unlock_loop]. destruct (entries (dialogs s)) as [p|].
    + destruct (str_truthy p).
      * destruct (verify_app_pin p w) as [[[|]|e] w1].
        -- intros [= <- <- <-]. simpl. rewrite length_app. simpl. lia.
        -- intros H. apply IH in H. simpl in H. rewrite length_app in H. simpl in H. lia.
        -- intros [= <- <- <-]. simpl. rewrite length_app. simpl. lia.
      * intros H. apply IH in H. simpl in H. lia.
    + unfold quit_application_if_pin_cancelled. intros [= <- <- <-]. simpl. lia.
Qed.

(** C7: in [_prompt_for_pin_and_unlock], whatever the dialogs answer, at
    most three PINs are verified; three PINs rejected in a row end the
    attempt with "Access Denied" and the exit of the application,
    exactly three having been verified; a PIN accepted after zero, one
    or two rejected ones unlocks the application; and every call starts
    from a counter of zero, whatever the counter was left at. *)
Theorem C7_three_attempts_then_denied (is_startup_check : bool) (s : session) (w : world string) :
  (forall r s' w',
     _prompt_for_pin_and_unlock is_startup_check s w = (r, s', w') ->
     length (verified s') <= length (verified s) + 3) /\
  (forall p1 p2 p3 w',
     answers entries (dialogs s) [p1; p2; p3] ->
     rejects pbkdf2_hmac_sha256 [p1; p2; p3] w = Some w' ->
     exists s',
       _prompt_for_pin_and_unlock is_startup_check s w = (Raise (mk_exn SystemExit "1"), s', w') /\
       verified s' = verified s ++ [p1; p2; p3] /\
       dialogs s' = dialogs s + 3 /\
       app_unlocked s' = app_unlocked s /\
       ui s' = ui s ++ prompts is_startup_check 0 3 ++ access_denied) /\
  (forall fails p w1 w',
     length fails < 3 ->
     answers entries (dialogs s) (fails ++ [p]) ->
     rejects pbkdf2_hmac_sha256 fails w = Some w1 ->
     p <> "" ->
     verify_app_pin p w1 = (Ret true, w') ->
     exists s',
       _prompt_for_pin_and_unlock is_startup_check s w = (Ret true, s', w') /\
       app_unlocked s' = true /\
       verified s' = verified s ++ fails ++ [p]) /\
  (forall n,
     _prompt_for_pin_and_unlock is_startup_check
       (mk_session (app_unlocked s) n (dialogs s) (ui s) (verified s)) w
     = _prompt_for_pin_and_unlock is_startup_check s w).
Proof.
  split; [|split; [|split]].
  - intros r s' w' H. unfold Main._prompt_for_pin_and_unlock in H.
    apply unlock_loop_bounded in H. simpl in H. exact (proj1 H).
  - intros p1 p2 p3 w' Hans Hrej. unfold Main._prompt_for_pin_and_unlock.
    change (MAX_PIN_ATTEMPTS - _) with (length [p1; p2; p3] + 0).
    rewrite (unlock_loop_rejected is_startup_check [p1; p2; p3] 0
               (mk_session (app_unlocked s) 0 (dialogs s) (ui s) (verified s)) w w' Hans Hrej).
    eexists. split; [reflexivity|]. simpl. repeat split; try done.
    by rewrite <- !app_assoc.
  - intros fails p w1 w' Hlen Hans Hrej Hp Hv. unfold Main._prompt_for_pin_and_unlock.
    replace (MAX_PIN_ATTEMPTS - _) with (length fails + S (2 - length fails))
      by (unfold MAX_PIN_ATTEMPTS; simpl; lia).
    assert (Hans' : answers entries (dialogs s) fails).
    { intros i q Hq. apply Hans. by apply lookup_app_l_Some. }
    rewrite (unlock_loop_rejected is_startup_check fails _
               (mk_session (app_unlocked s) 0 (dialogs s) (ui s) (verified s)) w w1 Hans' Hrej).
    cbn [Main.unlock_loop after_rejected dialogs].
    assert (Hentry : entries (dialogs s + length fails) = Some p).
    { apply Hans. rewrite lookup_app_r by lia. by rewrite Nat.sub_diag. }
    rewrite Hentry.
    assert (Htr : str_truthy p = true) by (unfold str_truthy; by destruct (String.eqb_spec p "")).
    rewrite Htr, Hv. eexists. split; [reflexivity|]. simpl. split; [done|].
    by rewrite <- app_assoc.
  - intros n. reflexivity.
Qed.

End UnlockProtocol.

(** C7, witness: three wrong PINs against the PIN "2468", and a wrong
    one followed by the right one. *)
Lemma C7_three_attempts_then_denied_witness :
  (exists s',
     Main._prompt_for_pin_and_unlock Toy.pbkdf2_hmac_sha256 always_0000 true
       fresh_session pin_2468_world
     = (Raise (mk_exn SystemExit "1"), s', pin_2468_world) /\
     Main.verified s' = ["0000"; "0000"; "0000"]) /\
  (exists s',
     Main._prompt_for_pin_and_unlock Toy.pbkdf2_hmac_sha256 second_time_right false
       fresh_session pin_2468_world
     = (Ret true, s', pin_2468_world) /\
     Main.app_unlocked s' = true /\
     Main.verified s' = ["0000"; "2468"]).
Proof.
  split.
  - destruct (C7_three_attempts_then_denied Toy.pbkdf2_hmac_sha256 always_0000 true
                fresh_session pin_2468_world) as (_ & Hdenied & _).
    destruct (Hdenied "0000" "0000" "0000" pin_2468_world) as (s' & Hrun & Hver & _).
    + intros [|[|[|i]]] p [= <-]; reflexivity.
    + vm_compute. reflexivity.
    + exists s'. split; [exact Hrun | exact Hver].
  - destruct (C7_three_attempts_then_denied Toy.pbkdf2_hmac_sha256 second_time_right false
                fresh_session pin_2468_world) as (_ & _ & Hgranted & _).
    destruct (Hgranted ["0000"] "2468" pin_2468_world pin_2468_world) as (s' & Hrun & Hun & Hver).
    + simpl. lia.
    + intros [|[|i]] p [= <-]; reflexivity.
    + vm_compute. reflexivity.
    + discriminate.
    + vm_compute. reflexivity.
    + exists s'. split; [exact Hrun|]. split; [exact Hun | exact Hver].
Defined.

(** ** Restore *)

Section Restore.

Import Settings Import_.

Variable pbkdf2_derive : nat -> list byte -> N -> list byte -> list byte.
Variable aesgcm_decrypt : list byte -> list byte -> list byte -> option (list byte).
Variable b64decode : string -> option (list byte).
Variable json_loads : string -> option pyval.
Variable utf8_decode : list byte -> option string.

Abbreviation restore_body :=
  (Settings.restore_body pbkdf2_derive aesgcm_decrypt b64decode json_loads utf8_decode).
Abbreviation _handle_restore_tokens :=
  (Settings._handle_restore_tokens pbkdf2_derive aesgcm_decrypt b64decode json_loads utf8_decode).
Abbreviation tokens_of :=
  (Import_.tokens_of pbkdf2_derive aesgcm_decrypt b64decode json_loads utf8_decode).

Lemma b64decode_field_inv d key (w : world pyval) r w' :
  b64decode_field b64decode d key w = (r, w') ->
  w' = w /\
  match r with
  | Ret b => field_bytes b64decode d key = Some b
  | Raise e => is_Exception e = true /\ field_bytes b64decode d key = None
  end.
Proof.
  unfold b64decode_field, field_bytes.
  destruct (dict_get d key) as [| | |text| |]; try (intros [= <- <-]; by repeat split).
  destruct (b64decode text); intros [= <- <-]; by repeat split.
Qed.

(** The body of the restore either leaves the world as it is, the file
    giving no tokens or the user not confirming, or has read the tokens
    of the file and runs the loop that saves them. *)
Lemma restore_body_cases `{SL : StrLower} file password confirm (w w' : world pyval) r :
  restore_body file password confirm w = (r, w') ->
  (w' = w /\
     match r with
     | Ret o => forall restored failed, o <> RestoreSummary restored failed
     | Raise e => is_Exception e = true
     end /\
     (tokens_of file password = None \/ tokens_of file password = Some [] \/ confirm = false)) \/
  (exists tokens, tokens_of file password = Some tokens /\ tokens <> [] /\ confirm = true /\
     bind (restore_loop tokens 0 0)
       (fun counts =>
          bind Main.load_and_display_tokens (fun _ =>
          bind Main.update_auto_lock_and_reset_timer (fun _ =>
          ret (RestoreSummary (fst counts) (snd counts))))) w
     = (r, w')).
Proof.
  unfold Settings.restore_body, Import_.tokens_of.
  destruct file as [[| | | | |d]|]; try (intros [= <- <-]; left; split; [done|]; split; [done|]; by left).
  destruct (forallb (has_key d) _); cbn [negb andb];
    [|intros [= <- <-]; left; split; [done|]; split; [done|]; by left].
  destruct (SecureStorage.opt_truthy password); cbn [negb];
    [|intros [= <- <-]; left; split; [done|]; split; [done|]; by left].
  unfold bind at 1.
  destruct (b64decode_field b64decode d "salt" w) as [[salt|e] w1] eqn:E1;
    apply b64decode_field_inv in E1 as [-> E1];
    [|intros [= <- <-]; left; split; [done|]; split; [apply E1|];
      left; by rewrite (proj2 E1)].
  unfold bind at 1.
  destruct (b64decode_field b64decode d "nonce" w) as [[nonce|e] w1] eqn:E2;
    apply b64decode_field_inv in E2 as [-> E2];
    [|intros [= <- <-]; left; split; [done|]; split; [apply E2|];
      left; by rewrite E1, (proj2 E2)].
  unfold bind at 1.
  destruct (b64decode_field b64decode d "ciphertext" w) as [[ciphertext|e] w1] eqn:E3;
    apply b64decode_field_inv in E3 as [-> E3];
    [|intros [= <- <-]; left; split; [done|]; split; [apply E3|];
      left; by rewrite E1, E2, (proj2 E3)].
  rewrite E1, E2, E3.
  destruct (aesgcm_decrypt _ nonce ciphertext) as [[|x bytes]|];
    try (intros [= <- <-]; left; split; [done|]; split; [done|]; by left).
  destruct (utf8_decode (x :: bytes)) as [text|];
    [|intros [= <- <-]; left; split; [done|]; split; [done|]; by left].
  destruct (json_loads text) as [[| | | |tokens|]|];
    try (intros [= <- <-]; left; split; [done|]; split; [done|]; by left).
  destruct (forallb is_dict tokens); cbn [negb];
    [|intros [= <- <-]; left; split; [done|]; split; [done|]; by left].
  destruct tokens as [|token tokens];
    [intros [= <- <-]; left; split; [done|]; split; [done|]; right; by left|].
  destruct confirm; cbn [negb]; [|intros [= <- <-]; left; split; [done|]; split; [done|]; right; by right].
  intros Hrun. right. eexists. split; [reflexivity|]. split; [done|]. split; [done|]. exact Hrun.
Qed.

Lemma tokens_of_dicts file password tokens :
  tokens_of file password = Some tokens -> forallb is_dict tokens = true.
Proof.
  unfold Import_.tokens_of. intros H.
  repeat (case_match; try discriminate). by simplify_eq.
Qed.

(** A restore always ends with one of its outcomes. *)
Lemma restore_returns `{SL : StrLower} restore_file_path file password confirm (w : world pyval) :
  exists o w', _handle_restore_tokens restore_file_path file password confirm w = (Ret o, w').
Proof.
  unfold Settings._handle_restore_tokens.
  destruct (str_truthy restore_file_path); cbn [negb]; [|eexists _, _; reflexivity].
  unfold try_except.
  destruct (restore_body file password confirm w) as [r0 w0] eqn:Hbody.
  destruct (restore_body_cases file password confirm w w0 r0 Hbody)
    as [(-> & Hr0 & _) | (tokens & Htok & Hne & Hconf & Hloop)].
  - destruct r0 as [o|e]; [eauto|]. rewrite Hr0. destruct (is_class JSONDecodeError e); eauto.
  - apply tokens_of_dicts in Htok.
    destruct (restore_loop_returns tokens Htok 0 0 w) as (counts & w1 & Hl).
    rewrite (bind_ret _ _ _ _ _ Hl) in Hloop.
    destruct (load_and_display_tokens_returns w1) as (w2 & Hd).
    rewrite (bind_ret _ _ _ _ _ Hd) in Hloop.
    destruct (update_auto_lock_and_reset_timer_returns w2) as (w3 & Hu).
    rewrite (bind_ret _ _ _ _ _ Hu) in Hloop.
    injection Hloop as <- <-. eauto.
Qed.

(** Restore is additive, the key of the index apart: on a backend that
    works and a vault whose index is consistent, when no token of the
    backup derives the key of the index, the restore ends with its
    summary; each token is counted as restored or as failed, the index
    grows by the number restored and every record the vault had is
    still there, unchanged. *)
Lemma restore_is_additive_index_key_apart `{SL : StrLower}
    restore_file_path file password tokens (w : world pyval) :
  restore_file_path <> "" ->
  tokens_of file password = Some tokens -> tokens <> [] ->
  healthy w -> index_consistent w -> Forall token_avoids_index_key tokens ->
  exists restored failed w',
    _handle_restore_tokens restore_file_path file password true w
    = (Ret (RestoreSummary restored failed), w') /\
    restored + failed = length tokens /\
    index_length w' = index_length w + restored /\
    healthy w' /\ index_consistent w' /\
    (forall identifier, usedb w identifier = true ->
       lookup_doc w' identifier = lookup_doc w identifier) /\
    Forall (fun token =>
              restorable token = true ->
              exists identifier,
                usedb w identifier = false /\
                lookup_doc w' identifier = Some (restored_record token)) tokens.
Proof.
  intros Hpath Htok Hne Hh Hinv Hav. unfold Settings._handle_restore_tokens.
  assert (Htr : str_truthy restore_file_path = true)
    by (unfold str_truthy; by destruct (String.eqb_spec restore_file_path "")).
  rewrite Htr. cbn [negb]. unfold try_except.
  destruct (restore_body file password true w) as [r0 w0] eqn:Hbody.
  destruct (restore_body_cases file password true w w0 r0 Hbody)
    as [(_ & _ & [Hnone | [Hnil | Hconf]]) | (tokens' & Htok' & _ & _ & Hloop)];
    try congruence.
  rewrite Htok in Htok'. injection Htok' as <-.
  destruct (restore_loop_additive tokens w 0 0 Hh Hinv Hav)
    as (restored & failed & w1 & Hrun & Hh1 & Hinv1 & Hsum & Hlen & Hkeep & Hall).
  rewrite (bind_ret _ _ _ _ _ Hrun) in Hloop.
  destruct (load_and_display_tokens_returns w1) as (w2 & Hd).
  rewrite (bind_ret _ _ _ _ _ Hd) in Hloop. apply load_and_display_tokens_same in Hd.
  destruct (update_auto_lock_and_reset_timer_returns w2) as (w3 & Hu).
  rewrite (bind_ret _ _ _ _ _ Hu) in Hloop. apply update_auto_lock_and_reset_timer_same in Hu.
  injection Hloop as <- <-.
  pose proof (same_store_trans _ _ _ Hd Hu) as [Hpw Hhh].
  exists restored, failed, w3. split; [done|]. split; [done|].
  split; [by rewrite (index_length_ext w1)|]. split; [by apply Hhh|].
  split; [by apply (index_consistent_ext w1)|]. split.
  - intros identifier Hused. unfold lookup_doc. rewrite Hpw. by apply Hkeep.
  - eapply Forall_impl; [exact Hall|]. intros token H Hr.
    destruct (H Hr) as (identifier & Hid & Hdoc). exists identifier. split; [done|].
    unfold lookup_doc in *. by rewrite Hpw.
Qed.

(** C8: a restore always ends with an outcome; when that is a decryption
    failure or a format error (or anything but the summary), the world
    is what it was: the keyring was not called. The keyring is written
    only once the file has been decrypted and parsed into a list of
    dicts, and the user has confirmed. *)
Theorem C8_failed_import_leaves_vault_unchanged `{SL : StrLower}
    (restore_file_path : string) (file : option pyval) (password : option string)
    (confirm : bool) (w : world pyval) :
  exists o w',
    _handle_restore_tokens restore_file_path file password confirm w = (Ret o, w') /\
    (import_failed o = true -> w' = w) /\
    ((forall restored failed, o <> RestoreSummary restored failed) -> w' = w) /\
    (passwords w' <> passwords w ->
     confirm = true /\ exists tokens, tokens_of file password = Some tokens /\ tokens <> []).
Proof.
  destruct (restore_returns restore_file_path file password confirm w) as (o & w' & Hrun).
  exists o, w'. split; [exact Hrun|].
  assert (Hcases :
    w' = w /\ (forall restored failed, o <> RestoreSummary restored failed)
    \/ (exists restored failed, o = RestoreSummary restored failed) /\
       confirm = true /\ exists tokens, tokens_of file password = Some tokens /\ tokens <> []).
  { unfold Settings._handle_restore_tokens in Hrun.
    destruct (str_truthy restore_file_path); cbn [negb] in Hrun.
    2:{ injection Hrun as <- <-. left. by split. }
    unfold try_except in Hrun.
    destruct (restore_body file password confirm w) as [r0 w0] eqn:Hbody.
    destruct (restore_body_cases file password confirm w w0 r0 Hbody)
      as [(-> & Hr0 & _) | (tokens & Htok & Hne & Hconf & Hloop)].
    - left. destruct r0 as [o0|e].
      + injection Hrun as <- <-. by split.
      + rewrite Hr0 in Hrun. destruct (is_class JSONDecodeError e);
          injection Hrun as <- <-; by split.
    - right. split; [|eauto]. clear Hbody.
      destruct (restore_loop_returns tokens (tokens_of_dicts _ _ _ Htok) 0 0 w)
        as (counts & w1 & Hl).
      rewrite (bind_ret _ _ _ _ _ Hl) in Hloop.
      destruct (load_and_display_tokens_returns w1) as (w2 & Hd).
      rewrite (bind_ret _ _ _ _ _ Hd) in Hloop.
      destruct (update_auto_lock_and_reset_timer_returns w2) as (w3 & Hu).
      rewrite (bind_ret _ _ _ _ _ Hu) in Hloop.
      injection Hloop as <- <-. injection Hrun as <- <-. eauto. }
  destruct Hcases as [[-> Hno] | ((restored & failed & ->) & Hconf & Htok)].
  - split; [done|]. split; [done|]. by intros [].
  - split; [discriminate|]. split; [|done].
    intros Hno. by destruct (Hno restored failed).
Qed.

End Restore.

(** C8, witness: alice's backup opened with a wrong password. *)
Lemma C8_failed_import_leaves_vault_unchanged_witness :
  exists w',
    Toy.restore "backup.json" (Some alice_backup) (Some "wrong horse") true alice_world
    = (Ret Settings.DecryptionFailed, w') /\ w' = alice_world.
Proof.
  destruct (C8_failed_import_leaves_vault_unchanged Toy.pbkdf2_derive Toy.aesgcm_decrypt
              Toy.b64decode Toy.json_loads Toy.utf8_decode
              "backup.json" (Some alice_backup) (Some "wrong horse") true alice_world)
    as (o & w' & Hrun & Hfailed & _).
  assert (Ho : o = Settings.DecryptionFailed).
  { apply (f_equal fst) in Hrun. vm_compute in Hrun. by injection Hrun as <-. }
  subst o. exists w'. split; [exact Hrun|]. by apply Hfailed.
Defined.

(** ** Backup, then restore *)

(** C1, on the code: alice's token is saved with recovery codes; the
    backup of the vault, restored under the same password into an empty
    vault, gives a token with her account, issuer, secret and type, and
    with no recovery codes: the restore loop does not pass them to
    [save_token_secret]. *)
Theorem C1_restore_drops_recovery_codes :
  exists w1 w2 original restored,
    Toy.backup "backup.json" (Some "correct horse") alice_world
    = (Ret (Settings.BackupWritten alice_backup), w1) /\
    Toy.restore "backup.json" (Some alice_backup) (Some "correct horse") true empty_world
    = (Ret (Settings.RestoreSummary 1 0), w2) /\
    fst (get_all_token_data alice_world) = Ret [PDict original] /\
    fst (get_all_token_data w2) = Ret [PDict restored] /\
    dict_get restored "account_name" = dict_get original "account_name" /\
    dict_get restored "issuer_name" = dict_get original "issuer_name" /\
    dict_get restored "secret_key" = dict_get original "secret_key" /\
    dict_get restored "type" = dict_get original "type" /\
    dict_get original "recovery_codes" = PStr "R1-R2-R3" /\
    dict_get restored "recovery_codes" = PNone.
Proof.
  eexists _, _, _, _.
  split; [vm_compute; reflexivity|].
  split; [vm_compute; reflexivity|].
  split; [vm_compute; reflexivity|].
  split; [vm_compute; reflexivity|].
  repeat split.
Qed.

(** ** The index *)

(** C2, on the code: in an empty vault, a new token for the account
    "accounts_list__" at the issuer "_" gets the identifier
    "__accounts_list__", the key of the index. The record is written
    over the index, [_add_account_to_list] then fails on a dict, and the
    save raises: the record can be read back under its identifier, and
    the index does not list it. *)
Theorem C2_record_saved_over_the_index :
  exists e w' view index,
    save_token_secret (PStr "accounts_list__") (PStr "_") (PStr "GEZDGNBVGY3TQOJQ")
      (PStr "TOTP") None None empty_world = (Raise e, w') /\
    cls e = AttributeError /\
    derive_identifier "_" "accounts_list__" = ACCOUNTS_LIST_KEY /\
    fst (get_token_secret ACCOUNTS_LIST_KEY w') = Ret (Some view) /\
    fst (get_all_token_identifiers w') = Ret index /\
    fst (py_in ACCOUNTS_LIST_KEY index w') = Ret false.
Proof.
  eexists _, _, _, _.
  split; [vm_compute; reflexivity|].
  repeat split; vm_compute; reflexivity.
Qed.

(** ** Restore into a vault that has tokens *)

(** C9, on the code: a vault holds one token, whose account and issuer
    were edited to "accounts_list__" and "_". Its own backup, restored
    into it, derives for the imported token the key of the index, finds
    no record there and writes the record over the index; the save then
    fails. One token was listed before the restore, none is after it,
    and none was counted as restored. *)
Theorem C9_restore_overwrites_the_index :
  exists w1 w2 overwritten,
    Toy.backup "backup.json" (Some "correct horse") edited_world
    = (Ret (Settings.BackupWritten edited_backup), w1) /\
    Toy.restore "backup.json" (Some edited_backup) (Some "correct horse") true edited_world
    = (Ret (Settings.RestoreSummary 0 1), w2) /\
    entry_count edited_world = Some 1 /\
    stored_index edited_world = PList [PStr "y_x"] /\
    entry_count w2 = Some 0 /\
    stored_index w2 = PDict overwritten.
Proof.
  eexists _, _, _.
  split; [vm_compute; reflexivity|].
  split; [vm_compute; reflexivity|].
  repeat split; vm_compute; reflexivity.
Qed.

(** ** Backup, then restore: the fields that come back *)

Section RoundTrip.

Import Settings Import_.

Variable pbkdf2_derive : nat -> list byte -> N -> list byte -> list byte.
Variable aesgcm_encrypt : list byte -> list byte -> list byte -> list byte.
Variable aesgcm_decrypt : list byte -> list byte -> list byte -> option (list byte).
Variable b64encode : list byte -> string.
Variable b64decode : string -> option (list byte).
Variable json_dumps : pyval -> string.
Variable json_loads : string -> option pyval.
Variable utf8_decode : list byte -> option string.

(** What the handlers rely on: decoding undoes encoding, and decryption
    with the key and the nonce of the encryption gives the data back. *)
Hypothesis b64_round_trip : forall b, b64decode (b64encode b) = Some b.
Hypothesis aesgcm_round_trip : forall key nonce data,
  aesgcm_decrypt key nonce (aesgcm_encrypt key nonce data) = Some data.

Abbreviation _handle_backup_tokens :=
  (Settings._handle_backup_tokens pbkdf2_derive aesgcm_encrypt b64encode json_dumps).
Abbreviation _handle_restore_tokens :=
  (Settings._handle_restore_tokens pbkdf2_derive aesgcm_decrypt b64decode json_loads utf8_decode).
Abbreviation tokens_of :=
  (Import_.tokens_of pbkdf2_derive aesgcm_decrypt b64decode json_loads utf8_decode).

Abbreviation payload_round_trips :=
  (Import_.payload_round_trips json_dumps json_loads utf8_decode).

(** A backup holds the tokens [get_all_token_data] lists. *)
Lemma backup_holds_the_tokens backup_file_path password (w w1 : world pyval) tokens :
  backup_file_path <> "" -> password <> "" ->
  get_all_token_data w = (Ret tokens, w1) -> tokens <> [] ->
  payload_round_trips tokens ->
  exists content w2,
    _handle_backup_tokens backup_file_path (Some password) w = (Ret (BackupWritten content), w2) /\
    tokens_of (Some content) (Some password) = Some tokens.
Proof.
  intros Hpath Hpw Hdata Hne (Hbytes & Hutf8 & Hjson).
  assert (Htp : str_truthy backup_file_path = true)
    by (unfold str_truthy; by destruct (String.eqb_spec backup_file_path "")).
  assert (Htw : str_truthy password = true)
    by (unfold str_truthy; by destruct (String.eqb_spec password "")).
  unfold Settings._handle_backup_tokens. rewrite Htp. cbn [negb].
  unfold try_except, backup_body. rewrite (bind_ret _ _ _ _ _ Hdata).
  destruct tokens as [|token tokens]; [done|].
  cbn [SecureStorage.opt_truthy negb]. rewrite Htw. cbn [negb].
  unfold bind, os_urandom, ret. eexists _, _. split; [reflexivity|].
  unfold Import_.tokens_of. cbn [forallb has_key lookup_key String.eqb Ascii.eqb Bool.eqb andb].
  cbn [SecureStorage.opt_truthy]. rewrite Htw. cbn [andb].
  unfold field_bytes, dict_get. cbn [lookup_key String.eqb Ascii.eqb Bool.eqb].
  rewrite !b64_round_trip. cbn [default from_option id]. rewrite aesgcm_round_trip.
  destruct (utf8_encode (json_dumps (PList (token :: tokens)))) as [|x bytes] eqn:Hb; [done|].
  rewrite Hutf8, Hjson.
  by rewrite (get_all_token_data_dicts _ _ _ Hdata).
Qed.

(** The four fields that come back: under these assumptions, on backends
    that work, the backup of a vault restored into a vault whose index
    is consistent stores, for each token of the backup that
    [save_token_secret] accepts, a record with the account, the issuer,
    the secret and the type of that token, and with no recovery codes,
    under an identifier that held no record. *)
Lemma backup_then_restore_keeps_four_fields `{SL : StrLower}
    path password (w_from w1 w_into : world pyval) tokens :
  path <> "" -> password <> "" ->
  get_all_token_data w_from = (Ret tokens, w1) -> tokens <> [] ->
  payload_round_trips tokens ->
  healthy w_into -> index_consistent w_into -> Forall token_avoids_index_key tokens ->
  exists content w2 restored failed w3,
    _handle_backup_tokens path (Some password) w_from = (Ret (BackupWritten content), w2) /\
    _handle_restore_tokens path (Some content) (Some password) true w_into
    = (Ret (RestoreSummary restored failed), w3) /\
    Forall (fun token =>
              restorable token = true ->
              exists identifier view,
                usedb w_into identifier = false /\
                get_token_secret identifier w3 = (Ret (Some (PDict view)), w3) /\
                PDict [("account_name", dict_get view "account_name");
                       ("issuer_name", dict_get view "issuer_name");
                       ("secret_key", dict_get view "secret_key");
                       ("type", dict_get view "type");
                       ("recovery_codes", PNone)]
                = restored_record token /\
                dict_get view "recovery_codes" = PNone) tokens.
Proof.
  intros Hpath Hpw Hdata Hne Hpayload Hh Hinv Hav.
  destruct (backup_holds_the_tokens path password w_from w1 tokens)
    as (content & w2 & Hbackup & Htok); try done.
  destruct (restore_is_additive_index_key_apart pbkdf2_derive aesgcm_decrypt b64decode
              json_loads utf8_decode path (Some content) (Some password) tokens w_into)
    as (restored & failed & w3 & Hrestore & _ & _ & Hh3 & _ & _ & Hall); try done.
  exists content, w2, restored, failed, w3. split; [done|]. split; [done|].
  eapply Forall_impl; [exact Hall|]. intros token H Hr.
  destruct (H Hr) as (identifier & Hfree & Hdoc).
  destruct token as [| | | | |d]; try done. cbn [restored_record] in *.
  eexists identifier, _. split; [done|].
  split; [by apply get_token_secret_healthy_dict|]. by split.
Qed.

End RoundTrip.

(** Alice's vault, backed up and restored into an empty vault with the
    stand-in libraries: her token comes back with its four fields. *)
Lemma alice_backup_then_restore :
  exists content w2 restored failed w3,
    Toy.backup "backup.json" (Some "correct horse") alice_world
    = (Ret (Settings.BackupWritten content), w2) /\
    Toy.restore "backup.json" (Some content) (Some "correct horse") true empty_world
    = (Ret (Settings.RestoreSummary restored failed), w3) /\
    Forall (fun token =>
              restorable token = true ->
              exists identifier view,
                usedb empty_world identifier = false /\
                get_token_secret identifier w3 = (Ret (Some (PDict view)), w3) /\
                PDict [("account_name", dict_get view "account_name");
                       ("issuer_name", dict_get view "issuer_name");
                       ("secret_key", dict_get view "secret_key");
                       ("type", dict_get view "type");
                       ("recovery_codes", PNone)]
                = restored_record token /\
                dict_get view "recovery_codes" = PNone)
      [token_view "acme_alice"
         [("account_name", PStr "alice"); ("issuer_name", PStr "Acme");
          ("secret_key", PStr "JBSWY3DPEHPK3PXP"); ("type", PStr "TOTP");
          ("recovery_codes", PStr "R1-R2-R3")]].
Proof.
  apply (backup_then_restore_keeps_four_fields Toy.pbkdf2_derive Toy.aesgcm_encrypt
           Toy.aesgcm_decrypt Toy.b64encode Toy.b64decode Toy.json_dumps Toy.json_loads
           Toy.utf8_decode toy_b64_round_trip toy_aesgcm_round_trip
           "backup.json" "correct horse" alice_world alice_world).
  - discriminate.
  - discriminate.
  - vm_compute. reflexivity.
  - discriminate.
  - repeat split; vm_compute; [discriminate | reflexivity..].
  - reflexivity.
  - apply index_consistent_empty.
  - repeat constructor. vm_compute. discriminate.
Qed.

(** Index consistency, the key of the index apart: from an empty vault
    on a backend that works, after any sequence of saves and deletes
    none of which aims at the key of the index,
    [get_all_token_identifiers] lists exactly the identifiers for which
    [get_token_secret] returns a record. *)
Lemma index_consistency_from_empty_vault `{SL : StrLower} (ops : list vault_op) :
  Forall avoids_index_key ops ->
  exists w' l,
    run_ops ops empty_world = (Ret tt, w') /\
    get_all_token_identifiers w' = (Ret (PList l), w') /\
    forall identifier,
      existsb (eq_str identifier) l = true <->
      exists view w'', get_token_secret identifier w' = (Ret (Some view), w'').
Proof.
  intros Hav.
  destruct (run_ops_index_consistent ops empty_world eq_refl index_consistent_empty Hav)
    as (w' & Hrun & Hh & Hinv).
  destruct (index_consistent_readers w' Hh Hinv) as (l & Hget & Hiff).
  by exists w', l.
Qed.

(** * More of the code *)

(** ** core/secure_storage.py: save, read back, edit, delete *)

Lemma str_truthy_ne s : s <> "" -> str_truthy s = true.
Proof. intros H. unfold str_truthy. by destruct (String.eqb_spec s ""). Qed.

(** Save, then read: on a backend that works, what [get_token_secret]
    returns under the identifier a save returned is the identifier and
    the five fields as they were passed; recovery codes that were not
    given read back as None, not as the empty string. *)
Theorem save_then_get_returns_what_was_saved `{SL : StrLower}
    (w : world pyval) (l : list pyval) (account issuer : string) (secret : pyval)
    (t : string) (r : option string) :
  healthy w -> stored_index w = PList l ->
  account <> "" -> issuer <> "" -> truthy secret = true -> valid_type t = true ->
  derive_identifier issuer account <> ACCOUNTS_LIST_KEY ->
  (exists identifier w',
     save_token_secret (PStr account) (PStr issuer) secret (PStr t) None r w
     = (Ret identifier, w') /\
     get_token_secret identifier w'
     = (Ret (Some (PDict [("identifier", PStr identifier);
                          ("account_name", PStr account);
                          ("issuer_name", PStr issuer);
                          ("secret_key", secret);
                          ("type", PStr t);
                          ("recovery_codes", opt_str r)])), w')) /\
  (forall identifier, identifier <> "" -> identifier <> ACCOUNTS_LIST_KEY ->
     exists w',
       save_token_secret (PStr account) (PStr issuer) secret (PStr t) (Some identifier) r w
       = (Ret identifier, w') /\
       get_token_secret identifier w'
       = (Ret (Some (PDict [("identifier", PStr identifier);
                            ("account_name", PStr account);
                            ("issuer_name", PStr issuer);
                            ("secret_key", secret);
                            ("type", PStr t);
                            ("recovery_codes", opt_str r)])), w')).
Proof.
  intros Hh Hl Ha Hi Hs Ht Hres. split.
  - destruct (save_new_healthy account issuer secret t r w l) as
      (j & wa & Hsame & _ & _ & Hcand & Hrun); try done.
    eexists _, _. split; [exact Hrun|].
    unfold token_record.
    erewrite get_token_secret_healthy_dict;
      [| apply Hsame, Hh | unfold lookup_doc; simpl; by apply lookup_store_after_eq].
    reflexivity.
  - intros identifier Hne Hnres. eexists. split.
    + apply save_explicit_healthy with (l := l); try done; simpl; by apply str_truthy_ne.
    + unfold token_record.
      erewrite get_token_secret_healthy_dict;
        [| done | unfold lookup_doc; simpl; by apply lookup_store_after_eq].
      reflexivity.
Qed.

(** Witness: alice at Acme saved without recovery codes in an empty
    vault; they read back as None. *)
Lemma save_then_get_returns_what_was_saved_witness :
  exists identifier w',
    save_token_secret (PStr "alice") (PStr "Acme") (PStr "JBSWY3DPEHPK3PXP") (PStr "TOTP")
      None None empty_world = (Ret identifier, w') /\
    get_token_secret identifier w'
    = (Ret (Some (PDict [("identifier", PStr identifier);
                         ("account_name", PStr "alice");
                         ("issuer_name", PStr "Acme");
                         ("secret_key", PStr "JBSWY3DPEHPK3PXP");
                         ("type", PStr "TOTP");
                         ("recovery_codes", PNone)])), w').
Proof.
  destruct (save_then_get_returns_what_was_saved empty_world [] "alice" "Acme"
              (PStr "JBSWY3DPEHPK3PXP") "TOTP" None) as [Hnew _];
    try reflexivity; try discriminate.
  exact Hnew.
Defined.

Lemma save_existing_healthy `{SL : StrLower}
    (w : world pyval) (identifier : string) (account_name issuer_name secret_key : pyval)
    (t : string) (r : option string) :
  healthy w -> index_consistent w -> usedb w identifier = true -> identifier <> "" ->
  truthy account_name = true -> truthy issuer_name = true -> truthy secret_key = true ->
  valid_type t = true ->
  exists w',
    save_token_secret account_name issuer_name secret_key (PStr t) (Some identifier) r w
    = (Ret identifier, w') /\
    passwords w'
    = <[(SERVICE_NAME, identifier) := token_record account_name issuer_name secret_key (PStr t) r]>
        (passwords w) /\
    stored_index w' = stored_index w /\
    index_consistent w'.
Proof.
  intros Hh Hc Hu Hne Ha Hi Hs Ht.
  destruct Hc as (l & Hl & Hin & Hocc & Hstr).
  assert (Hres : identifier <> ACCOUNTS_LIST_KEY).
  { intros ->. rewrite (index_is_not_record w l Hl) in Hu. done. }
  eexists. split; [by apply save_explicit_healthy with (l := l)|].
  assert (Hpw : store_after (passwords w) identifier
                  (token_record account_name issuer_name secret_key (PStr t) r) l
                = <[(SERVICE_NAME, identifier) :=
                      token_record account_name issuer_name secret_key (PStr t) r]> (passwords w)).
  { unfold store_after. by rewrite Hin, Hu. }
  split; [simpl; exact Hpw|]. split.
  - rewrite (stored_index_store_after w identifier _ l Hres Hl).
    unfold index_after. by rewrite Hin, Hu, Hl.
  - unfold token_record.
    by apply index_consistent_store_after.
Qed.

(** Edit in place: a save under the identifier of a stored token
    replaces that record and writes nothing else; the index is not
    written, so the identifier stays listed once. *)
Theorem edit_replaces_the_record_in_place `{SL : StrLower}
    (w : world pyval) (identifier : string) (account_name issuer_name secret_key : pyval)
    (t : string) (r : option string) :
  healthy w -> index_consistent w -> usedb w identifier = true -> identifier <> "" ->
  truthy account_name = true -> truthy issuer_name = true -> truthy secret_key = true ->
  valid_type t = true ->
  exists w',
    save_token_secret account_name issuer_name secret_key (PStr t) (Some identifier) r w
    = (Ret identifier, w') /\
    passwords w'
    = <[(SERVICE_NAME, identifier) := token_record account_name issuer_name secret_key (PStr t) r]>
        (passwords w) /\
    stored_index w' = stored_index w /\
    index_consistent w'.
Proof.
  intros Hh Hc Hu Hne Ha Hi Hs Ht.
  destruct Hc as (l & Hl & Hin & Hocc & Hstr).
  assert (Hres : identifier <> ACCOUNTS_LIST_KEY).
  { intros ->. rewrite (index_is_not_record w l Hl) in Hu. done. }
  eexists. split; [by apply save_explicit_healthy with (l := l)|].
  assert (Hpw : store_after (passwords w) identifier
                  (token_record account_name issuer_name secret_key (PStr t) r) l
                = <[(SERVICE_NAME, identifier) :=
                      token_record account_name issuer_name secret_key (PStr t) r]> (passwords w)).
  { unfold store_after. by rewrite Hin, Hu. }
  split; [simpl; exact Hpw|]. split.
  - rewrite (stored_index_store_after w identifier _ l Hres Hl).
    unfold index_after. by rewrite Hin, Hu, Hl.
  - unfold token_record.
    by apply index_consistent_store_after.
Qed.

Lemma alice_world_index_consistent : index_consistent alice_world.
Proof.
  exists [PStr "acme_alice"]. split; [reflexivity|]. split; [|split].
  - intros identifier.
    destruct (decide (identifier = "acme_alice")) as [->|Hne]; [reflexivity|].
    destruct (decide (identifier = ACCOUNTS_LIST_KEY)) as [->|Hne']; [reflexivity|].
    unfold usedb, lookup_doc, alice_world, alice_vault. simpl.
    rewrite lookup_insert_ne by congruence. rewrite lookup_singleton_ne by congruence.
    by apply String.eqb_neq in Hne as ->.
  - intros identifier. unfold occurrences. rewrite filter_cons, filter_nil.
    case_decide; simpl; lia.
  - repeat constructor. by exists "acme_alice".
Qed.

(** Witness: alice's record is replaced by one without recovery codes. *)
Lemma edit_replaces_the_record_in_place_witness :
  exists w',
    save_token_secret (PStr "alice") (PStr "Acme") (PStr "GEZDGNBVGY3TQOJQ") (PStr "totp")
      (Some "acme_alice") None alice_world = (Ret "acme_alice", w') /\
    passwords w'
    = <[(SERVICE_NAME, "acme_alice") :=
          token_record (PStr "alice") (PStr "Acme") (PStr "GEZDGNBVGY3TQOJQ") (PStr "totp") None]>
        (passwords alice_world) /\
    stored_index w' = stored_index alice_world /\
    index_consistent w'.
Proof.
  apply (edit_replaces_the_record_in_place alice_world "acme_alice"); try reflexivity;
    try discriminate.
  apply alice_world_index_consistent.
Defined.

Lemma remove_first_appended identifier l :
  existsb (eq_str identifier) l = false -> remove_first identifier (l ++ [PStr identifier]) = l.
Proof.
  induction l as [|v l IH]; simpl.
  - by rewrite String.eqb_refl.
  - destruct (eq_str identifier v); [done|]. simpl. intros H. by rewrite IH.
Qed.

(** Save, then delete: deleting the identifier a new save returned
    takes the record away again and puts the index back as it was; no
    other record is touched. *)
Theorem delete_undoes_a_new_save `{SL : StrLower}
    (w : world pyval) (account issuer : string) (secret : pyval) (t : string)
    (r : option string) :
  healthy w -> index_consistent w ->
  account <> "" -> issuer <> "" -> truthy secret = true -> valid_type t = true ->
  derive_identifier issuer account <> ACCOUNTS_LIST_KEY ->
  exists identifier w1 w2,
    save_token_secret (PStr account) (PStr issuer) secret (PStr t) None r w
    = (Ret identifier, w1) /\
    delete_token_secret identifier w1 = (Ret tt, w2) /\
    lookup_doc w1 identifier = Some (token_record (PStr account) (PStr issuer) secret (PStr t) r) /\
    lookup_doc w2 identifier = None /\
    stored_index w2 = stored_index w /\
    (forall key, key <> identifier -> key <> ACCOUNTS_LIST_KEY ->
       lookup_doc w2 key = lookup_doc w key).
Proof.
  intros Hh (l & Hl & Hin & Hocc & Hstr) Ha Hi Hs Ht Hres.
  destruct (save_new_healthy account issuer secret t r w l) as
    (j & wa & [Hpw Hha] & Hfree & _ & Hcand & Hrun); try done.
  set (identifier := candidate (derive_identifier issuer account) j) in *.
  set (record := token_record (PStr account) (PStr issuer) secret (PStr t) r) in *.
  set (w1 := with_passwords (store_after (passwords w) identifier record l) wa) in *.
  assert (Hex : existsb (eq_str identifier) l = false) by (by rewrite Hin).
  assert (Hl1 : stored_index w1 = PList (l ++ [PStr identifier])).
  { unfold w1, stored_index, lookup_doc, store_after. simpl. rewrite Hex.
    by rewrite lookup_insert_eq. }
  assert (Hh1 : healthy w1) by (apply Hha, Hh).
  exists identifier, w1. eexists. split; [exact Hrun|]. split.
  { by apply delete_healthy with (l := l ++ [PStr identifier]). }
  assert (Hex1 : existsb (eq_str identifier) (l ++ [PStr identifier]) = true).
  { rewrite existsb_app. simpl. rewrite String.eqb_refl. by rewrite orb_true_r. }
  unfold lookup_doc, stored_index, lookup_doc, store_without. simpl. rewrite Hex1.
  split; [by apply lookup_store_after_eq|]. split; [|split].
  - rewrite lookup_insert_ne by congruence. by rewrite lookup_delete_eq.
  - rewrite lookup_insert_eq. simpl. rewrite remove_first_appended by done.
    unfold stored_index, lookup_doc in Hl. by rewrite Hl.
  - intros key Hk1 Hk2. rewrite lookup_insert_ne by congruence.
    rewrite lookup_delete_ne by congruence. by apply lookup_store_after_ne.
Qed.

(** Witness: bob at Initech is added to alice's vault and deleted again. *)
Lemma delete_undoes_a_new_save_witness :
  exists identifier w1 w2,
    save_token_secret (PStr "bob") (PStr "Initech") (PStr "GEZDGNBVGY3TQOJQ") (PStr "TOTP")
      None None alice_world = (Ret identifier, w1) /\
    delete_token_secret identifier w1 = (Ret tt, w2) /\
    lookup_doc w1 identifier
    = Some (token_record (PStr "bob") (PStr "Initech") (PStr "GEZDGNBVGY3TQOJQ") (PStr "TOTP")
              None) /\
    lookup_doc w2 identifier = None /\
    stored_index w2 = stored_index alice_world /\
    (forall key, key <> identifier -> key <> ACCOUNTS_LIST_KEY ->
       lookup_doc w2 key = lookup_doc alice_world key).
Proof.
  apply (delete_undoes_a_new_save alice_world "bob" "Initech"); try reflexivity;
    try discriminate.
  apply alice_world_index_consistent.
Defined.

(** The readers never fail and never write: whatever the backend does,
    [get_token_secret], [get_all_token_identifiers] and
    [get_auto_lock_setting] return a value and leave every stored
    password as it was; the setting read is the default or the stored
    integer. *)
Theorem readers_return_and_write_nothing (w : world pyval) (identifier : string) :
  (exists r w', get_token_secret identifier w = (Ret r, w') /\ passwords w' = passwords w) /\
  (exists v w', get_all_token_identifiers w = (Ret v, w') /\ passwords w' = passwords w) /\
  (exists z w', get_auto_lock_setting w = (Ret z, w') /\ passwords w' = passwords w /\
     (z = DEFAULT_AUTO_LOCK_SECONDS \/ lookup_doc w AUTO_LOCK_SETTING_KEY = Some (PInt z))).
Proof.
  split; [|split].
  - destruct (get_token_secret_spec identifier w) as (r & w' & Hrun & [Hpw _] & _). eauto.
  - destruct (get_all_token_identifiers_returns w) as (v & w' & Hrun & [Hpw _]). eauto.
  - unfold get_auto_lock_setting, try_except, bind, get_password, backend_call, lookup_doc.
    destruct (plan w) as [|[f|] rest]; simpl.
    + destruct (passwords w !! _) as [[| |z| | |]|]; simpl; try destruct (int_str_ok z);
        simpl; eauto 10.
    + destruct f as [[] m]; simpl; eauto 10.
    + destruct (passwords w !! _) as [[| |z| | |]|]; simpl; try destruct (int_str_ok z);
        simpl; eauto 10.
Qed.

(** ** core/secure_storage.py: the listing *)

Import Views.

Lemma token_data_of_healthy entry w :
  healthy w ->
  exists w', token_data_of entry w = (Ret (listed w entry), w') /\ same_store w w'.
Proof.
  intros Hh. destruct entry as [| | |identifier| |]; simpl;
    try (unfold bind, print, ret; simpl; eexists; split; [reflexivity|]; by split).
  unfold bind. unfold listed.
  destruct (lookup_doc w identifier) as [v|] eqn:Hv.
  - destruct v as [| | | | |d];
      try (unfold get_token_secret, try_except, bind; rewrite get_password_healthy by done;
           unfold lookup_doc in Hv; rewrite Hv; simpl;
           eexists; split; [reflexivity|]; by split).
    rewrite (get_token_secret_healthy_dict identifier w d Hh Hv). unfold token_view.
    change (dict_get ?a "account_name") with (dict_get a "account_name").
    cbn [dict_get lookup_key String.eqb Ascii.eqb Bool.eqb default].
    destruct (truthy (dict_get d "account_name") && truthy (dict_get d "secret_key")
              && truthy (dict_get d "issuer_name")).
    + eexists. split; [reflexivity|]. apply same_store_refl.
    + unfold print, ret. eexists. split; [reflexivity|]. by split.
  - rewrite (get_token_secret_healthy_absent identifier w Hh Hv).
    eexists. split; [reflexivity|]. apply same_store_refl.
Qed.

Lemma listed_ext w w' entry : passwords w' = passwords w -> listed w' entry = listed w entry.
Proof. intros H. unfold listed, lookup_doc. by rewrite H. Qed.

Lemma collect_token_data_healthy entries : forall w,
  healthy w ->
  exists w', collect_token_data entries w = (Ret (flat_map (listed w) entries), w')
             /\ same_store w w'.
Proof.
  induction entries as [|entry rest IH]; intros w Hh; simpl.
  - eexists. split; [reflexivity|]. apply same_store_refl.
  - destruct (token_data_of_healthy entry w Hh) as (w1 & Hrun1 & Hs1).
    destruct (IH w1 (proj2 Hs1 Hh)) as (w2 & Hrun2 & Hs2).
    unfold bind. rewrite Hrun1, Hrun2. unfold ret.
    eexists. split; [|by eapply same_store_trans].
    do 3 f_equal. apply flat_map_ext. intros a. apply listed_ext, Hs1.
Qed.

(** The listing tolerates bad entries: on a backend that works,
    [get_all_token_data] returns, in the order of the index, the view of
    every listed identifier whose record is a dict with a non-empty
    account, secret and issuer, and passes over every other entry; it
    writes nothing. *)
Theorem listing_passes_over_bad_entries (w : world pyval) (l : list pyval) :
  healthy w -> stored_index w = PList l ->
  exists w',
    get_all_token_data w = (Ret (flat_map (listed w) l), w') /\
    passwords w' = passwords w.
Proof.
  intros Hh Hl. unfold get_all_token_data.
  erewrite bind_ret; [|by apply get_all_token_identifiers_healthy]. rewrite Hl. simpl.
  unfold bind at 1. unfold ret at 1.
  destruct (collect_token_data_healthy l w Hh) as (w' & Hrun & [Hpw _]). eauto.
Qed.

(** Witness: of three listed identifiers, one has a record without a
    secret and one has no record; the listing is alice's token alone. *)
Lemma listing_passes_over_bad_entries_witness :
  exists w',
    get_all_token_data (world_of two_vault [])
    = (Ret [token_view "acme_alice"
              [("account_name", PStr "alice"); ("issuer_name", PStr "Acme");
               ("secret_key", PStr "JBSWY3DPEHPK3PXP"); ("type", PStr "TOTP");
               ("recovery_codes", PStr "R1-R2-R3")]], w') /\
    passwords w' = two_vault.
Proof.
  exact (listing_passes_over_bad_entries (world_of two_vault [])
           [PStr "initech_bob"; PStr "ghost"; PStr "acme_alice"] eq_refl eq_refl).
Defined.

(** ** core/secure_storage.py: a save on a backend that fails *)

Lemma save_explicit_unfold `{SL : StrLower} account_name issuer_name secret_key t identifier r w :
  truthy account_name = true -> truthy issuer_name = true -> truthy secret_key = true ->
  valid_type t = true -> identifier <> "" ->
  save_token_secret account_name issuer_name secret_key (PStr t) (Some identifier) r w
  = store_token identifier (token_record account_name issuer_name secret_key (PStr t) r) w.
Proof.
  intros Ha Hi Hs Ht Hne. unfold save_token_secret.
  rewrite Ha, Hi, Hs. cbn [negb orb]. unfold str_method. unfold bind at 1. unfold ret at 1.
  unfold valid_type in Ht. rewrite Ht. cbn [negb opt_truthy].
  rewrite (str_truthy_ne identifier Hne). unfold bind at 1. unfold ret at 1. reflexivity.
Qed.

(** A save whose first write fails stores nothing: when the backend
    fails the call that writes the record, [save_token_secret] raises
    that error and the keyring is as it was. *)
Theorem failed_save_writes_nothing `{SL : StrLower}
    (w : world pyval) (f : fault) (rest : list (option fault)) (identifier : string)
    (account_name issuer_name secret_key : pyval) (t : string) (r : option string) :
  plan w = Some f :: rest -> identifier <> "" ->
  truthy account_name = true -> truthy issuer_name = true -> truthy secret_key = true ->
  valid_type t = true ->
  exists w',
    save_token_secret account_name issuer_name secret_key (PStr t) (Some identifier) r w
    = (Raise (fault_exn f), w') /\
    passwords w' = passwords w.
Proof.
  intros Hp Hne Ha Hi Hs Ht. rewrite save_explicit_unfold by done.
  unfold store_token, try_except, bind, set_password, backend_call. rewrite Hp.
  destruct f as [[] m]; simpl; eexists; split; reflexivity.
Qed.

Lemma failed_save_writes_nothing_witness :
  exists w',
    save_token_secret (PStr "alice") (PStr "Acme") (PStr "GEZDGNBVGY3TQOJQ") (PStr "TOTP")
      (Some "acme_alice") None
      (world_of alice_vault [Some (mk_fault SetFailed "locked")])
    = (Raise (mk_exn PasswordSetError "locked"), w') /\
    passwords w' = alice_vault.
Proof.
  exact (failed_save_writes_nothing (world_of alice_vault [Some (mk_fault SetFailed "locked")])
           (mk_fault SetFailed "locked") [] "acme_alice" (PStr "alice") (PStr "Acme")
           (PStr "GEZDGNBVGY3TQOJQ") "TOTP" None eq_refl ltac:(discriminate)
           eq_refl eq_refl eq_refl eq_refl).
Defined.

(** A save whose index write fails leaves a record that is not listed:
    when the record is written and the write of the index then fails,
    the record stays stored and the index stays without its identifier.
    If the failure is a missing backend the save still returns the
    identifier; any other failure is raised. *)
Theorem failed_index_write_leaves_record_unlisted `{SL : StrLower}
    (w : world pyval) (f : fault) (rest : list (option fault)) (l : list pyval)
    (identifier : string) (account_name issuer_name secret_key : pyval) (t : string)
    (r : option string) :
  plan w = None :: None :: Some f :: rest ->
  stored_index w = PList l -> existsb (eq_str identifier) l = false ->
  identifier <> "" -> identifier <> ACCOUNTS_LIST_KEY ->
  truthy account_name = true -> truthy issuer_name = true -> truthy secret_key = true ->
  valid_type t = true ->
  exists w',
    save_token_secret account_name issuer_name secret_key (PStr t) (Some identifier) r w
    = (match fault_error f with
       | NoBackend => Ret identifier
       | _ => Raise (fault_exn f)
       end, w') /\
    passwords w'
    = <[(SERVICE_NAME, identifier) := token_record account_name issuer_name secret_key (PStr t) r]>
        (passwords w).
Proof.
  intros Hp Hl Hex Hne Hres Ha Hi Hs Ht. rewrite save_explicit_unfold by done.
  unfold store_token, _add_account_to_list, get_all_token_identifiers, pass_on_NoKeyringError,
    try_except, bind, set_password, get_password, backend_call.
  rewrite Hp. simpl.
  rewrite lookup_insert_ne by congruence.
  unfold stored_index, lookup_doc in Hl.
  destruct (passwords w !! (SERVICE_NAME, ACCOUNTS_LIST_KEY)) as [v|]; simpl in Hl; subst;
    simpl; try injection Hl as <-; rewrite ?Hex; simpl; destruct f as [[] m]; simpl;
    eexists; split; reflexivity.
Qed.

Lemma failed_index_write_leaves_record_unlisted_witness :
  exists w',
    save_token_secret (PStr "bob") (PStr "Initech") (PStr "GEZDGNBVGY3TQOJQ") (PStr "TOTP")
      (Some "initech_bob") None
      (world_of alice_vault [None; None; Some (mk_fault NoBackend "no backend")])
    = (Ret "initech_bob", w') /\
    passwords w'
    = <[(SERVICE_NAME, "initech_bob") :=
          token_record (PStr "bob") (PStr "Initech") (PStr "GEZDGNBVGY3TQOJQ") (PStr "TOTP") None]>
        alice_vault.
Proof.
  exact (failed_index_write_leaves_record_unlisted
           (world_of alice_vault [None; None; Some (mk_fault NoBackend "no backend")])
           (mk_fault NoBackend "no backend") [] [PStr "acme_alice"] "initech_bob"
           (PStr "bob") (PStr "Initech") (PStr "GEZDGNBVGY3TQOJQ") "TOTP" None
           eq_refl eq_refl eq_refl ltac:(discriminate) ltac:(discriminate)
           eq_refl eq_refl eq_refl eq_refl).
Defined.

(** A failed read of the index costs the index: when the read of the
    index fails during a save and the writes go through, the index is
    written anew with the saved identifier as its only entry, whatever
    it listed before. *)
Theorem failed_index_read_replaces_the_index `{SL : StrLower}
    (w : world pyval) (f : fault) (rest : list (option fault))
    (identifier : string) (account_name issuer_name secret_key : pyval) (t : string)
    (r : option string) :
  plan w = None :: Some f :: None :: rest ->
  identifier <> "" -> identifier <> ACCOUNTS_LIST_KEY ->
  truthy account_name = true -> truthy issuer_name = true -> truthy secret_key = true ->
  valid_type t = true ->
  exists w',
    save_token_secret account_name issuer_name secret_key (PStr t) (Some identifier) r w
    = (Ret identifier, w') /\
    passwords w'
    = <[(SERVICE_NAME, ACCOUNTS_LIST_KEY) := PList [PStr identifier]]>
        (<[(SERVICE_NAME, identifier) :=
             token_record account_name issuer_name secret_key (PStr t) r]> (passwords w)).
Proof.
  intros Hp Hne Hres Ha Hi Hs Ht. rewrite save_explicit_unfold by done.
  unfold store_token, _add_account_to_list, get_all_token_identifiers, pass_on_NoKeyringError,
    try_except, bind, set_password, get_password, backend_call.
  rewrite Hp. simpl.
  destruct f as [[] m]; simpl; eexists; split; reflexivity.
Qed.

Lemma failed_index_read_replaces_the_index_witness :
  exists w',
    save_token_secret (PStr "bob") (PStr "Initech") (PStr "GEZDGNBVGY3TQOJQ") (PStr "TOTP")
      (Some "initech_bob") None
      (world_of alice_vault [None; Some (mk_fault BackendFailed "timeout"); None])
    = (Ret "initech_bob", w') /\
    passwords w'
    = <[(SERVICE_NAME, ACCOUNTS_LIST_KEY) := PList [PStr "initech_bob"]]>
        (<[(SERVICE_NAME, "initech_bob") :=
             token_record (PStr "bob") (PStr "Initech") (PStr "GEZDGNBVGY3TQOJQ") (PStr "TOTP")
               None]> alice_vault).
Proof.
  exact (failed_index_read_replaces_the_index
           (world_of alice_vault [None; Some (mk_fault BackendFailed "timeout"); None])
           (mk_fault BackendFailed "timeout") [] "initech_bob"
           (PStr "bob") (PStr "Initech") (PStr "GEZDGNBVGY3TQOJQ") "TOTP" None
           eq_refl ltac:(discriminate) ltac:(discriminate) eq_refl eq_refl eq_refl eq_refl).
Defined.

(** ** core/secure_storage.py: the auto-lock setting *)

Lemma auto_lock_setting_stored (w : world pyval) (timeout_seconds : Z) :
  healthy w -> int_str_ok timeout_seconds = true ->
  exists w1,
    save_auto_lock_setting timeout_seconds w = (Ret tt, w1) /\ healthy w1 /\
    get_auto_lock_setting w1 = (Ret timeout_seconds, w1) /\
    lookup_doc w1 AUTO_LOCK_SETTING_KEY = Some (PInt timeout_seconds).
Proof.
  intros Hh Hok.
  unfold save_auto_lock_setting, get_auto_lock_setting, try_except, bind, set_password,
    get_password, backend_call, lookup_doc. rewrite Hok. unfold ret at 1. rewrite Hh.
  eexists. split; [reflexivity|]. split; [done|]. simpl. rewrite Hh.
  rewrite lookup_insert_eq. by rewrite Hok.
Qed.

(** The setting is read back: on a backend that works, a timeout that
    [str] can print (an integer of at most 4300 digits, the limit of
    Python on the conversion) and that [save_auto_lock_setting] stored
    is the one [get_auto_lock_setting] returns next. *)
Theorem auto_lock_setting_round_trip (w : world pyval) (timeout_seconds : Z) :
  healthy w -> int_str_ok timeout_seconds = true ->
  exists w1,
    save_auto_lock_setting timeout_seconds w = (Ret tt, w1) /\
    get_auto_lock_setting w1 = (Ret timeout_seconds, w1).
Proof.
  intros Hh Hok.
  unfold save_auto_lock_setting, get_auto_lock_setting, try_except, bind, set_password,
    get_password, backend_call. rewrite Hok. unfold ret at 1. rewrite Hh.
  eexists. split; [reflexivity|]. simpl. rewrite Hh. rewrite lookup_insert_eq.
  by rewrite Hok.
Qed.

Lemma auto_lock_setting_round_trip_witness :
  exists w1,
    save_auto_lock_setting 900 alice_world = (Ret tt, w1) /\
    get_auto_lock_setting w1 = (Ret 900%Z, w1).
Proof. exact (auto_lock_setting_round_trip alice_world 900 eq_refl eq_refl). Defined.

(** ** ui/add_token_dialog.py: what the dialog accepts *)

Section Dialog.

Import AddTokenDialog.

Variable strip : string -> string.
Variable str_upper : string -> string.

Lemma allowed_char_is_ascii c : char_in allowed_chars c = true -> is_continuation c = false.
Proof.
  unfold char_in. intros H. apply existsb_exists in H as (x & Hin & Heq).
  apply Ascii.eqb_eq in Heq. subst x. simpl in Hin.
  repeat (destruct Hin as [<-|Hin]; [reflexivity|]). done.
Qed.

Lemma len_allowed s : all_in allowed_chars s = true -> len s = String.length s.
Proof.
  unfold all_in. induction s as [|c s IH]; [done|]. simpl.
  intros [Hc Hs]%andb_true_iff. rewrite (allowed_char_is_ascii c Hc). by rewrite IH.
Qed.

Lemma length_rule (n : nat) :
  ((16 <=? n) && ((n mod 8 =? 0) || ((n mod 4 =? 0) && (16 <? n))))%nat = true
  <-> 16 <= n /\ n mod 4 = 0.
Proof.
  pose proof (Nat.div_mod_eq n 8). pose proof (Nat.div_mod_eq n 4).
  pose proof (Nat.mod_upper_bound n 8). pose proof (Nat.mod_upper_bound n 4).
  rewrite andb_true_iff, orb_true_iff, andb_true_iff, Nat.leb_le, Nat.ltb_lt, !Nat.eqb_eq.
  lia.
Qed.

Lemma ok_event_accepted_iff
    (issuer_entry account_entry secret_entry recovery_codes_entry : string)
    (accepted : user_input) :
  _ok_event strip str_upper issuer_entry account_entry secret_entry recovery_codes_entry
  = Accepted accepted
  <->
  strip issuer_entry <> "" /\ strip account_entry <> "" /\ strip secret_entry <> "" /\
  all_in allowed_chars (str_upper (remove_spaces (strip secret_entry))) = true /\
  16 <= String.length (str_upper (remove_spaces (strip secret_entry))) /\
  String.length (str_upper (remove_spaces (strip secret_entry))) mod 4 = 0 /\
  accepted = mk_user_input (strip issuer_entry) (strip account_entry)
               (str_upper (remove_spaces (strip secret_entry))) (strip recovery_codes_entry).
Proof.
  unfold _ok_event, str_truthy.
  destruct (String.eqb_spec (strip issuer_entry) "") as [Hi|Hi]; cbn [negb];
    [split; [done | by intros []]|].
  destruct (String.eqb_spec (strip account_entry) "") as [Ha|Ha]; cbn [negb];
    [split; [done | by intros (_ & ? & _)]|].
  destruct (String.eqb_spec (strip secret_entry) "") as [Hs|Hs]; cbn [negb];
    [split; [done | by intros (_ & _ & ? & _)]|].
  set (temp_secret := str_upper (remove_spaces (strip secret_entry))).
  destruct (all_in allowed_chars temp_secret) eqn:Hall; cbn [andb negb].
  - rewrite <- (len_allowed temp_secret Hall).
    destruct ((16 <=? len temp_secret)
              && ((len temp_secret mod 8 =? 0)
                  || ((len temp_secret mod 4 =? 0) && (16 <? len temp_secret))))%nat eqn:Hlen;
      cbn [negb].
    + apply length_rule in Hlen as [H16 H4]. split; [intros [= <-]; by repeat split|].
      by intros (_ & _ & _ & _ & _ & _ & ->).
    + split; [done|]. intros (_ & _ & _ & _ & H16 & H4 & _).
      assert (Hrule := proj2 (length_rule (len temp_secret)) (conj H16 H4)). congruence.
  - split; [done|]. by intros (_ & _ & _ & ? & _).
Qed.

(** What OK accepts: the dialog returns an input exactly when the
    issuer, the account and the secret are not empty once stripped, and
    the secret, its spaces removed and in upper case, is written in the
    Base32 alphabet and has a length of 16 or more that is a multiple
    of four. The input returned holds the stripped texts and that
    normalised secret. *)
Theorem ok_event_accepts_base32_of_length_four_k
    (issuer_entry account_entry secret_entry recovery_codes_entry : string)
    (accepted : user_input) :
  _ok_event strip str_upper issuer_entry account_entry secret_entry recovery_codes_entry
  = Accepted accepted
  <->
  strip issuer_entry <> "" /\ strip account_entry <> "" /\ strip secret_entry <> "" /\
  all_in allowed_chars (str_upper (remove_spaces (strip secret_entry))) = true /\
  16 <= String.length (str_upper (remove_spaces (strip secret_entry))) /\
  String.length (str_upper (remove_spaces (strip secret_entry))) mod 4 = 0 /\
  accepted = mk_user_input (strip issuer_entry) (strip account_entry)
               (str_upper (remove_spaces (strip secret_entry))) (strip recovery_codes_entry).
Proof.
  unfold _ok_event, str_truthy.
  destruct (String.eqb_spec (strip issuer_entry) "") as [Hi|Hi]; cbn [negb];
    [split; [done | by intros []]|].
  destruct (String.eqb_spec (strip account_entry) "") as [Ha|Ha]; cbn [negb];
    [split; [done | by intros (_ & ? & _)]|].
  destruct (String.eqb_spec (strip secret_entry) "") as [Hs|Hs]; cbn [negb];
    [split; [done | by intros (_ & _ & ? & _)]|].
  set (temp_secret := str_upper (remove_spaces (strip secret_entry))).
  destruct (all_in allowed_chars temp_secret) eqn:Hall; cbn [andb negb].
  - rewrite <- (len_allowed temp_secret Hall).
    destruct ((16 <=? len temp_secret)
              && ((len temp_secret mod 8 =? 0)
                  || ((len temp_secret mod 4 =? 0) && (16 <? len temp_secret))))%nat eqn:Hlen;
      cbn [negb].
    + apply length_rule in Hlen as [H16 H4]. split; [intros [= <-]; by repeat split|].
      by intros (_ & _ & _ & _ & _ & _ & ->).
    + split; [done|]. intros (_ & _ & _ & _ & H16 & H4 & _).
      assert (Hrule := proj2 (length_rule (len temp_secret)) (conj H16 H4)). congruence.
  - split; [done|]. by intros (_ & _ & _ & ? & _).
Qed.

End Dialog.

(** ** main.py: adding, editing and deleting a token *)

Lemma refresh_after_save_healthy `{SL : StrLower} (save : M pyval string) info title on_value_error on_exception
    (w w1 : world pyval) identifier :
  save w = (Ret identifier, w1) ->
  exists w2,
    App.save_and_refresh save info title on_value_error on_exception w = (Ret [info], w2) /\
    same_store w1 w2.
Proof.
  intros Hsave. unfold App.save_and_refresh. rewrite Hsave.
  destruct (load_and_display_tokens_returns w1) as (w2 & Hload). rewrite Hload.
  exists w2. split; [done|]. by eapply load_and_display_tokens_same.
Qed.

(** From the dialog to the vault: in a vault that holds, besides the
    index and the auto-lock setting, only token records, on a backend
    that works, the input the dialog accepted is saved as a new TOTP
    token under an identifier under which nothing was stored; the
    derived identifier is assumed to be neither the key of the index
    nor the key of the auto-lock setting. The record read back holds the
    accepted texts, the recovery codes as a string; the identifier is
    in the index, which is the index as it was with the identifier
    added, and everything else that was stored is as it was. *)
Theorem accepted_input_is_saved_and_listed `{SL : StrLower}
    (strip str_upper : string -> string)
    (issuer_entry account_entry secret_entry recovery_codes_entry : string)
    (accepted : AddTokenDialog.user_input) (w : world pyval) (l : list pyval) :
  AddTokenDialog._ok_event strip str_upper issuer_entry account_entry secret_entry
    recovery_codes_entry = AddTokenDialog.Accepted accepted ->
  healthy w -> stored_index w = PList l -> holds_only_records w ->
  derive_identifier (AddTokenDialog.issuer_name accepted) (AddTokenDialog.account_name accepted)
  <> ACCOUNTS_LIST_KEY ->
  derive_identifier (AddTokenDialog.issuer_name accepted) (AddTokenDialog.account_name accepted)
  <> AUTO_LOCK_SETTING_KEY ->
  exists identifier w',
    App.open_add_token_dialog None (Some accepted) w
    = (Ret [App.InfoBox "Token Added"
              ("Token for " +:+ AddTokenDialog.issuer_name accepted +:+ " ("
               +:+ AddTokenDialog.account_name accepted +:+ ") added successfully.")], w') /\
    lookup_doc w identifier = None /\
    identifier <> ACCOUNTS_LIST_KEY /\
    in_index identifier w' = true /\
    stored_index w' = PList (index_after identifier l) /\
    (forall key, key <> identifier -> key <> ACCOUNTS_LIST_KEY ->
       lookup_doc w' key = lookup_doc w key) /\
    get_token_secret identifier w'
    = (Ret (Some (PDict [("identifier", PStr identifier);
                         ("account_name", PStr (strip account_entry));
                         ("issuer_name", PStr (strip issuer_entry));
                         ("secret_key",
                          PStr (str_upper (AddTokenDialog.remove_spaces (strip secret_entry))));
                         ("type", PStr "TOTP");
                         ("recovery_codes", PStr (strip recovery_codes_entry))])), w').
Proof.
  intros Hok Hh Hl Hrec Hres Hset.
  apply ok_event_accepted_iff in Hok as (Hi & Ha & Hs & Hall & H16 & _ & ->).
  cbn [AddTokenDialog.issuer_name AddTokenDialog.account_name AddTokenDialog.secret_key
       AddTokenDialog.recovery_codes] in *.
  set (secret := str_upper (AddTokenDialog.remove_spaces (strip secret_entry))) in *.
  assert (Hsecret : truthy (PStr secret) = true).
  { simpl. destruct (String.eqb_spec secret "") as [E|]; [|done]. rewrite E in H16.
    simpl in H16. lia. }
  destruct (save_new_healthy (strip account_entry) (strip issuer_entry) (PStr secret) "TOTP"
              (Some (strip recovery_codes_entry)) w l)
    as (j & wa & Hsame & Hfree & _ & Hcand & Hrun); try done.
  assert (Hnoset : candidate (derive_identifier (strip issuer_entry) (strip account_entry)) j
                   <> AUTO_LOCK_SETTING_KEY).
  { destruct j; [done | apply candidate_suffix_not_setting]. }
  set (identifier := candidate (derive_identifier (strip issuer_entry) (strip account_entry)) j)
    in *.
  assert (Hnone : lookup_doc w identifier = None).
  { unfold usedb in Hfree. destruct (lookup_doc w identifier) as [v|] eqn:Hv; [|done].
    destruct (Hrec identifier v Hv) as [?|[?|[d ->]]]; done. }
  unfold App.open_add_token_dialog. cbn [opt_truthy].
  cbn [AddTokenDialog.issuer_name AddTokenDialog.account_name AddTokenDialog.secret_key
       AddTokenDialog.recovery_codes].
  edestruct refresh_after_save_healthy as (w2 & -> & Hs2); [exact Hrun|].
  exists identifier, w2. split; [done|]. split; [done|]. split; [done|].
  assert (Hh2 : healthy w2) by (apply Hs2, Hsame, Hh).
  assert (Hindex : stored_index w2 = PList (index_after identifier l)).
  { rewrite (same_store_index _ _ Hs2). rewrite <- (proj1 Hsame).
    apply stored_index_store_after; [done|]. by rewrite (same_store_index _ _ Hsame). }
  split; [|split; [done|split]].
  - unfold in_index. rewrite Hindex, existsb_index_after. by rewrite decide_True.
  - intros key Hk Hk'. rewrite (same_store_lookup _ _ _ Hs2). unfold lookup_doc. simpl.
    by rewrite lookup_store_after_ne.
  - unfold token_record in *.
    erewrite get_token_secret_healthy_dict;
      [| done
       | rewrite (same_store_lookup _ _ _ Hs2); unfold lookup_doc; simpl;
         by apply lookup_store_after_eq].
    reflexivity.
Qed.

(** Every key of the empty vault is free. *)
Lemma empty_world_holds_only_records : holds_only_records empty_world.
Proof. intros key v Hv. unfold lookup_doc in Hv. simpl in Hv. by rewrite lookup_empty in Hv. Qed.

(** Witness: "GitHub", "alice" and the secret typed in groups of four
    lower-case letters, in an empty vault. *)
Lemma accepted_input_is_saved_and_listed_witness :
  exists identifier w',
    App.open_add_token_dialog None
      (Some (AddTokenDialog.mk_user_input "GitHub" "alice" "JBSWY3DPEHPK3PXP" "")) empty_world
    = (Ret [App.InfoBox "Token Added" "Token for GitHub (alice) added successfully."], w') /\
    lookup_doc empty_world identifier = None /\
    identifier <> ACCOUNTS_LIST_KEY /\
    in_index identifier w' = true /\
    stored_index w' = PList (index_after identifier []) /\
    (forall key, key <> identifier -> key <> ACCOUNTS_LIST_KEY ->
       lookup_doc w' key = lookup_doc empty_world key) /\
    get_token_secret identifier w'
    = (Ret (Some (PDict [("identifier", PStr identifier);
                         ("account_name", PStr "alice");
                         ("issuer_name", PStr "GitHub");
                         ("secret_key", PStr "JBSWY3DPEHPK3PXP");
                         ("type", PStr "TOTP");
                         ("recovery_codes", PStr "")])), w').
Proof.
  exact (accepted_input_is_saved_and_listed (SL := ascii_str_lower)
           AddTokenDialog.ascii_strip upper " GitHub " "alice" "jbsw y3dp ehpk 3pxp" ""
           (AddTokenDialog.mk_user_input "GitHub" "alice" "JBSWY3DPEHPK3PXP" "")
           empty_world [] eq_refl eq_refl eq_refl empty_world_holds_only_records
           ltac:(discriminate) ltac:(discriminate)).
Defined.

(** An edit keeps the identifier and makes the token a TOTP token: on a
    backend that works, editing a stored token writes the new texts
    under the same identifier with the type "TOTP", whatever type the
    record had, and leaves the index and every other record alone. *)
Theorem edit_keeps_identifier_and_resets_type `{SL : StrLower}
    (w : world pyval) (identifier : string) (new_data : AddTokenDialog.user_input) :
  healthy w -> index_consistent w -> usedb w identifier = true -> identifier <> "" ->
  AddTokenDialog.issuer_name new_data <> "" ->
  AddTokenDialog.account_name new_data <> "" ->
  AddTokenDialog.secret_key new_data <> "" ->
  exists w',
    App.open_add_token_dialog (Some identifier) (Some new_data) w
    = (Ret [App.InfoBox "Token Updated"
              ("Token for " +:+ AddTokenDialog.issuer_name new_data +:+ " ("
               +:+ AddTokenDialog.account_name new_data +:+ ") updated successfully.")], w') /\
    lookup_doc w' identifier
    = Some (PDict [("account_name", PStr (AddTokenDialog.account_name new_data));
                   ("issuer_name", PStr (AddTokenDialog.issuer_name new_data));
                   ("secret_key", PStr (AddTokenDialog.secret_key new_data));
                   ("type", PStr "TOTP");
                   ("recovery_codes", PStr (AddTokenDialog.recovery_codes new_data))]) /\
    stored_index w' = stored_index w /\
    (forall key, key <> identifier -> lookup_doc w' key = lookup_doc w key).
Proof.
  intros Hh Hc Hu Hne Hi Ha Hs.
  unfold App.open_add_token_dialog. cbn [opt_truthy default]. rewrite (str_truthy_ne _ Hne).
  assert (Hd : exists d, lookup_doc w identifier = Some (PDict d)).
  { unfold usedb in Hu. destruct (lookup_doc w identifier) as [[| | | | |d]|]; try done. eauto. }
  destruct Hd as (d & Hd).
  rewrite (bind_ret _ _ _ _ _ (get_token_secret_healthy_dict identifier w d Hh Hd)).
  unfold token_view. cbn [truthy negb].
  destruct (save_existing_healthy w identifier
              (PStr (AddTokenDialog.account_name new_data))
              (PStr (AddTokenDialog.issuer_name new_data))
              (PStr (AddTokenDialog.secret_key new_data)) "TOTP"
              (Some (AddTokenDialog.recovery_codes new_data)))
    as (w1 & Hrun & Hpw & Hidx & _); try done; try (simpl; by apply str_truthy_ne).
  edestruct refresh_after_save_healthy as (w2 & -> & Hs2); [exact Hrun|].
  exists w2. split; [done|].
  rewrite (same_store_index _ _ Hs2), Hidx. split; [|split; [done|]].
  - rewrite (same_store_lookup _ _ _ Hs2). unfold lookup_doc. rewrite Hpw.
    by rewrite lookup_insert_eq.
  - intros key Hkey. rewrite (same_store_lookup _ _ _ Hs2). unfold lookup_doc. rewrite Hpw.
    rewrite lookup_insert_ne; [done | congruence].
Qed.

Lemma hotp_world_index_consistent : index_consistent (world_of hotp_vault []).
Proof.
  exists [PStr "globex_carol"]. split; [reflexivity|]. split; [|split].
  - intros identifier.
    destruct (decide (identifier = "globex_carol")) as [->|Hne]; [reflexivity|].
    destruct (decide (identifier = ACCOUNTS_LIST_KEY)) as [->|Hne']; [reflexivity|].
    unfold usedb, lookup_doc, hotp_vault. simpl.
    rewrite lookup_insert_ne by congruence. rewrite lookup_singleton_ne by congruence.
    by apply String.eqb_neq in Hne as ->.
  - intros identifier. unfold occurrences. rewrite filter_cons, filter_nil.
    case_decide; simpl; lia.
  - repeat constructor. by exists "globex_carol".
Qed.

(** Witness: carol's HOTP token at Globex, its account renamed. *)
Lemma edit_keeps_identifier_and_resets_type_witness :
  exists w',
    App.open_add_token_dialog (Some "globex_carol")
      (Some (AddTokenDialog.mk_user_input "Globex" "carol@globex" "GEZDGNBVGY3TQOJQ" ""))
      (world_of hotp_vault [])
    = (Ret [App.InfoBox "Token Updated" "Token for Globex (carol@globex) updated successfully."],
       w') /\
    lookup_doc w' "globex_carol"
    = Some (PDict [("account_name", PStr "carol@globex");
                   ("issuer_name", PStr "Globex");
                   ("secret_key", PStr "GEZDGNBVGY3TQOJQ");
                   ("type", PStr "TOTP");
                   ("recovery_codes", PStr "")]) /\
    stored_index w' = stored_index (world_of hotp_vault []) /\
    (forall key, key <> "globex_carol" ->
       lookup_doc w' key = lookup_doc (world_of hotp_vault []) key).
Proof.
  apply (edit_keeps_identifier_and_resets_type (world_of hotp_vault []) "globex_carol"
           (AddTokenDialog.mk_user_input "Globex" "carol@globex" "GEZDGNBVGY3TQOJQ" ""));
    try reflexivity; try discriminate.
  apply hotp_world_index_consistent.
Defined.

(** A delete is reported as done when the backend is missing: if the
    backend is not there when the user confirms, the box "Token
    Deleted" is shown all the same, and every stored password is still
    there. *)
Theorem delete_is_reported_without_backend `{SL : StrLower}
    (w : world pyval) (message : string) (rest : list (option fault))
    (token_identifier display_name : string) :
  plan w = Some (mk_fault NoBackend message) :: rest ->
  exists w',
    App.handle_delete_token token_identifier display_name true w
    = (Ret [App.YesNoBox "Confirm Delete"
              ("Are you sure you want to delete the token for" +:+ String "010" "'"
               +:+ display_name +:+ "'?");
            App.InfoBox "Token Deleted" ("Token for '" +:+ display_name +:+ "' has been deleted.")],
       w') /\
    passwords w' = passwords w.
Proof.
  intros Hp. unfold App.handle_delete_token.
  assert (Hdel : delete_token_secret token_identifier w = (Ret tt, with_plan rest w)).
  { unfold delete_token_secret, try_except, bind, delete_password, backend_call.
    by rewrite Hp. }
  rewrite Hdel.
  destruct (load_and_display_tokens_returns (with_plan rest w)) as (w2 & Hload).
  rewrite Hload. exists w2. split; [done|].
  by destruct (load_and_display_tokens_same _ _ _ Hload) as [-> _].
Qed.

Lemma delete_is_reported_without_backend_witness :
  exists w',
    App.handle_delete_token "acme_alice" "Acme (alice)" true
      (world_of alice_vault [Some (mk_fault NoBackend "no backend")])
    = (Ret [App.YesNoBox "Confirm Delete"
              ("Are you sure you want to delete the token for" +:+ String "010" "'"
               +:+ "Acme (alice)" +:+ "'?");
            App.InfoBox "Token Deleted" ("Token for '" +:+ "Acme (alice)" +:+ "' has been deleted.")],
       w') /\
    passwords w' = alice_vault.
Proof.
  exact (delete_is_reported_without_backend
           (world_of alice_vault [Some (mk_fault NoBackend "no backend")])
           "no backend" [] "acme_alice" "Acme (alice)" eq_refl).
Defined.

(** ** main.py: the inactivity timer and the lock *)

Lemma cancel_inactivity_timer_clears c :
  App.one_timer_at_most c ->
  App.cancel_inactivity_timer c
  = App.mk_clock (App.auto_lock_after_seconds c) None [] (App.next_after c).
Proof.
  unfold App.one_timer_at_most, App.cancel_inactivity_timer, App.after_cancel, App.set_timer_id.
  destruct c as [secs id sched next]. simpl.
  destruct sched as [|t [|t' sched]]; [| |done].
  - destruct id; by rewrite ?filter_nil.
  - intros ->. simpl. rewrite filter_cons, filter_nil. by rewrite decide_False by (by intros []).
Qed.

Lemma reset_inactivity_timer_spec (app_unlocked : bool) (c : App.clock) :
  App.one_timer_at_most c ->
  App.scheduled (App.reset_inactivity_timer app_unlocked c)
  = (if app_unlocked && (0 <? App.auto_lock_after_seconds c)%Z
     then [(App.next_after c, (App.auto_lock_after_seconds c * 1000)%Z)]
     else []) /\
  App.one_timer_at_most (App.reset_inactivity_timer app_unlocked c) /\
  App.auto_lock_after_seconds (App.reset_inactivity_timer app_unlocked c)
  = App.auto_lock_after_seconds c.
Proof.
  intros Hc. unfold App.reset_inactivity_timer.
  rewrite (cancel_inactivity_timer_clears c Hc). cbn [App.auto_lock_after_seconds].
  by destruct (app_unlocked && (0 <? App.auto_lock_after_seconds c)%Z).
Qed.

(** Activity keeps one timer: from a state in which Tk holds no lock
    timer but the one the application remembers, [reset_inactivity_timer]
    leaves exactly one pending timer, of the timeout in milliseconds,
    when the application is unlocked and the timeout is positive, and
    none otherwise (the timeout 0 of "Disabled" switches auto-lock off). *)
Theorem activity_keeps_one_timer (app_unlocked : bool) (c : App.clock) :
  App.one_timer_at_most c ->
  App.scheduled (App.reset_inactivity_timer app_unlocked c)
  = (if app_unlocked && (0 <? App.auto_lock_after_seconds c)%Z
     then [(App.next_after c, (App.auto_lock_after_seconds c * 1000)%Z)]
     else []) /\
  App.one_timer_at_most (App.reset_inactivity_timer app_unlocked c) /\
  App.auto_lock_after_seconds (App.reset_inactivity_timer app_unlocked c)
  = App.auto_lock_after_seconds c.
Proof.
  intros Hc. unfold App.reset_inactivity_timer.
  rewrite (cancel_inactivity_timer_clears c Hc). cbn [App.auto_lock_after_seconds].
  by destruct (app_unlocked && (0 <? App.auto_lock_after_seconds c)%Z).
Qed.

(** Witness: a move of the mouse five minutes' timer running. *)
Lemma activity_keeps_one_timer_witness :
  App.scheduled (App.reset_inactivity_timer true running_clock) = [(1, 300000%Z)] /\
  App.one_timer_at_most (App.reset_inactivity_timer true running_clock) /\
  App.auto_lock_after_seconds (App.reset_inactivity_timer true running_clock) = 300%Z.
Proof. exact (activity_keeps_one_timer true running_clock eq_refl). Defined.

Section LockFacts.

Import Main Unlock.

Variable pbkdf2_hmac_sha256 : list byte -> list byte -> N -> list byte.
Variable entries : nat -> option string.

Lemma get_password_inv {V} service key (w : world V) r w' :
  get_password service key w = (r, w') ->
  passwords w' = passwords w /\
  match r with Raise e => is_Exception e = true | Ret _ => True end.
Proof.
  unfold get_password, backend_call.
  destruct (plan w) as [|[f|] rest]; intros [= <- <-]; simpl; split; try done.
  apply fault_is_Exception.
Qed.

Lemma verify_app_pin_total (pin : string) (w : world string) :
  exists b w',
    AppLock.verify_app_pin pbkdf2_hmac_sha256 pin w = (Ret b, w') /\ passwords w' = passwords w.
Proof.
  unfold AppLock.verify_app_pin, try_except.
  match goal with |- context [bind ?m ?k w] => destruct (bind m k w) as [r w0] eqn:Hbody end.
  assert (Hinv : passwords w0 = passwords w /\
                 match r with Raise e => is_Exception e = true | Ret _ => True end).
  { unfold bind in Hbody.
    destruct (get_password _ AppLock.SALT_KEY w) as [[salt_hex|e1] w1] eqn:H1;
      apply get_password_inv in H1 as [Hpw1 He1]; [|by injection Hbody as <- <-].
    destruct (get_password _ AppLock.PIN_HASH_KEY w1) as [[hash_hex|e2] w2] eqn:H2;
      apply get_password_inv in H2 as [Hpw2 He2];
      [|injection Hbody as <- <-; split; [congruence | done]].
    destruct (_ || _); [injection Hbody as <- <-; split; [congruence | done]|].
    unfold AppLock.bytes_fromhex in Hbody.
    destruct (fromhex (default "" salt_hex));
      [|injection Hbody as <- <-; split; [congruence | done]].
    destruct (fromhex (default "" hash_hex));
      injection Hbody as <- <-; split; congruence || done. }
  destruct Hinv as [Hpw He]. destruct r as [b|e]; [eauto|].
  rewrite He. destruct (is_class NoKeyringError e); unfold bind, print, ret; simpl; eauto.
Qed.

Lemma is_pin_set_total (w : world string) :
  exists b w', AppLock.is_pin_set w = (Ret b, w') /\ passwords w' = passwords w.
Proof.
  unfold AppLock.is_pin_set, try_except.
  match goal with |- context [bind ?m ?k w] => destruct (bind m k w) as [r w0] eqn:Hbody end.
  assert (Hinv : passwords w0 = passwords w /\
                 match r with Raise e => is_Exception e = true | Ret _ => True end).
  { unfold bind in Hbody.
    destruct (get_password _ AppLock.SALT_KEY w) as [[salt_hex|e1] w1] eqn:H1;
      apply get_password_inv in H1 as [Hpw1 He1]; [|by injection Hbody as <- <-].
    destruct (get_password _ AppLock.PIN_HASH_KEY w1) as [[hash_hex|e2] w2] eqn:H2;
      apply get_password_inv in H2 as [Hpw2 He2];
      injection Hbody as <- <-; split; congruence || done. }
  destruct Hinv as [Hpw He]. destruct r as [b|e]; [eauto|].
  rewrite He. destruct (is_class NoKeyringError e); unfold bind, print, ret; simpl; eauto.
Qed.

Lemma unlock_loop_outcome (is_startup_check : bool) (remaining : nat) :
  forall s w r s' w',
    unlock_loop pbkdf2_hmac_sha256 entries remaining is_startup_check s w = (r, s', w') ->
    passwords w' = passwords w /\
    ((r = Ret true /\ app_unlocked s' = true) \/
     (r = Raise (mk_exn SystemExit "1") /\ app_unlocked s' = app_unlocked s)).
Proof.
  induction remaining as [|remaining IH]; intros s w r s' w'.
  - simpl. unfold quit_application_if_pin_cancelled. intros [= <- <- <-]. split; [done|]. by right.
  - cbn [unlock_loop]. destruct (entries (dialogs s)) as [p|].
    + destruct (str_truthy p).
      * destruct (verify_app_pin_total p w) as (b & w1 & Hv & Hpw). rewrite Hv.
        destruct b.
        -- intros [= <- <- <-]. split; [done|]. by left.
        -- intros H. apply IH in H as [Hpw' H]. split; [congruence|]. exact H.
      * intros H. apply IH in H as [Hpw' H]. split; [done|]. exact H.
    + unfold quit_application_if_pin_cancelled. intros [= <- <- <-]. split; [done|]. by right.
Qed.

Lemma prompts_snoc is_startup_check n : forall attempts,
  prompts is_startup_check attempts (S n)
  = prompts is_startup_check attempts n
    ++ [PinDialog (prompt_text is_startup_check (attempts + n)) (negb is_startup_check)].
Proof.
  induction n as [|n IH]; intros attempts.
  - simpl. by rewrite Nat.add_0_r.
  - change (prompts is_startup_check attempts (S (S n)))
      with (PinDialog (prompt_text is_startup_check attempts) (negb is_startup_check)
            :: prompts is_startup_check (S attempts) (S n)).
    rewrite IH. replace (attempts + S n) with (S attempts + n) by lia. reflexivity.
Qed.

(** A cancelled prompt ends the application: when the PIN dialog is
    cancelled or closed, at the start or at the lock screen, after fewer
    than three rejected PINs, the application shows "PIN Required" and
    exits; no further PIN is verified and the application stays locked. *)
Theorem cancelled_prompt_exits
    (is_startup_check : bool) (s : session) (w w1 : world string) (fails : list string) :
  length fails < 3 ->
  answers entries (dialogs s) fails ->
  rejects pbkdf2_hmac_sha256 fails w = Some w1 ->
  entries (dialogs s + length fails) = None ->
  exists s',
    _prompt_for_pin_and_unlock pbkdf2_hmac_sha256 entries is_startup_check s w
    = (Raise (mk_exn SystemExit "1"), s', w1) /\
    verified s' = verified s ++ fails /\
    app_unlocked s' = app_unlocked s /\
    ui s' = ui s ++ prompts is_startup_check 0 (S (length fails))
            ++ [ShowError "PIN Required" "Application access denied. Exiting."; Destroy].
Proof.
  intros Hlen Hans Hrej Hnone. unfold _prompt_for_pin_and_unlock.
  replace (MAX_PIN_ATTEMPTS - _) with (length fails + S (2 - length fails))
    by (unfold MAX_PIN_ATTEMPTS; simpl; lia).
  rewrite (unlock_loop_rejected pbkdf2_hmac_sha256 entries is_startup_check fails _
             (mk_session (app_unlocked s) 0 (dialogs s) (ui s) (verified s)) w w1 Hans Hrej).
  cbn [unlock_loop after_rejected dialogs]. rewrite Hnone.
  unfold quit_application_if_pin_cancelled. eexists. split; [reflexivity|].
  unfold show, after_rejected. cbn [verified app_unlocked ui pin_attempts Nat.add].
  split; [done|]. split; [done|].
  rewrite prompts_snoc. by rewrite <- !app_assoc.
Qed.

(** Locking ends unlocked or not at all: [lock_application] cancels
    the pending timer before it asks for the PIN; either it returns,
    the application unlocked and one new timer pending (none when the
    timeout is not positive), or the application exits, locked, with
    no timer pending. Neither keyring is written. *)
Theorem lock_ends_unlocked_or_exits `{SL : StrLower}
    (s : session) (c : App.clock) (w : world string) (v : world pyval) :
  App.one_timer_at_most c ->
  exists r s' c' w' v',
    App.lock_application pbkdf2_hmac_sha256 entries s c w v = (r, s', c', w', v') /\
    passwords w' = passwords w /\ passwords v' = passwords v /\
    ((r = Ret tt /\ app_unlocked s' = true /\
      App.scheduled c'
      = (if (0 <? App.auto_lock_after_seconds c)%Z
         then [(App.next_after c, (App.auto_lock_after_seconds c * 1000)%Z)]
         else [])) \/
     (r = Raise (mk_exn SystemExit "1") /\ app_unlocked s' = false /\ App.scheduled c' = [])).
Proof.
  intros Hc. unfold App.lock_application, _prompt_for_pin_and_unlock.
  destruct (unlock_loop _ _ _ _ _ w) as [[r s'] w'] eqn:Hloop.
  apply unlock_loop_outcome in Hloop as [Hpw [[-> Hun] | [-> Hun]]].
  - destruct (load_and_display_tokens_returns v) as (v2 & Hload). rewrite Hload.
    apply load_and_display_tokens_same in Hload as [Hv _].
    eexists _, _, _, _, _. split; [reflexivity|]. split; [done|]. split; [done|]. left.
    split; [done|]. split; [done|]. rewrite Hun.
    assert (Hc1 : App.one_timer_at_most (App.cancel_inactivity_timer c))
      by (by rewrite (cancel_inactivity_timer_clears c Hc)).
    destruct (reset_inactivity_timer_spec true _ Hc1) as [-> _].
    by rewrite (cancel_inactivity_timer_clears c Hc).
  - eexists _, _, _, _, _. split; [reflexivity|]. split; [done|]. split; [done|]. right.
    split; [done|]. split; [done|]. by rewrite (cancel_inactivity_timer_clears c Hc).
Qed.

End LockFacts.

(** Witness: the lock screen cancelled at once. *)
Lemma cancelled_prompt_exits_witness :
  exists s',
    Main._prompt_for_pin_and_unlock Toy.pbkdf2_hmac_sha256 (fun _ => None) false
      fresh_session pin_2468_world
    = (Raise (mk_exn SystemExit "1"), s', pin_2468_world) /\
    Main.verified s' = [] /\
    Main.app_unlocked s' = false /\
    Main.ui s'
    = [Main.PinDialog "Enter PIN to unlock application (3 attempts left):" true;
       Main.ShowError "PIN Required" "Application access denied. Exiting."; Main.Destroy].
Proof.
  apply (cancelled_prompt_exits Toy.pbkdf2_hmac_sha256 (fun _ => None) false fresh_session
           pin_2468_world pin_2468_world []); try reflexivity.
  - simpl. lia.
  - intros i p Hp. done.
Defined.

(** Witness: the timer of five minutes fires; the PIN is typed right at
    the second dialog. *)
Lemma lock_ends_unlocked_or_exits_witness :
  exists r s' c' w' v',
    App.lock_application Toy.pbkdf2_hmac_sha256 second_time_right
      (Main.mk_session true 0 0 [] []) (App.expire 0 running_clock) pin_2468_world alice_world
    = (r, s', c', w', v') /\
    passwords w' = passwords pin_2468_world /\ passwords v' = passwords alice_world /\
    ((r = Ret tt /\ Main.app_unlocked s' = true /\ App.scheduled c' = [(1, 300000%Z)]) \/
     (r = Raise (mk_exn SystemExit "1") /\ Main.app_unlocked s' = false /\ App.scheduled c' = [])).
Proof.
  exact (lock_ends_unlocked_or_exits Toy.pbkdf2_hmac_sha256 second_time_right
           (Main.mk_session true 0 0 [] []) (App.expire 0 running_clock) pin_2468_world
           alice_world I).
Defined.

(** ** core/app_lock.py: errors of the backend *)

Section PinFacts.

Variable pbkdf2_hmac_sha256 : list byte -> list byte -> N -> list byte.

Lemma set_app_pin_raises (pin : string) (w : world string) e w' :
  AppLock.set_app_pin pbkdf2_hmac_sha256 pin w = (Raise e, w') -> is_Exception e = true.
Proof.
  unfold AppLock.set_app_pin. destruct (len pin <? 4)%nat; [by intros [= <- <-]|].
  unfold try_except, bind, AppLock._generate_salt, os_urandom, set_password, backend_call.
  simpl.
  destruct (plan w) as [|[f1|] [|[f2|] rest]]; simpl; try done;
    try (destruct f1 as [[] m1]); try (destruct f2 as [[] m2]); simpl;
    by intros [= <- <-].
Qed.

(** [set_app_pin] is not atomic: when the backend stores the salt and
    then fails to store the hash, [set_app_pin] raises that error with
    the new salt in place of the old one and the stored hash as it was. *)
Theorem interrupted_set_app_pin_replaces_the_salt_only
    (w : world string) (pin : string) (f : fault) (rest : list (option fault)) :
  plan w = None :: Some f :: rest -> 4 <= len pin ->
  exists w1,
    AppLock.set_app_pin pbkdf2_hmac_sha256 pin w = (Raise (fault_exn f), w1) /\
    passwords w1
    = <[(AppLock.SERVICE_NAME, AppLock.SALT_KEY) := hex (map (rng w) (seq (rng_pos w) 16))]>
        (passwords w).
Proof.
  intros Hp Hlen. unfold AppLock.set_app_pin.
  destruct (Nat.ltb_spec (len pin) 4) as [?|_]; [lia|].
  unfold try_except, bind, AppLock._generate_salt, os_urandom, set_password, backend_call.
  simpl. rewrite Hp. simpl.
  destruct f as [[] m]; simpl; eexists; split; reflexivity.
Qed.

(** The checks of the PIN answer no when the backend fails: whatever
    the backend does, [verify_app_pin] and [is_pin_set] return a
    boolean and write nothing, and when the backend fails their first
    call both return False, whatever is stored. *)
Theorem pin_checks_answer_no_when_the_backend_fails (w : world string) (pin : string) :
  exists verified w1 set w2,
    AppLock.verify_app_pin pbkdf2_hmac_sha256 pin w = (Ret verified, w1) /\
    AppLock.is_pin_set w = (Ret set, w2) /\
    passwords w1 = passwords w /\ passwords w2 = passwords w /\
    (forall f rest, plan w = Some f :: rest -> verified = false /\ set = false).
Proof.
  destruct (verify_app_pin_total pbkdf2_hmac_sha256 pin w) as (b1 & w1 & Hv & Hpw1).
  destruct (is_pin_set_total w) as (b2 & w2 & Hs & Hpw2).
  exists b1, w1, b2, w2. repeat split; try done.
  - revert Hv. unfold AppLock.verify_app_pin, try_except, bind, get_password, backend_call.
    rewrite H. destruct f as [[] m]; simpl; by intros [= <- _].
  - revert Hs. unfold AppLock.is_pin_set, try_except, bind, get_password, backend_call.
    rewrite H. destruct f as [[] m]; simpl; by intros [= <- _].
Qed.

End PinFacts.

Lemma interrupted_set_app_pin_replaces_the_salt_only_witness :
  exists w1,
    AppLock.set_app_pin Toy.pbkdf2_hmac_sha256 "9753"
      (with_plan [None; Some (mk_fault SetFailed "locked")] pin_2468_world)
    = (Raise (mk_exn PasswordSetError "locked"), w1) /\
    passwords w1
    = <[(AppLock.SERVICE_NAME, AppLock.SALT_KEY) :=
          hex (map (rng pin_2468_world) (seq (rng_pos pin_2468_world) 16))]>
        (passwords pin_2468_world).
Proof.
  apply (interrupted_set_app_pin_replaces_the_salt_only Toy.pbkdf2_hmac_sha256
           (with_plan [None; Some (mk_fault SetFailed "locked")] pin_2468_world) "9753"
           (mk_fault SetFailed "locked") []); [reflexivity | vm_compute; lia].
Defined.

(** ** main.py: the PIN check at the start *)

Section Startup.

Import Main.

Variable pbkdf2_hmac_sha256 : list byte -> list byte -> N -> list byte.
Variable entries : nat -> option string.

(** The start leaves no locked application running:
    [_handle_initial_pin_check] either returns True with the
    application unlocked or exits; it never returns False. *)
Theorem initial_check_unlocks_or_exits (s : session) (w : world string) :
  exists r s' w',
    App._handle_initial_pin_check pbkdf2_hmac_sha256 entries s w = (r, s', w') /\
    ((r = Ret true /\ app_unlocked s' = true) \/
     (r = Raise (mk_exn SystemExit "1") /\ app_unlocked s' = app_unlocked s)).
Proof.
  unfold App._handle_initial_pin_check.
  destruct (is_pin_set_total w) as (b & w1 & His & Hpw). rewrite His. destruct b.
  - destruct (_prompt_for_pin_and_unlock _ _ true s w1) as [[r s'] w'] eqn:Hrun.
    unfold _prompt_for_pin_and_unlock in Hrun.
    apply unlock_loop_outcome in Hrun as [_ [[-> Hun] | [-> Hun]]].
    + eexists _, _, _. split; [reflexivity|]. by left.
    + eexists _, _, _. split; [reflexivity|]. by right.
  - destruct (SecureStorage.opt_truthy (entries (dialogs s))).
    + destruct (AppLock.set_app_pin _ _ w1) as [[[]|e] w2] eqn:Hset.
      * eexists _, _, _. split; [reflexivity|]. by left.
      * apply set_app_pin_raises in Hset.
        destruct (is_class ValueError e); [|rewrite Hset];
          eexists _, _, _; (split; [reflexivity|]); by right.
    + eexists _, _, _. split; [reflexivity|]. by right.
Qed.

(** The first run sets the PIN: on a backend that works and holds no
    salt of a PIN, the PIN the dialog returns is stored by [set_app_pin]
    and the application is unlocked, no PIN having been verified. *)
Theorem first_run_sets_the_pin (s : session) (w : world string) (pin : string) :
  healthy w ->
  passwords w !! (AppLock.SERVICE_NAME, AppLock.SALT_KEY) = None ->
  entries (dialogs s) = Some pin -> 4 <= len pin ->
  exists s' w1,
    App._handle_initial_pin_check pbkdf2_hmac_sha256 entries s w = (Ret true, s', w1) /\
    AppLock.set_app_pin pbkdf2_hmac_sha256 pin w = (Ret tt, w1) /\
    app_unlocked s' = true /\ verified s' = verified s /\ dialogs s' = S (dialogs s).
Proof.
  intros Hh Hsalt Hentry Hlen. unfold App._handle_initial_pin_check.
  assert (His : AppLock.is_pin_set w = (Ret false, w)).
  { unfold AppLock.is_pin_set, try_except, bind. rewrite !get_password_healthy by done.
    rewrite Hsalt. reflexivity. }
  rewrite His, Hentry. cbn [SecureStorage.opt_truthy default id].
  assert (Hpin : str_truthy pin = true).
  { apply str_truthy_ne. intros ->. simpl in Hlen. lia. }
  rewrite Hpin.
  destruct (set_app_pin_healthy pbkdf2_hmac_sha256 w pin Hh Hlen) as (w1 & Hset & _).
  rewrite Hset. eexists _, _. split; [reflexivity|]. by repeat split.
Qed.

(** A failed check is taken for a first run: when the backend fails
    the first read of [is_pin_set] and works afterwards, the start asks
    for a new PIN, stores it over whatever credential the keyring held
    and unlocks the application, no PIN having been verified. *)
Theorem failed_check_is_taken_for_a_first_run
    (s : session) (w : world string) (f : fault) (pin : string) :
  plan w = [Some f] -> entries (dialogs s) = Some pin -> 4 <= len pin ->
  let salt := map (rng w) (seq (rng_pos w) 16) in
  exists s' w1,
    App._handle_initial_pin_check pbkdf2_hmac_sha256 entries s w = (Ret true, s', w1) /\
    app_unlocked s' = true /\ verified s' = verified s /\
    passwords w1
    = <[(AppLock.SERVICE_NAME, AppLock.PIN_HASH_KEY) :=
          hex (AppLock._hash_pin pbkdf2_hmac_sha256 pin salt)]>
        (<[(AppLock.SERVICE_NAME, AppLock.SALT_KEY) := hex salt]> (passwords w)).
Proof.
  intros Hp Hentry Hlen salt. unfold App._handle_initial_pin_check.
  assert (Hpin : str_truthy pin = true).
  { apply str_truthy_ne. intros ->. simpl in Hlen. lia. }
  assert (His : exists w0, AppLock.is_pin_set w = (Ret false, w0) /\
                           healthy w0 /\ passwords w0 = passwords w /\
                           rng w0 = rng w /\ rng_pos w0 = rng_pos w).
  { unfold AppLock.is_pin_set, try_except, bind, get_password, backend_call. rewrite Hp.
    destruct f as [[] m]; simpl; eexists; split; try reflexivity; by repeat split. }
  destruct His as (w0 & -> & Hh0 & Hpw0 & Hrng & Hpos).
  rewrite Hentry. cbn [SecureStorage.opt_truthy default id]. rewrite Hpin.
  unfold AppLock.set_app_pin.
  destruct (Nat.ltb_spec (len pin) 4) as [?|_]; [lia|].
  unfold try_except, bind, AppLock._generate_salt, os_urandom.
  rewrite set_password_healthy by done. rewrite set_password_healthy by done.
  eexists _, _. split; [reflexivity|]. simpl. rewrite Hpw0, Hrng, Hpos. by repeat split.
Qed.

End Startup.

Lemma first_run_sets_the_pin_witness :
  exists s' w1,
    App._handle_initial_pin_check Toy.pbkdf2_hmac_sha256 always_9753 fresh_session empty_world
    = (Ret true, s', w1) /\
    AppLock.set_app_pin Toy.pbkdf2_hmac_sha256 "9753" empty_world = (Ret tt, w1) /\
    Main.app_unlocked s' = true /\ Main.verified s' = [] /\ Main.dialogs s' = 1.
Proof.
  apply (first_run_sets_the_pin Toy.pbkdf2_hmac_sha256 always_9753 fresh_session empty_world
           "9753"); [reflexivity | reflexivity | reflexivity | vm_compute; lia].
Defined.

(** Witness: the keyring holds the PIN "2468"; its first call fails and
    the user types "9753". *)
Lemma failed_check_is_taken_for_a_first_run_witness :
  exists s' w1,
    App._handle_initial_pin_check Toy.pbkdf2_hmac_sha256 always_9753 fresh_session
      pin_2468_failing_once = (Ret true, s', w1) /\
    Main.app_unlocked s' = true /\ Main.verified s' = [] /\
    passwords w1
    = <[(AppLock.SERVICE_NAME, AppLock.PIN_HASH_KEY) :=
          hex (AppLock._hash_pin Toy.pbkdf2_hmac_sha256 "9753"
                 (map (rng pin_2468_failing_once) (seq (rng_pos pin_2468_failing_once) 16)))]>
        (<[(AppLock.SERVICE_NAME, AppLock.SALT_KEY) :=
             hex (map (rng pin_2468_failing_once) (seq (rng_pos pin_2468_failing_once) 16))]>
           (passwords pin_2468_failing_once)).
Proof.
  apply (failed_check_is_taken_for_a_first_run Toy.pbkdf2_hmac_sha256 always_9753 fresh_session
           pin_2468_failing_once (mk_fault BackendFailed "timeout") "9753");
    [reflexivity | reflexivity | vm_compute; lia].
Defined.

(** ** ui/settings_frame.py: the auto-lock menu *)

(** Every timeout the menu can pass on is one [str] prints. *)
Lemma menu_seconds_printable selected :
  int_str_ok (SettingsFrame.options_get SettingsFrame.auto_lock_options selected
                DEFAULT_AUTO_LOCK_SECONDS) = true.
Proof.
  unfold SettingsFrame.options_get, SettingsFrame.auto_lock_options.
  repeat (destruct (String.eqb selected _); [reflexivity|]). reflexivity.
Qed.

Lemma set_timeout_one_timer seconds c :
  App.one_timer_at_most c -> App.one_timer_at_most (App.set_timeout seconds c).
Proof. done. Qed.

(** A choice in the auto-lock menu is stored, armed and shown: on a
    backend that works, choosing one of the six options stores its
    seconds, makes them the timeout of the application, leaves one
    timer of that delay pending when the application is unlocked and
    the option is not "Disabled" (none otherwise), and the menu built
    next shows the option chosen. *)
Theorem auto_lock_choice_is_stored_armed_and_shown
    (selected : string) (seconds : Z) (app_unlocked : bool) (c : App.clock) (w : world pyval) :
  In (selected, seconds) SettingsFrame.auto_lock_options ->
  healthy w -> App.one_timer_at_most c ->
  exists c' w',
    SettingsFrame._on_auto_lock_change selected app_unlocked c w
    = (Ret [App.InfoBox "Auto-Lock Updated" ("Auto-lock timeout set to " +:+ selected +:+ ".")],
       c', w') /\
    lookup_doc w' AUTO_LOCK_SETTING_KEY = Some (PInt seconds) /\
    App.auto_lock_after_seconds c' = seconds /\
    App.scheduled c'
    = (if app_unlocked && (0 <? seconds)%Z then [(App.next_after c, (seconds * 1000)%Z)] else []) /\
    SettingsFrame._load_and_set_auto_lock_display w' = (Ret selected, w').
Proof.
  intros Hin Hh Hc.
  assert (Hopt : SettingsFrame.options_get SettingsFrame.auto_lock_options selected
                   DEFAULT_AUTO_LOCK_SECONDS = seconds
                 /\ SettingsFrame.display_for SettingsFrame.auto_lock_options seconds "5 Minutes"
                    = selected
                 /\ int_str_ok seconds = true).
  { simpl in Hin. repeat (destruct Hin as [[= <- <-]|Hin]; [by repeat split|]). done. }
  destruct Hopt as (Hget & Hshow & Hok).
  unfold SettingsFrame._on_auto_lock_change. rewrite Hget.
  destruct (auto_lock_setting_stored w seconds Hh Hok) as (w1 & -> & Hh1 & Hread & Hdoc).
  unfold App.update_auto_lock_and_reset_timer. rewrite Hread.
  destruct (reset_inactivity_timer_spec app_unlocked (App.set_timeout seconds c)
              (set_timeout_one_timer seconds c Hc)) as (Hsched & _ & Hsecs).
  eexists _, _. split; [reflexivity|]. split; [done|]. split; [done|]. split; [done|].
  unfold SettingsFrame._load_and_set_auto_lock_display.
  rewrite (bind_ret _ _ _ _ _ Hread). by rewrite Hshow.
Qed.

(** Witness: "Disabled" chosen while a timer of five minutes runs. *)
Lemma auto_lock_choice_is_stored_armed_and_shown_witness :
  exists c' w',
    SettingsFrame._on_auto_lock_change "Disabled" true running_clock alice_world
    = (Ret [App.InfoBox "Auto-Lock Updated" "Auto-lock timeout set to Disabled."], c', w') /\
    lookup_doc w' AUTO_LOCK_SETTING_KEY = Some (PInt 0) /\
    App.auto_lock_after_seconds c' = 0%Z /\
    App.scheduled c' = [] /\
    SettingsFrame._load_and_set_auto_lock_display w' = (Ret "Disabled", w').
Proof.
  apply (auto_lock_choice_is_stored_armed_and_shown "Disabled" 0 true running_clock alice_world);
    [by left | reflexivity | reflexivity].
Defined.

(** A choice that could not be stored is reported as stored: when the
    backend fails the write of the setting and works afterwards, the
    menu shows "Auto-Lock Updated" all the same; nothing was written,
    and the timeout the application takes up is the one that was
    stored before, or the default when there was none (or none that
    [int] reads: an integer of at most 4300 digits). *)
Theorem auto_lock_choice_is_reported_when_not_stored
    (selected : string) (app_unlocked : bool) (c : App.clock) (w : world pyval) (f : fault) :
  plan w = [Some f] ->
  exists c' w',
    SettingsFrame._on_auto_lock_change selected app_unlocked c w
    = (Ret [App.InfoBox "Auto-Lock Updated" ("Auto-lock timeout set to " +:+ selected +:+ ".")],
       c', w') /\
    passwords w' = passwords w /\
    App.auto_lock_after_seconds c'
    = match lookup_doc w AUTO_LOCK_SETTING_KEY with
      | Some (PInt seconds) => if int_str_ok seconds then seconds else DEFAULT_AUTO_LOCK_SECONDS
      | _ => DEFAULT_AUTO_LOCK_SECONDS
      end.
Proof.
  intros Hp. unfold SettingsFrame._on_auto_lock_change.
  assert (Hsave : exists w1,
            save_auto_lock_setting
              (SettingsFrame.options_get SettingsFrame.auto_lock_options selected
                 DEFAULT_AUTO_LOCK_SECONDS) w = (Ret tt, w1)
            /\ healthy w1 /\ passwords w1 = passwords w).
  { unfold save_auto_lock_setting, try_except, bind, set_password, backend_call.
    rewrite menu_seconds_printable. unfold ret at 1. rewrite Hp.
    destruct f as [[] m]; simpl; eexists; split; try reflexivity; by split. }
  destruct Hsave as (w1 & -> & Hh1 & Hpw1).
  unfold App.update_auto_lock_and_reset_timer.
  unfold get_auto_lock_setting, try_except, bind. rewrite get_password_healthy by done.
  unfold lookup_doc. rewrite Hpw1.
  destruct (passwords w !! (SERVICE_NAME, AUTO_LOCK_SETTING_KEY)) as [[| |z| | |]|]; simpl;
    try destruct (int_str_ok z); simpl;
    eexists _, _; (split; [reflexivity|]); split; try done;
    unfold App.reset_inactivity_timer, App.cancel_inactivity_timer;
    destruct (App.inactivity_timer_id _); simpl;
    by destruct (app_unlocked && _).
Qed.

(** Witness: "1 Hour" chosen on a backend that fails once; the vault
    holds no setting and the timeout becomes the default. *)
Lemma auto_lock_choice_is_reported_when_not_stored_witness :
  exists c' w',
    SettingsFrame._on_auto_lock_change "1 Hour" true running_clock (failing_once alice_vault)
    = (Ret [App.InfoBox "Auto-Lock Updated" "Auto-lock timeout set to 1 Hour."], c', w') /\
    passwords w' = alice_vault /\
    App.auto_lock_after_seconds c' = 300%Z.
Proof.
  exact (auto_lock_choice_is_reported_when_not_stored "1 Hour" true running_clock
           (failing_once alice_vault) (mk_fault BackendFailed "timeout") eq_refl).
Defined.

(** ** ui/settings_frame.py: the PIN button *)

Section ChangePin.

Variable pbkdf2_hmac_sha256 : list byte -> list byte -> N -> list byte.

Abbreviation _hash_pin := (AppLock._hash_pin pbkdf2_hmac_sha256).
Abbreviation _handle_change_pin := (SettingsFrame._handle_change_pin pbkdf2_hmac_sha256).

Lemma is_pin_set_healthy (w : world string) (salt_hex hash_hex : string) :
  healthy w ->
  passwords w !! (AppLock.SERVICE_NAME, AppLock.SALT_KEY) = Some salt_hex ->
  passwords w !! (AppLock.SERVICE_NAME, AppLock.PIN_HASH_KEY) = Some hash_hex ->
  AppLock.is_pin_set w = (Ret true, w).
Proof.
  intros Hh Hsalt Hhash. unfold AppLock.is_pin_set, try_except, bind.
  rewrite !get_password_healthy by done. by rewrite Hsalt, Hhash.
Qed.

Lemma salt_not_empty (w : world string) : map (rng w) (seq (rng_pos w) 16) <> [].
Proof. intros E. apply (f_equal length) in E. by rewrite length_map, length_seq in E. Qed.

(** No change of PIN without the current PIN: on a backend that works
    and holds a credential, when the PIN typed as the current one does
    not hash to the stored hash, or the dialog is cancelled, the
    handler leaves, the keyring as it was, whatever new PIN was ready. *)
Theorem wrong_current_pin_changes_nothing
    (w : world string) (salt stored : list byte) (current_pin : string)
    (new_pin : option string) :
  healthy w -> salt <> [] -> stored <> [] ->
  passwords w !! (AppLock.SERVICE_NAME, AppLock.SALT_KEY) = Some (hex salt) ->
  passwords w !! (AppLock.SERVICE_NAME, AppLock.PIN_HASH_KEY) = Some (hex stored) ->
  current_pin <> "" -> _hash_pin current_pin salt <> stored ->
  _handle_change_pin (Some current_pin) new_pin w
  = (Ret ([App.ErrorBox "PIN Verification Failed" "The current PIN you entered is incorrect."],
          None), w) /\
  _handle_change_pin None new_pin w = (Ret ([], None), w).
Proof.
  intros Hh Hs Hst Hsalt Hhash Hcur Hwrong. unfold SettingsFrame._handle_change_pin.
  rewrite !(bind_ret _ _ _ _ _ (is_pin_set_healthy w _ _ Hh Hsalt Hhash)).
  cbn [negb SecureStorage.opt_truthy default id]. rewrite (str_truthy_ne _ Hcur). cbn [negb].
  split; [|done].
  rewrite (bind_ret _ _ _ _ _
             (verify_app_pin_healthy pbkdf2_hmac_sha256 w current_pin salt stored
                Hh Hs Hst Hsalt Hhash)).
  by rewrite bool_decide_eq_false_2.
Qed.

(** With the current PIN, the PIN is changed: on a backend that works,
    when the PIN typed as the current one hashes to the stored hash and
    the new PIN has four characters or more, the handler stores the new
    credential; afterwards the new PIN is verified, and no PIN whose
    digest under the new salt differs from that of the new PIN. *)
Theorem current_pin_opens_the_change
    (w : world string) (salt : list byte) (current_pin new_pin : string) :
  healthy w -> salt <> [] -> _hash_pin current_pin salt <> [] ->
  passwords w !! (AppLock.SERVICE_NAME, AppLock.SALT_KEY) = Some (hex salt) ->
  passwords w !! (AppLock.SERVICE_NAME, AppLock.PIN_HASH_KEY)
  = Some (hex (_hash_pin current_pin salt)) ->
  current_pin <> "" -> 4 <= len new_pin ->
  let new_salt := map (rng w) (seq (rng_pos w) 16) in
  _hash_pin new_pin new_salt <> [] ->
  exists w1,
    _handle_change_pin (Some current_pin) (Some new_pin) w
    = (Ret ([App.InfoBox "PIN Updated" "Application PIN has been successfully set/updated."],
            Some "Change PIN"), w1) /\
    AppLock.verify_app_pin pbkdf2_hmac_sha256 new_pin w1 = (Ret true, w1) /\
    (forall other, _hash_pin other new_salt <> _hash_pin new_pin new_salt ->
       AppLock.verify_app_pin pbkdf2_hmac_sha256 other w1 = (Ret false, w1)).
Proof.
  intros Hh Hs Hdig Hsalt Hhash Hcur Hlen new_salt Hnew.
  unfold SettingsFrame._handle_change_pin.
  rewrite (bind_ret _ _ _ _ _ (is_pin_set_healthy w _ _ Hh Hsalt Hhash)).
  cbn [negb SecureStorage.opt_truthy default id]. rewrite (str_truthy_ne _ Hcur). cbn [negb].
  rewrite (bind_ret _ _ _ _ _
             (verify_app_pin_healthy pbkdf2_hmac_sha256 w current_pin salt _
                Hh Hs Hdig Hsalt Hhash)).
  rewrite bool_decide_eq_true_2 by done. cbn [negb].
  destruct (set_app_pin_healthy pbkdf2_hmac_sha256 w new_pin Hh Hlen)
    as (w1 & Hset & Hh1 & Hsalt1 & Hhash1).
  fold new_salt in Hsalt1, Hhash1.
  assert (Hpin : str_truthy new_pin = true).
  { apply str_truthy_ne. intros ->. simpl in Hlen. lia. }
  exists w1. split.
  - unfold SettingsFrame._set_initial_pin. cbn [SecureStorage.opt_truthy default id].
    rewrite Hpin. unfold bind at 1. rewrite Hset.
    unfold SettingsFrame.update_pin_button_states.
    rewrite (bind_ret _ _ _ _ _
               (bind_ret _ _ _ _ _ (is_pin_set_healthy w1 _ _ Hh1 Hsalt1 Hhash1))).
    reflexivity.
  - split.
    + rewrite (verify_app_pin_healthy pbkdf2_hmac_sha256 w1 new_pin new_salt
                 (_hash_pin new_pin new_salt) Hh1 (salt_not_empty w) Hnew Hsalt1 Hhash1).
      by rewrite bool_decide_eq_true_2.
    + intros other Hother.
      rewrite (verify_app_pin_healthy pbkdf2_hmac_sha256 w1 other new_salt
                 (_hash_pin new_pin new_salt) Hh1 (salt_not_empty w) Hnew Hsalt1 Hhash1).
      by rewrite bool_decide_eq_false_2.
Qed.

(** A failed check opens the change to anyone: when the backend fails
    the first read of [is_pin_set] and works afterwards, the handler
    takes the PIN for unset, does not ask for the current PIN and
    stores the new one over the credential the keyring held. *)
Theorem failed_check_changes_the_pin_unverified
    (w : world string) (f : fault) (current_pin : option string) (new_pin : string) :
  plan w = [Some f] -> 4 <= len new_pin ->
  let new_salt := map (rng w) (seq (rng_pos w) 16) in
  exists shown w1,
    _handle_change_pin current_pin (Some new_pin) w
    = (Ret ([App.InfoBox "PIN Updated" "Application PIN has been successfully set/updated."],
            Some shown), w1) /\
    passwords w1
    = <[(AppLock.SERVICE_NAME, AppLock.PIN_HASH_KEY) := hex (_hash_pin new_pin new_salt)]>
        (<[(AppLock.SERVICE_NAME, AppLock.SALT_KEY) := hex new_salt]> (passwords w)).
Proof.
  intros Hp Hlen new_salt. unfold SettingsFrame._handle_change_pin.
  assert (Hpin : str_truthy new_pin = true).
  { apply str_truthy_ne. intros ->. simpl in Hlen. lia. }
  assert (His : exists w0, AppLock.is_pin_set w = (Ret false, w0) /\
                           healthy w0 /\ passwords w0 = passwords w /\
                           rng w0 = rng w /\ rng_pos w0 = rng_pos w).
  { unfold AppLock.is_pin_set, try_except, bind, get_password, backend_call. rewrite Hp.
    destruct f as [[] m]; simpl; eexists; split; try reflexivity; by repeat split. }
  destruct His as (w0 & His & Hh0 & Hpw0 & Hrng & Hpos).
  rewrite (bind_ret _ _ _ _ _ His). cbn [negb].
  destruct (set_app_pin_healthy pbkdf2_hmac_sha256 w0 new_pin Hh0 Hlen)
    as (w1 & Hset & Hh1 & Hsalt1 & Hhash1).
  unfold SettingsFrame._set_initial_pin. cbn [SecureStorage.opt_truthy default id].
  rewrite Hpin. unfold bind at 1. rewrite Hset.
  unfold SettingsFrame.update_pin_button_states.
  rewrite (bind_ret _ _ _ _ _
             (bind_ret _ _ _ _ _ (is_pin_set_healthy w1 _ _ Hh1 Hsalt1 Hhash1))).
  eexists _, _. split; [reflexivity|].
  revert Hset. unfold AppLock.set_app_pin.
  destruct (Nat.ltb_spec (len new_pin) 4) as [?|_]; [lia|].
  unfold try_except, bind, AppLock._generate_salt, os_urandom.
  rewrite set_password_healthy by done. rewrite set_password_healthy by done.
  intros [= <-]. simpl. unfold new_salt. by rewrite Hpw0, Hrng, Hpos.
Qed.

End ChangePin.

(** Witness: the PIN "2468" is set; "0000" is typed as the current PIN. *)
Lemma wrong_current_pin_changes_nothing_witness :
  SettingsFrame._handle_change_pin Toy.pbkdf2_hmac_sha256 (Some "0000") (Some "9753")
    pin_2468_world
  = (Ret ([App.ErrorBox "PIN Verification Failed" "The current PIN you entered is incorrect."],
          None), pin_2468_world) /\
  SettingsFrame._handle_change_pin Toy.pbkdf2_hmac_sha256 None (Some "9753") pin_2468_world
  = (Ret ([], None), pin_2468_world).
Proof.
  apply (wrong_current_pin_changes_nothing Toy.pbkdf2_hmac_sha256 pin_2468_world
           (map (rng (@empty_world string)) (seq (rng_pos (@empty_world string)) 16))
           (AppLock._hash_pin Toy.pbkdf2_hmac_sha256 "2468"
              (map (rng (@empty_world string)) (seq (rng_pos (@empty_world string)) 16)))
           "0000" (Some "9753")); try reflexivity; discriminate.
Defined.

(** Witness: the PIN "2468" is changed to "9753". *)
Lemma current_pin_opens_the_change_witness :
  exists w1,
    SettingsFrame._handle_change_pin Toy.pbkdf2_hmac_sha256 (Some "2468") (Some "9753")
      pin_2468_world
    = (Ret ([App.InfoBox "PIN Updated" "Application PIN has been successfully set/updated."],
            Some "Change PIN"), w1) /\
    AppLock.verify_app_pin Toy.pbkdf2_hmac_sha256 "9753" w1 = (Ret true, w1) /\
    AppLock.verify_app_pin Toy.pbkdf2_hmac_sha256 "2468" w1 = (Ret false, w1).
Proof.
  destruct (current_pin_opens_the_change Toy.pbkdf2_hmac_sha256 pin_2468_world
              (map (rng (@empty_world string)) (seq (rng_pos (@empty_world string)) 16)) "2468" "9753")
    as (w1 & Hrun & Hnew & Hold); try reflexivity; try discriminate.
  exists w1. split; [exact Hrun|]. split; [exact Hnew|]. apply Hold. discriminate.
Defined.

(** Witness: the keyring holds the PIN "2468"; its first call fails, no
    current PIN is asked for and "9753" is stored. *)
Lemma failed_check_changes_the_pin_unverified_witness :
  exists shown w1,
    SettingsFrame._handle_change_pin Toy.pbkdf2_hmac_sha256 None (Some "9753")
      pin_2468_failing_once
    = (Ret ([App.InfoBox "PIN Updated" "Application PIN has been successfully set/updated."],
            Some shown), w1) /\
    passwords w1
    = <[(AppLock.SERVICE_NAME, AppLock.PIN_HASH_KEY) :=
          hex (AppLock._hash_pin Toy.pbkdf2_hmac_sha256 "9753"
                 (map (rng pin_2468_failing_once) (seq (rng_pos pin_2468_failing_once) 16)))]>
        (<[(AppLock.SERVICE_NAME, AppLock.SALT_KEY) :=
             hex (map (rng pin_2468_failing_once) (seq (rng_pos pin_2468_failing_once) 16))]>
           (passwords pin_2468_failing_once)).
Proof.
  apply (failed_check_changes_the_pin_unverified Toy.pbkdf2_hmac_sha256 pin_2468_failing_once
           (mk_fault BackendFailed "timeout") None "9753"); [reflexivity | vm_compute; lia].
Defined.

(** ** ui/settings_frame.py: backup and restore *)

Lemma token_data_of_inv entry (w : world pyval) r w' :
  token_data_of entry w = (r, w') ->
  passwords w' = passwords w /\ exists tokens, r = Ret tokens.
Proof.
  destruct entry as [| | |identifier| |]; simpl;
    try (unfold bind, print, ret; intros [= <- <-]; simpl; eauto).
  unfold bind.
  destruct (get_token_secret_spec identifier w) as (t & w1 & -> & [Hpw _] & _).
  destruct t as [[| | | | |d]|]; try (intros [= <- <-]; eauto).
  destruct (_ && _); [intros [= <- <-]; eauto|].
  unfold print, ret. intros [= <- <-]. simpl. eauto.
Qed.

Lemma collect_token_data_inv entries : forall (w : world pyval) r w',
  collect_token_data entries w = (r, w') ->
  passwords w' = passwords w /\ exists tokens, r = Ret tokens.
Proof.
  induction entries as [|entry rest IH]; intros w r w'; simpl.
  - intros [= <- <-]. eauto.
  - unfold bind. destruct (token_data_of entry w) as [r1 w1] eqn:H1.
    apply token_data_of_inv in H1 as [Hpw1 [here ->]].
    destruct (collect_token_data rest w1) as [r2 w2] eqn:H2.
    apply IH in H2 as [Hpw2 [there ->]]. unfold ret. intros [= <- <-].
    split; [congruence | eauto].
Qed.

Lemma get_all_token_data_inv (w : world pyval) r w' :
  get_all_token_data w = (r, w') ->
  passwords w' = passwords w /\
  match r with Raise e => is_Exception e = true | Ret _ => True end.
Proof.
  unfold get_all_token_data.
  destruct (get_all_token_identifiers_returns w) as (v & w1 & Hget & [Hpw1 _]).
  rewrite (bind_ret _ _ _ _ _ Hget). unfold bind.
  destruct (py_iter v w1) as [[entries|e] w2] eqn:Hiter.
  - assert (w2 = w1) as -> by (destruct v; by inversion Hiter).
    intros H. apply collect_token_data_inv in H as [Hpw [tokens ->]]. split; [congruence|done].
  - intros [= <- <-]. destruct v; inversion Hiter; subst; by split.
Qed.

Section Backup.

Import Settings.

Variable pbkdf2_derive : nat -> list byte -> N -> list byte -> list byte.
Variable aesgcm_encrypt : list byte -> list byte -> list byte -> list byte.
Variable b64encode : list byte -> string.
Variable json_dumps : pyval -> string.

(** A backup reads only: whatever the backend does, the handler of
    "Backup Tokens..." ends with one of its outcomes and leaves every
    stored password as it was; it writes a file only when a file was
    chosen, the listing is not empty and a password was given. *)
Theorem backup_reads_only
    (backup_file_path : string) (password : option string) (w : world pyval) :
  exists outcome w',
    _handle_backup_tokens pbkdf2_derive aesgcm_encrypt b64encode json_dumps
      backup_file_path password w = (Ret outcome, w') /\
    passwords w' = passwords w /\
    (forall content, outcome = BackupWritten content ->
       backup_file_path <> "" /\ SecureStorage.opt_truthy password = true /\
       exists w0 token tokens, get_all_token_data w = (Ret (token :: tokens), w0)).
Proof.
  unfold _handle_backup_tokens, str_truthy.
  destruct (String.eqb_spec backup_file_path "") as [->|Hpath]; cbn [negb];
    [eexists _, _; split; [reflexivity|]; by split|].
  unfold try_except, backup_body, bind.
  destruct (get_all_token_data w) as [[tokens|e] w0] eqn:Hall;
    apply get_all_token_data_inv in Hall as Hinv; destruct Hinv as [Hpw He].
  - destruct tokens as [|token tokens];
      [eexists _, _; split; [reflexivity|]; by split|].
    destruct (SecureStorage.opt_truthy password) eqn:Hpass; cbn [negb];
      [|eexists _, _; split; [reflexivity|]; by split].
    unfold os_urandom, ret. eexists _, _. split; [reflexivity|]. split; [done|].
    intros content _. split; [done|]. split; [done|]. eauto.
  - rewrite He. eexists _, _. split; [reflexivity|]. by split.
Qed.

End Backup.

Section RestoreFacts.

Import Settings Import_.

Variable pbkdf2_derive : nat -> list byte -> N -> list byte -> list byte.
Variable aesgcm_decrypt : list byte -> list byte -> list byte -> option (list byte).
Variable b64decode : string -> option (list byte).
Variable json_loads : string -> option pyval.
Variable utf8_decode : list byte -> option string.

Lemma restore_loop_counts `{SL : StrLower} tokens : forall restored failed (w : world pyval) counts w',
  restore_loop tokens restored failed w = (Ret counts, w') ->
  fst counts + snd counts = restored + failed + length tokens.
Proof.
  induction tokens as [|token rest IH]; intros restored failed w counts w'; simpl.
  - intros [= <- _]. simpl. lia.
  - unfold bind. destruct (restore_token token w) as [[[|]|e] w1]; [| |done];
      intros H; apply IH in H; lia.
Qed.

(** A restore writes only on its way to the summary, and the summary
    counts every token: whatever the backend does, the handler of
    "Restore Tokens..." ends with one of its outcomes; if that is not
    the summary, the keyring and the output are as they were; if it
    is, the user confirmed, the file gave a list of tokens and the
    restored and the failed ones add up to its length. *)
Theorem restore_counts_every_token `{SL : StrLower}
    (restore_file_path : string) (file : option pyval) (password : option string)
    (confirm : bool) (w : world pyval) :
  exists outcome w',
    _handle_restore_tokens pbkdf2_derive aesgcm_decrypt b64decode json_loads utf8_decode
      restore_file_path file password confirm w = (Ret outcome, w') /\
    match outcome with
    | RestoreSummary restored_count failed_count =>
        confirm = true /\
        exists tokens,
          tokens_of pbkdf2_derive aesgcm_decrypt b64decode json_loads utf8_decode file password
          = Some tokens /\
          restored_count + failed_count = length tokens
    | _ => w' = w
    end.
Proof.
  unfold _handle_restore_tokens.
  destruct (str_truthy restore_file_path); cbn [negb]; [|by eexists _, _].
  unfold try_except.
  destruct (restore_body _ _ _ _ _ file password confirm w) as [r0 w0] eqn:Hbody.
  destruct (restore_body_cases _ _ _ _ _ file password confirm w w0 r0 Hbody)
    as [(-> & Hr0 & _) | (tokens & Htok & Hne & Hconf & Hloop)].
  - destruct r0 as [o|e].
    + eexists _, _. split; [reflexivity|]. destruct o; try done. by destruct (Hr0 restored_count failed_count).
    + rewrite Hr0. destruct (is_class JSONDecodeError e); by eexists _, _.
  - assert (Hd := tokens_of_dicts _ _ _ _ _ _ _ _ Htok).
    destruct (restore_loop_returns tokens Hd 0 0 w) as (counts & w1 & Hl).
    rewrite (bind_ret _ _ _ _ _ Hl) in Hloop.
    destruct (load_and_display_tokens_returns w1) as (w2 & Hdisp).
    rewrite (bind_ret _ _ _ _ _ Hdisp) in Hloop.
    destruct (update_auto_lock_and_reset_timer_returns w2) as (w3 & Hu).
    rewrite (bind_ret _ _ _ _ _ Hu) in Hloop.
    injection Hloop as <- <-. eexists _, _. split; [reflexivity|]. split; [done|].
    exists tokens. split; [done|]. apply restore_loop_counts in Hl. simpl in Hl. lia.
Qed.

End RestoreFacts.
